(** * Devdeo/devv: upload de-duplication, stream sessions and the
      market-data cache, embedded from [src/new.py], [src/main.py] and
      [src/Nse.py].

    The Flask handlers and their background tasks are written as functions
    on an explicit [state] holding the two module-level dictionaries
    ([video_hashes], [active_streams]), the upload area of the file system,
    the table of child processes and the pending [threading.Timer]s.  A
    background task is a record with a program counter; one step of a task
    runs it up to its next blocking call.  Wall-clock time is not part of
    the model: a sleeping task may resume at any later step and a pending
    timer may fire at any later step. *)

From stdpp Require Import gmap strings list fin_maps.
From Stdlib Require Import Ascii QArith.

Close Scope Q_scope.
Open Scope string_scope.

#[global] Set Warnings "-clear-no-such-hyp".

(** ** Python string operations used by the handlers

    A [string] is a text given by its bytes.  [lower] and [upper] change
    the 26 ASCII letters and nothing else: they are [str.lower()] and
    [str.upper()] on texts for which [s.isascii()] holds.  Python also
    maps letters outside ASCII, so whatever is stated below about letter
    case is stated of ASCII text, with [is_ascii] as a hypothesis. *)

Definition lower_char (c : Ascii.ascii) : Ascii.ascii :=
  let n := Ascii.nat_of_ascii c in
  if bool_decide (65 ≤ n ≤ 90)%nat then Ascii.ascii_of_nat (n + 32) else c.

Definition upper_char (c : Ascii.ascii) : Ascii.ascii :=
  let n := Ascii.nat_of_ascii c in
  if bool_decide (97 ≤ n ≤ 122)%nat then Ascii.ascii_of_nat (n - 32) else c.

Fixpoint str_map (f : Ascii.ascii → Ascii.ascii) (s : string) : string :=
  match s with
  | EmptyString => EmptyString
  | String c r => String (f c) (str_map f r)
  end.

(** [s.lower()] and [s.upper()] for an ASCII text [s] *)
Definition lower : string → string := str_map lower_char.
Definition upper : string → string := str_map upper_char.

(** [s.isascii()] *)
Fixpoint is_ascii (s : string) : bool :=
  match s with
  | EmptyString => true
  | String c r => bool_decide (Ascii.nat_of_ascii c < 128)%nat && is_ascii r
  end.

(** [s.rsplit('.', 1)[1]] when ['.' in s]: the text after the last dot;
    [None] when [s] has no dot. *)
Fixpoint rsplit_dot (s : string) : option string :=
  match s with
  | EmptyString => None
  | String c r =>
      match rsplit_dot r with
      | Some e => Some e
      | None => if Ascii.eqb c "."%char then Some r else None
      end
  end.

(** [sub in s] on strings *)
Definition str_in (sub s : string) : bool :=
  match String.index 0 sub s with Some _ => true | None => false end.

(** [s.startswith(p)], returning the remainder *)
Fixpoint strip_prefix (p s : string) : option string :=
  match p, s with
  | EmptyString, _ => Some s
  | String a p', String b s' => if Ascii.eqb a b then strip_prefix p' s' else None
  | String _ _, EmptyString => None
  end.

(** ** JSON values and HTTP responses *)

#[warnings="-register-all"]
Inductive json :=
  | JNull
  | JNum (n : Z)
  | JStr (s : string)
  | JObj (fields : list (string * json)).

Fixpoint field (k : string) (fs : list (string * json)) : option json :=
  match fs with
  | [] => None
  | (k', v) :: r => if bool_decide (k' = k) then Some v else field k r
  end.

(** [Json body code] is [jsonify(body), code]; [ServerError] is the 500
    page Flask produces when the view raises; [HttpError code] is the
    error page of a request that was aborted with that status. *)
Inductive response :=
  | Json (body : json) (code : nat)
  | ServerError
  | HttpError (code : nat).

Definition status_code (r : response) : nat :=
  match r with Json _ c => c | ServerError => 500 | HttpError c => c end.

(** ** The body of a start request

    A value of the request's JSON object, as the code looks at it.  A
    JSON string is a Python [str].  Of any other value the code uses the
    name of its Python type (in the text of an [AttributeError]), the text
    that an f-string renders for it, and the JSON that [jsonify] writes
    for it. *)
Inductive value :=
  | Str (s : string)
  | NonStr (type_name rendered : string) (j : json).

Coercion Str : string >-> value.

(** [f'{v}'] *)
Definition render (v : value) : string :=
  match v with Str s => s | NonStr _ r _ => r end.

(** The value inside [jsonify(...)] *)
Definition to_json (v : value) : json :=
  match v with Str s => JStr s | NonStr _ _ j => j end.

(** [v] when it is a [str] *)
Definition text_of (v : value) : option string :=
  match v with Str s => Some s | NonStr _ _ _ => None end.

(** [str(e)] for the [AttributeError] of [v.startswith(...)] *)
Definition no_startswith (type_name : string) : string :=
  "'" +:+ type_name +:+ "' object has no attribute 'startswith'".

(** What [request.get_json()] does, as far as [start_stream] looks at the
    result.  It aborts the request (400 for a body that is not JSON, 415
    for another content type), or it returns the parsed value: a value
    that is no container ([None], a number, a boolean), for which
    [field in data] raises [TypeError]; a JSON string or array, for which
    [field in data] is the substring or the element test [contains] and
    [data[field]] raises [TypeError]; or a JSON object. *)
Inductive request_body :=
  | Aborts (code : nat)
  | Scalar
  | Sequence (contains : string → bool)
  | Object (data : gmap string value).

(** [data[k]] for a key that [data] has *)
Definition item (data : gmap string value) (k : string) : value :=
  default (Str EmptyString) (data !! k).

(** ** The shared state *)

Inductive stream_status := starting | live | completed | stopped | error.

#[global] Instance stream_status_eq_dec : EqDecision stream_status.
Proof. solve_decision. Defined.

Definition status_text (st : stream_status) : string :=
  match st with
  | starting => "starting" | live => "live" | completed => "completed"
  | stopped => "stopped" | error => "error"
  end.

(** A child process started by [subprocess.Popen].  [returncode] is what
    [poll()] returns ([None] while it runs); [heeds_term] says whether the
    process exits within the 5 second wait once it is sent [terminate()]. *)
Record proc := Proc {
  cmd : string;
  heeds_term : bool;
  returncode : option Z
}.

(** A value of [active_streams]: the dictionary built at
    [active_streams[video_id] = {...}], with the optional ['error'] key. *)
Record stream := Stream {
  process : option nat;
  status : stream_status;
  task_id : value;
  start_time : string;
  error_text : option string
}.

Inductive timer_action :=
  | DeleteIfNotStreamed (video_id file_path : string)
  | PopStream (video_id : string).

(** [threading.Timer(interval, action).start()] *)
Record timer := Timer { interval : nat; action : timer_action }.

Record state := State {
  files : gmap string (list Byte.byte);
  video_hashes : gmap string string;
  active_streams : gmap string stream;
  procs : list proc;
  timers : list timer
}.

Definition set_files (f : gmap string (list Byte.byte)) (s : state) : state :=
  State f (video_hashes s) (active_streams s) (procs s) (timers s).
Definition set_video_hashes (h : gmap string string) (s : state) : state :=
  State (files s) h (active_streams s) (procs s) (timers s).
Definition set_active_streams (a : gmap string stream) (s : state) : state :=
  State (files s) (video_hashes s) a (procs s) (timers s).
Definition set_procs (p : list proc) (s : state) : state :=
  State (files s) (video_hashes s) (active_streams s) p (timers s).
Definition start_timer (t : timer) (s : state) : state :=
  State (files s) (video_hashes s) (active_streams s) (procs s) (timers s ++ [t]).

Definition UPLOAD_FOLDER : string := "uploads".
Definition ALLOWED_EXTENSIONS : list string := ["mp4"; "mov"; "avi"; "mkv"; "webm"].

(** [os.path.join(d, name)] for a relative [name] *)
Definition path_join (d name : string) : string := d +:+ "/" +:+ name.

(** [os.listdir(d)]: the names stored directly under [d] *)
Definition listdir (d : string) (fs : gmap string (list Byte.byte)) : list string :=
  omap (λ kv, strip_prefix (d +:+ "/") (fst kv)) (map_to_list fs).

(** [os.path.exists] and [os.remove]; removing a missing file raises. *)
Definition path_exists (p : string) (fs : gmap string (list Byte.byte)) : bool :=
  bool_decide (is_Some (fs !! p)).
Definition os_remove (p : string) (fs : gmap string (list Byte.byte))
  : option (gmap string (list Byte.byte)) :=
  if path_exists p fs then Some (delete p fs) else None.

(** The loop shared by [delete_if_not_streamed] and the end of
    [run_ffmpeg_stream]:
    [for file_hash, vid in list(video_hashes.items()):
       if vid == video_id: del video_hashes[file_hash]] *)
Definition forget_video (video_id : string) (h : gmap string string) : gmap string string :=
  foldr (λ kv m, if bool_decide (snd kv = video_id) then delete (fst kv) m else m)
        h (map_to_list h).

(** ** Child processes *)

Definition poll (pid : nat) (ps : list proc) : option Z :=
  p ← ps !! pid; returncode p.

Definition running (pid : nat) (ps : list proc) : bool :=
  match poll pid ps with None => true | Some _ => false end.

Definition set_returncode (rc : Z) (p : proc) : proc :=
  match returncode p with
  | None => Proc (cmd p) (heeds_term p) (Some rc)
  | Some _ => p
  end.

(** [process.terminate()]: SIGTERM, which a heeding process obeys *)
Definition terminate (pid : nat) (ps : list proc) : list proc :=
  alter (λ p, if heeds_term p then set_returncode (-15) p else p) pid ps.

(** [process.kill()] *)
Definition kill (pid : nat) (ps : list proc) : list proc :=
  alter (set_returncode (-9)) pid ps.

(** [process.wait(timeout=5)]: returns once the process has exited and
    raises [TimeoutExpired] ([None]) when it is still running at the
    timeout. *)
Definition wait_timeout (pid : nat) (ps : list proc) : option (list proc) :=
  if running pid ps then None else Some ps.

(** [cleanup_process(process)] for a bound [process]; [None] is Python's
    [None].  The [except] clause swallows [TimeoutExpired]. *)
Definition cleanup_process (process : option nat) (ps : list proc) : list proc :=
  match process with
  | None => ps
  | Some pid =>
      if running pid ps then
        let ps1 := terminate pid ps in
        match wait_timeout pid ps1 with
        | Some ps2 => if running pid ps2 then kill pid ps2 else ps2
        | None => ps1
        end
      else ps
  end.

(** ** Functions that [new.py] and [main.py] share verbatim *)

Section Shared.
(** [hashlib.sha256] of a whole byte string, as a hex digest *)
Variable sha256 : list Byte.byte → string.

Definition allowed_file (filename : string) : bool :=
  match rsplit_dot filename with
  | Some ext => bool_decide (lower ext ∈ ALLOWED_EXTENSIONS)
  | None => false
  end.

(** Reads the file in 4096-byte chunks and feeds them to one digest:
    the digest of the whole content.  [None] when [open] raises. *)
Definition compute_file_hash (file_path : string) (s : state) : option string :=
  sha256 <$> files s !! file_path.

Definition delete_if_not_streamed (video_id file_path : string) (s : state) : state :=
  match active_streams s !! video_id with
  | Some _ => s
  | None =>
      if path_exists file_path (files s) then
        match os_remove file_path (files s) with
        | Some fs' =>
            set_video_hashes (forget_video video_id (video_hashes s)) (set_files fs' s)
        | None => s
        end
      else s
  end.
End Shared.

(** ** Background tasks *)

(** The closure [post_process] of one upload, with its position.  The
    hash is computed first (file I/O), then looked up, then acted upon;
    another thread can run between any two of these. *)
Inductive pp_pc :=
  | PPHash
  | PPCheck (file_hash : string)
  | PPRemove
  | PPInsert (file_hash : string)
  | PPArm
  | PPDone.

Record pp_task := PPTask {
  pp_video_id : string;
  pp_save_path : string;
  pp_at : pp_pc
}.

(** The arguments of [run_ffmpeg_stream]: the path and the id are texts,
    the other four are the values of the request as they came. *)
Record ff_args := FFArgs {
  video_path : string;
  stream_key : value;
  loops : value;
  video_id : string;
  ff_task_id : value;
  platform : value
}.

(** Where a [run_ffmpeg_stream] thread stands: before its first statement,
    in [time.sleep(5)], in [process.wait()], in the [time.sleep(2)] that
    opens the [finally] block, in the [time.sleep(2)] that follows a failed
    [os.remove] (with the value of [attempts]), or finished. *)
Inductive ff_pc := Enter | Settle | Wait | FinSleep | Retry (attempts : nat) | Done.

#[global] Instance ff_pc_eq_dec : EqDecision ff_pc.
Proof. solve_decision. Defined.

(** [ff_process] is the local variable [process]; [None] while unbound. *)
Record ff_task := FFTask {
  ff_arg : ff_args;
  ff_at : ff_pc;
  ff_process : option nat
}.

(** What the surroundings decide when a thread runs: the clock reading,
    whether [subprocess.Popen] raises ([inl] with the exception text) or
    starts a child ([inr], with that child's reaction to SIGTERM), and
    whether [os.remove(video_path)] in the retry loop raises. *)
Record env := Env {
  now : string;
  popen : string + bool;
  remove_raises : bool
}.

Definition dquote : string := String (Ascii.ascii_of_nat 34) EmptyString.

Definition quoted (s : string) : string := dquote +:+ s +:+ dquote.

(** The [except Exception as e] clause of [run_ffmpeg_stream]:
    [active_streams[video_id]['status'] = 'error'] raises [KeyError] when
    the key is absent, and then neither assignment takes place. *)
Definition except_clause (vid msg : string) (s : state) : state :=
  match active_streams s !! vid with
  | Some st =>
      set_active_streams
        (<[vid := Stream (process st) error (task_id st) (start_time st) (Some msg)]>
           (active_streams s)) s
  | None => s
  end.

(** [active_streams[video_id]['status'] = st]; [None] is [KeyError]. *)
Definition set_status (vid : string) (st : stream_status) (s : state) : option state :=
  match active_streams s !! vid with
  | Some e =>
      Some (set_active_streams
              (<[vid := Stream (process e) st (task_id e) (start_time e) (error_text e)]>
                 (active_streams s)) s)
  | None => None
  end.

Definition max_attempts : nat := 5.

(** What follows the retry loop:
    [threading.Timer(300, lambda: active_streams.pop(video_id, None)).start()],
    which ends the thread. *)
Definition finish (t : ff_task) (s : state) : state * ff_task :=
  (start_timer (Timer 300 (PopStream (video_id (ff_arg t)))) s,
   FFTask (ff_arg t) Done (ff_process t)).

(** One pass of the retry loop, entered with [attempts < max_attempts].
    A missing file ends the loop at [break].  A file that is there is
    removed, with the hash entries of the video, and [break] ends the
    loop; when [os.remove] raises, [attempts] goes up by one and the
    thread sleeps two seconds. *)
Definition remove_attempt (e : env) (t : ff_task) (attempts : nat) (s : state)
  : state * ff_task :=
  let a := ff_arg t in
  if path_exists (video_path a) (files s) then
    if remove_raises e then (s, FFTask a (Retry (S attempts)) (ff_process t))
    else
      finish t (set_video_hashes (forget_video (video_id a) (video_hashes s))
                  (set_files (delete (video_path a) (files s)) s))
  else finish t s.

(** [str(KeyError(k))] *)
Definition key_error (k : string) : string := "'" +:+ k +:+ "'".

(** ** The market-data cache of [new.py] and [Nse.py] *)

(** A value of [index_cache]; time stamps are [time.time()] readings,
    taken as rationals. *)
Record cache_entry := CacheEntry { data : json; timestamp : Q }.

(** What [requests.get(url, ...)] does: it raises, or it returns a reply
    with a status, the text [raise_for_status()] would raise with, and a
    body for which [.json()] either raises ([inl]) or yields a value. *)
Inductive upstream :=
  | ConnError (msg : string)
  | Reply (http_status : nat) (status_error : string) (body : string + json).

(** [now - entry['timestamp'] < 30] *)
Definition fresh (now : Q) (e : cache_entry) : bool :=
  if Qlt_le_dec (now - timestamp e)%Q 30%Q then true else false.

(** [symbol in index_cache and now - index_cache[symbol]['timestamp'] < 30],
    with the cached data when it holds *)
Definition cached (symbol : string) (now : Q) (index_cache : gmap string cache_entry)
  : option json :=
  match index_cache !! symbol with
  | Some e => if fresh now e then Some (data e) else None
  | None => None
  end.

Definition index_url (symbol : string) : string :=
  "https://www.nseindia.com/api/option-chain-indices?symbol=" +:+ symbol.

(** The [finally] block up to its [time.sleep(2)], for a bound [process]. *)
Definition finally_begin (t : ff_task) (s : state) : state * ff_task :=
  (set_procs (cleanup_process (ff_process t) (procs s)) s,
   FFTask (ff_arg t) FinSleep (ff_process t)).

(** ** [src/new.py] *)

Module New.
Section WithHash.
Variable sha256 : list Byte.byte → string.

Record upload := Upload { filename : string; stream_bytes : list Byte.byte }.

(** How writing the upload to [save_path] ends.  The whole stream is
    written; or [open(save_path, 'wb')] raises and nothing is written; or
    reading or writing a chunk raises once [written] bytes are in the
    file, which then keeps that beginning of the stream. *)
Inductive save_outcome :=
  | Saved
  | OpenRaises (msg : string)
  | CopyRaises (msg : string) (written : nat).

Definition post_process_step (t : pp_task) (s : state) : state * pp_task :=
  let at_ pc := PPTask (pp_video_id t) (pp_save_path t) pc in
  match pp_at t with
  | PPHash =>
      match compute_file_hash sha256 (pp_save_path t) s with
      | Some h => (s, at_ (PPCheck h))
      | None => (s, at_ PPDone)
      end
  | PPCheck h =>
      match video_hashes s !! h with
      | Some _ => (s, at_ PPRemove)
      | None => (s, at_ (PPInsert h))
      end
  | PPRemove =>
      match os_remove (pp_save_path t) (files s) with
      | Some fs' => (set_files fs' s, at_ PPDone)
      | None => (s, at_ PPDone)
      end
  | PPInsert h =>
      (set_video_hashes (<[h := pp_video_id t]> (video_hashes s)) s, at_ PPArm)
  | PPArm =>
      (start_timer (Timer (15 * 60) (DeleteIfNotStreamed (pp_video_id t) (pp_save_path t))) s,
       at_ PPDone)
  | PPDone => (s, t)
  end.

(** [post_process] run from its first statement to its end with no other
    thread in between: at most four steps. *)
Definition post_process_run (vid save_path : string) (s : state) : state * pp_task :=
  Nat.iter 4 (λ st, post_process_step (snd st) (fst st))
           (s, PPTask vid save_path PPHash).

Definition post_process (vid save_path : string) (s : state) : state :=
  fst (post_process_run vid save_path s).

Definition upload_ok (vid name : string) : json :=
  JObj [("message", JStr "File uploaded successfully");
        ("videoId", JStr vid);
        ("filename", JStr name);
        ("duration", JNum 120)].

Definition err_body (msg : string) : json := JObj [("error", JStr msg)].

(** [upload_video(email)].  [video] is [request.files.get('video')],
    [uuid4] the fresh [str(uuid.uuid4())], [io] how the loop that copies
    the stream to [save_path] in 4096-byte chunks ends.  The third
    component is the thread started for [post_process]. *)
Definition upload_video (email : string) (video : option upload) (uuid4 : string)
    (io : save_outcome) (s : state) : response * state * option pp_task :=
  match video with
  | None => (Json (err_body "No video file provided") 400, s, None)
  | Some file =>
      if bool_decide (filename file = EmptyString) then
        (Json (err_body "No selected file") 400, s, None)
      else if allowed_file (filename file) then
        let video_id := uuid4 in
        let ext := lower (default EmptyString (rsplit_dot (filename file))) in
        let name := email +:+ "_" +:+ video_id +:+ "." +:+ ext in
        let save_path := path_join UPLOAD_FOLDER name in
        match io with
        | OpenRaises msg => (Json (err_body msg) 500, s, None)
        | CopyRaises msg written =>
            (Json (err_body msg) 500,
             set_files (<[save_path := take written (stream_bytes file)]> (files s)) s,
             None)
        | Saved =>
            (Json (upload_ok video_id name) 200,
             set_files (<[save_path := stream_bytes file]> (files s)) s,
             Some (PPTask video_id save_path PPHash))
        end
      else (Json (err_body "Invalid file type") 400, s, None)
  end.

Definition ffmpeg_path : string := "/usr/local/bin/ffmpeg".

(** The [if platform == ... elif ...] chain: [(output_url, common_flags,
    format_flags)], or [None] for the final [else]. *)
Definition platform_table (platform stream_key : string) : option (string * string * string) :=
  if bool_decide (platform = "youtube") then
    Some ("rtmp://a.rtmp.youtube.com/live2/" +:+ stream_key,
          "-c:v libx264 -preset veryfast -b:v 2500k -maxrate 2500k -bufsize 512k",
          "-f flv")
  else if bool_decide (platform = "facebook") then
    Some ("rtmps://live-api-s.facebook.com:443/rtmp/" +:+ stream_key,
          "-c:v libx264 -preset veryfast -b:v 4500k -minrate 4500k "
          +:+ "-maxrate 4500k -bufsize 9000k -x264-params nal-hrd=cbr:force-cfr=1 "
          +:+ "-c:a aac -b:a 128k -ar 44100 -ac 2",
          "-f flv")
  else if bool_decide (platform = "instagram") then
    Some ("rtmps://edgetee-upload-del2-1.xx.fbcdn.net:443/rtmp/" +:+ stream_key,
          "-c:v libx264 -preset veryfast -b:v 6000k -minrate 6000k "
          +:+ "-maxrate 6000k -bufsize 12000k -x264-params nal-hrd=cbr:force-cfr=1 "
          +:+ "-c:a aac -b:a 128k -ar 44100 -ac 2",
          "-f flv")
  else if bool_decide (platform = "twitter") then
    Some ("rtmps://live.twitter.com/" +:+ stream_key,
          "-c:v libx264 -preset veryfast -b:v 2500k -maxrate 2500k -bufsize 5000k -c:a aac -b:a 128k -ar 44100 -ac 2",
          "-f flv")
  else None.

Definition output_url (platform stream_key : string) : option string :=
  (λ r, fst (fst r)) <$> platform_table platform stream_key.

Definition ffmpeg_input (a : ff_args) : string :=
  "-re -stream_loop " +:+ render (loops a) +:+ " -i " +:+ quoted (video_path a).

(** The row of the table for the arguments of a thread.  A [platform]
    that is not a [str] equals none of the four names. *)
Definition platform_row (a : ff_args) : option (string * string * string) :=
  p ← text_of (platform a); platform_table p (render (stream_key a)).

(** [base_cmd], or [None] when the platform is not in the table *)
Definition base_cmd (a : ff_args) : option string :=
  (λ r, ffmpeg_path +:+ " " +:+ ffmpeg_input a +:+ " " +:+ snd (fst r) +:+ " "
        +:+ snd r +:+ " " +:+ quoted (fst (fst r)))
  <$> platform_row a.

Definition log_file (a : ff_args) : string := "logs/" +:+ video_id a +:+ ".log".

(** One step of a [run_ffmpeg_stream] thread: from where it stands to
    its next blocking call.  Leaving the [try] body through [return] or
    through an exception before [process] is bound makes the [finally]
    block raise [UnboundLocalError] at [cleanup_process(process)], which
    ends the thread.  A thread in [process.wait()] stays there while its
    child runs.  In the [finally] block each pass of the retry loop is a
    step of its own, since a failed [os.remove] is followed by
    [time.sleep(2)]. *)
Definition run_ffmpeg_stream_step (e : env) (t : ff_task) (s : state) : state * ff_task :=
  let a := ff_arg t in
  match ff_at t with
  | Enter =>
      match base_cmd a with
      | None => (s, FFTask a Done None)
      | Some c =>
          let s1 := set_files (<[log_file a := []]> (files s)) s in
          match popen e with
          | inl msg => (except_clause (video_id a) msg s1, FFTask a Done None)
          | inr heeds =>
              let pid := length (procs s1) in
              let s2 := set_procs (procs s1 ++ [Proc c heeds None]) s1 in
              (set_active_streams
                 (<[video_id a := Stream (Some pid) starting (ff_task_id a) (now e) None]>
                    (active_streams s2)) s2,
               FFTask a Settle (Some pid))
          end
      end
  | Settle =>
      match set_status (video_id a) live s with
      | Some s1 => (s1, FFTask a Wait (ff_process t))
      | None => finally_begin t (except_clause (video_id a) (key_error (video_id a)) s)
      end
  | Wait =>
      if match ff_process t with Some pid => running pid (procs s) | None => false end
      then (s, t)
      else
        match set_status (video_id a) completed s with
        | Some s1 => finally_begin t s1
        | None => finally_begin t (except_clause (video_id a) (key_error (video_id a)) s)
        end
  | FinSleep => remove_attempt e t 0 s
  | Retry attempts =>
      if decide (attempts < max_attempts) then remove_attempt e t attempts s
      else finish t s
  | Done => (s, t)
  end.

Definition required_fields : list string := ["streamKey"; "loops"; "taskId"; "platform"].

(** [field in data], or [None] when it raises [TypeError] *)
Definition has_field (b : request_body) (f : string) : option bool :=
  match b with
  | Aborts _ | Scalar => None
  | Sequence contains => Some (contains f)
  | Object data => Some (bool_decide (is_Some (data !! f)))
  end.

(** [start_stream(video_id)].  [b] is what [request.get_json()] does.  The
    second component is the daemon thread started for
    [run_ffmpeg_stream]. *)
Definition start_stream (vid : string) (b : request_body) (s : state)
    : response * option ff_task :=
  match b with
  | Aborts code => (HttpError code, None)
  | Scalar => (ServerError, None)
  | Sequence _ | Object _ =>
      if negb (forallb (λ f, default false (has_field b f)) required_fields) then
        (Json (err_body "Missing required fields") 400, None)
      else
        match filter (λ f, str_in vid f = true) (listdir UPLOAD_FOLDER (files s)) with
        | [] => (Json (err_body "Video file not found") 404, None)
        | f :: _ =>
            match b with
            | Object data =>
                (Json (JObj [("message", JStr "Stream starting"); ("videoId", JStr vid)]) 200,
                 Some (FFTask (FFArgs (path_join UPLOAD_FOLDER f) (item data "streamKey")
                                      (item data "loops") vid (item data "taskId")
                                      (item data "platform"))
                              Enter None))
            | _ => (ServerError, None)
            end
        end
  end.

(** [resp = requests.get(...); resp.raise_for_status(); resp.json()] *)
Definition fetch (u : upstream) : string + json :=
  match u with
  | ConnError msg => inl msg
  | Reply st err body =>
      if bool_decide (400 ≤ st < 600)%nat then inl err else body
  end.

(** [nse_index()].  [symbol] is [request.args.get('symbol')], [clock]
    the reading of [time.time()], [net] what the upstream does for a
    URL.  Returns the response, the cache afterwards and the URLs that
    were requested. *)
Definition nse_index (symbol : option string) (clock : Q) (net : string → upstream)
    (index_cache : gmap string cache_entry)
    : response * gmap string cache_entry * list string :=
  let symbol := upper (default "NIFTY" symbol) in
  match cached symbol clock index_cache with
  | Some d => (Json d 200, index_cache, [])
  | None =>
      let url := index_url symbol in
      match fetch (net url) with
      | inr d => (Json d 200, <[symbol := CacheEntry d clock]> index_cache, [url])
      | inl msg => (Json (err_body msg) 500, index_cache, [url])
      end
  end.
(** A value of [equity_cookie_cache] *)
Record cookie_cache := CookieCache { cookie : option string; cookie_timestamp : Q }.

(** [{'cookie': None, 'timestamp': 0}] *)
Definition no_cookie : cookie_cache := CookieCache None 0%Q.

(** [sep.join(parts)] *)
Fixpoint join (sep : string) (parts : list string) : string :=
  match parts with
  | [] => EmptyString
  | [x] => x
  | x :: rest => x +:+ sep +:+ join sep rest
  end.

(** ['; '.join([f"{c['name']}={c['value']}" for c in cookies])] *)
Definition cookie_header (cookies : list (string * string)) : string :=
  join "; " ((λ c, fst c +:+ "=" +:+ snd c) <$> cookies).

(** The coroutine [get_nse_cookies()].  [browser] is what launching the
    headless browser and reading the cookies of the site gives: an
    exception text or the cookies.  Returns the cookie header or the
    exception text, the cookie cache afterwards, and whether the browser
    was launched. *)
Definition get_nse_cookies (clock : Q) (browser : string + list (string * string))
    (cc : cookie_cache) : (string + string) * cookie_cache * bool :=
  let launch :=
    match browser with
    | inl msg => (inl msg, cc, true)
    | inr cookies =>
        let h := cookie_header cookies in (inr h, CookieCache (Some h) clock, true)
    end in
  match cookie cc with
  | Some c =>
      if negb (bool_decide (c = EmptyString))
         && (if Qlt_le_dec (clock - cookie_timestamp cc)%Q 300%Q then true else false)
      then (inr c, cc, false)
      else launch
  | None => launch
  end.

Definition equity_url (symbol : string) : string :=
  "https://www.nseindia.com/api/option-chain-equities?symbol=" +:+ symbol.

(** [fetch_equity_option_chain(symbol, cookie_header)]; [net] is what the
    upstream does for a URL and a [Cookie] header. *)
Definition fetch_equity_option_chain (net : string → string → upstream)
    (symbol cookie_header : string) : string + json :=
  fetch (net (equity_url symbol) cookie_header).

(** [nse_equity()].  [loop_error] is the text of the exception that
    [asyncio.get_event_loop()] raises, if it raises.  Returns the
    response, the cookie cache afterwards, whether the browser was
    launched and the URLs that were requested. *)
Definition nse_equity (symbol : option string) (clock : Q) (loop_error : option string)
    (browser : string + list (string * string)) (net : string → string → upstream)
    (cc : cookie_cache) : response * cookie_cache * bool * list string :=
  let symbol := upper (default EmptyString symbol) in
  if bool_decide (symbol = EmptyString) then
    (Json (err_body "Symbol is required") 400, cc, false, [])
  else
    match loop_error with
    | Some msg => (Json (err_body msg) 500, cc, false, [])
    | None =>
        let r := get_nse_cookies clock browser cc in
        match fst (fst r) with
        | inl msg => (Json (err_body msg) 500, snd (fst r), snd r, [])
        | inr h =>
            match fetch_equity_option_chain net symbol h with
            | inr d => (Json d 200, snd (fst r), snd r, [equity_url symbol])
            | inl msg => (Json (err_body msg) 500, snd (fst r), snd r, [equity_url symbol])
            end
        end
    end.
End WithHash.
End New.

(** ** [src/main.py] *)

Module Main.
Section WithHash.
Variable sha256 : list Byte.byte → string.

(** [upload_video(email)]: here the hash is computed and looked up
    before the handler answers.  [io] is how [file.save(save_path)]
    ends. *)
Definition upload_video (email : string) (video : option New.upload) (uuid4 : string)
    (io : New.save_outcome) (s : state) : response * state :=
  match video with
  | None => (Json (New.err_body "No video file provided") 400, s)
  | Some file =>
      if bool_decide (New.filename file = EmptyString) then
        (Json (New.err_body "No selected file") 400, s)
      else if allowed_file (New.filename file) then
        let video_id := uuid4 in
        let ext := lower (default EmptyString (rsplit_dot (New.filename file))) in
        let name := email +:+ "_" +:+ video_id +:+ "." +:+ ext in
        let save_path := path_join UPLOAD_FOLDER name in
        match io with
        | New.OpenRaises msg => (Json (New.err_body msg) 500, s)
        | New.CopyRaises msg written =>
            (Json (New.err_body msg) 500,
             set_files (<[save_path := take written (New.stream_bytes file)]> (files s)) s)
        | New.Saved =>
            let s1 := set_files (<[save_path := New.stream_bytes file]> (files s)) s in
            (* compute_file_hash(save_path) on the file just saved *)
            let file_hash := sha256 (New.stream_bytes file) in
            match video_hashes s1 !! file_hash with
            | Some existing_video_id =>
                (Json (JObj [("message", JStr "Duplicate video");
                             ("videoId", JStr existing_video_id)]) 200,
                 set_files (delete save_path (files s1)) s1)
            | None =>
                let s2 := set_video_hashes (<[file_hash := video_id]> (video_hashes s1)) s1 in
                let s3 := start_timer (Timer (15 * 60) (DeleteIfNotStreamed video_id save_path)) s2 in
                let duration := 120%Z in
                (Json (JObj [("message", JStr "File uploaded successfully");
                             ("videoId", JStr video_id);
                             ("filename", JStr name);
                             ("duration", JNum duration)]) 200,
                 s3)
            end
        end
      else (Json (New.err_body "Invalid file type") 400, s)
  end.

(** [stop_stream(video_id)] *)
Definition stop_stream (vid : string) (s : state) : response * state :=
  match active_streams s !! vid with
  | None => (Json (New.err_body "Stream not found") 404, s)
  | Some stream_data =>
      let ps :=
        match process stream_data with
        | Some pid => cleanup_process (Some pid) (procs s)
        | None => procs s
        end in
      let stopped_data :=
        Stream None stopped (task_id stream_data) (start_time stream_data)
               (error_text stream_data) in
      let s1 := set_active_streams (<[vid := stopped_data]> (active_streams s)) (set_procs ps s) in
      (Json (JObj [("message", JStr "Stream stopped successfully")]) 200,
       set_active_streams (delete vid (active_streams s1)) s1)
  end.

(** [jsonify(stream)]: a [Popen] object is not JSON serializable, so
    the call raises unless the ['process'] value is [None]. *)
Definition jsonify_stream (st : stream) : option json :=
  match process st with
  | Some _ => None
  | None =>
      Some (JObj ([("process", JNull);
                   ("status", JStr (status_text (status st)));
                   ("task_id", to_json (task_id st));
                   ("start_time", JStr (start_time st))]
                  ++ match error_text st with
                     | Some m => [("error", JStr m)]
                     | None => []
                     end))
  end.

(** [get_stream_status(video_id)] *)
Definition get_stream_status (vid : string) (s : state) : response * state :=
  match active_streams s !! vid with
  | None => (Json (New.err_body "Stream not found") 404, s)
  | Some st =>
      let st' :=
        match process st with
        | Some pid =>
            if running pid (procs s) then st
            else Stream None completed (task_id st) (start_time st) (error_text st)
        | None => st
        end in
      (match jsonify_stream st' with
       | Some body => Json body 200
       | None => ServerError
       end,
       set_active_streams (<[vid := st']> (active_streams s)) s)
  end.
(** The destination of [run_ffmpeg_stream] in [main.py], for a stream key
    that is a [str] *)
Definition output_url (stream_key : string) : string :=
  match strip_prefix "rtmp://" stream_key with
  | Some _ => stream_key
  | None => "rtmp://a.rtmp.youtube.com/live2/" +:+ stream_key
  end.

(** [base_cmd] for the stream key [key] *)
Definition base_cmd (a : ff_args) (key : string) : string :=
  "ffmpeg -re -stream_loop " +:+ render (loops a) +:+ " -i " +:+ quoted (video_path a)
  +:+ " "
  +:+ "-c:v libx264 -preset veryfast -b:v 2500k -maxrate 2500k -bufsize 512k "
  +:+ "-f flv " +:+ output_url key.

(** [terminal_cmd] for a value of [platform.system()] *)
Definition terminal_cmd (system_platform c : string) : string :=
  if bool_decide (system_platform = "Windows") then "start cmd /c " +:+ quoted c
  else if bool_decide (system_platform = "Linux") then
    "gnome-terminal -- bash -c '" +:+ c +:+ "'"
  else c.

(** One step of a [run_ffmpeg_stream] thread of [main.py].  There is no
    platform argument (the [platform] of the arguments is not looked at)
    and no log file; from [time.sleep(5)] on the text is that of
    [new.py].  For a stream key that is not a [str],
    [stream_key.startswith] raises [AttributeError] before anything is
    started; the [except] clause and the [finally] block then do what they
    do when [Popen] raises. *)
Definition run_ffmpeg_stream_step (system_platform : string) (e : env) (t : ff_task)
    (s : state) : state * ff_task :=
  let a := ff_arg t in
  match ff_at t with
  | Enter =>
      match stream_key a with
      | NonStr type_name _ _ =>
          (except_clause (video_id a) (no_startswith type_name) s, FFTask a Done None)
      | Str key =>
          match popen e with
          | inl msg => (except_clause (video_id a) msg s, FFTask a Done None)
          | inr heeds =>
              let pid := length (procs s) in
              let s2 :=
                set_procs
                  (procs s ++ [Proc (terminal_cmd system_platform (base_cmd a key)) heeds None])
                  s in
              (set_active_streams
                 (<[video_id a := Stream (Some pid) starting (ff_task_id a) (now e) None]>
                    (active_streams s2)) s2,
               FFTask a Settle (Some pid))
          end
      end
  | _ => New.run_ffmpeg_stream_step e t s
  end.

Definition required_fields : list string := ["streamKey"; "loops"; "taskId"].

(** [start_stream(video_id)] of [main.py]; the thread has no [platform]
    argument, and that field of the arguments is left empty. *)
Definition start_stream (vid : string) (b : request_body) (s : state)
    : response * option ff_task :=
  match b with
  | Aborts code => (HttpError code, None)
  | Scalar => (ServerError, None)
  | Sequence _ | Object _ =>
      if negb (forallb (λ f, default false (New.has_field b f)) required_fields) then
        (Json (New.err_body "Missing required fields") 400, None)
      else
        match filter (λ f, str_in vid f = true) (listdir UPLOAD_FOLDER (files s)) with
        | [] => (Json (New.err_body "Video file not found") 404, None)
        | f :: _ =>
            match b with
            | Object data =>
                (Json (JObj [("message", JStr "Stream starting"); ("videoId", JStr vid)]) 200,
                 Some (FFTask (FFArgs (path_join UPLOAD_FOLDER f) (item data "streamKey")
                                      (item data "loops") vid (item data "taskId")
                                      (Str EmptyString))
                              Enter None))
            | _ => (ServerError, None)
            end
        end
  end.
End WithHash.
End Main.

(** ** [src/Nse.py] *)

Module Nse.
(** [requests.get(url, timeout=10).json()] *)
Definition fetch (u : upstream) : string + json :=
  match u with
  | ConnError msg => inl msg
  | Reply _ _ body => body
  end.

Definition nse_index (symbol : option string) (clock : Q) (net : string → upstream)
    (index_cache : gmap string cache_entry)
    : response * gmap string cache_entry * list string :=
  let symbol := upper (default "NIFTY" symbol) in
  match cached symbol clock index_cache with
  | Some d => (Json d 200, index_cache, [])
  | None =>
      let url := index_url symbol in
      match fetch (net url) with
      | inr d => (Json d 200, <[symbol := CacheEntry d clock]> index_cache, [url])
      | inl msg => (Json (New.err_body msg) 500, index_cache, [url])
      end
  end.

(** [nse_equity()], with its own cache [equity_cache] *)
Definition nse_equity (symbol : option string) (clock : Q) (net : string → upstream)
    (equity_cache : gmap string cache_entry)
    : response * gmap string cache_entry * list string :=
  let symbol := upper (default EmptyString symbol) in
  if bool_decide (symbol = EmptyString) then
    (Json (New.err_body "Symbol is required") 400, equity_cache, [])
  else
    match cached symbol clock equity_cache with
    | Some d => (Json d 200, equity_cache, [])
    | None =>
        let url := New.equity_url symbol in
        match fetch (net url) with
        | inr d => (Json d 200, <[symbol := CacheEntry d clock]> equity_cache, [url])
        | inl msg => (Json (New.err_body msg) 500, equity_cache, [url])
        end
    end.
End Nse.

(** ** The server as a transition system

    The upload, start and [post_process] / [run_ffmpeg_stream] code is that
    of [new.py]; the stop and status handlers exist in [main.py] only,
    whose [run_ffmpeg_stream] makes the same writes to [active_streams]
    (lines 158-175) as the one of [new.py] (lines 150-164).

    A label is one request handled from start to end, one step of one
    thread, the exit of one child, or the expiry of one timer. *)

Module Server.
Section WithHash.
Variable sha256 : list Byte.byte → string.

Inductive task :=
  | PostProcess (t : pp_task)
  | FfmpegStream (t : ff_task).

Record config := Config { shared : state; threads : list task }.

Inductive label :=
  | Upload (email : string) (video : option New.upload) (uuid4 : string)
           (io : New.save_outcome)
  | Start (vid : string) (b : request_body)
  | Stop (vid : string)
  | Status (vid : string)
  | Run (i : nat) (e : env)
  | Exit (pid : nat) (rc : Z)
  | Fire (i : nat).

Definition run_task (e : env) (t : task) (s : state) : state * task :=
  match t with
  | PostProcess p =>
      let r := New.post_process_step sha256 p s in (fst r, PostProcess (snd r))
  | FfmpegStream f =>
      let r := New.run_ffmpeg_stream_step e f s in (fst r, FfmpegStream (snd r))
  end.

(** What an expiring timer calls *)
Definition fire (a : timer_action) (s : state) : state :=
  match a with
  | DeleteIfNotStreamed vid path => delete_if_not_streamed vid path s
  | PopStream vid => set_active_streams (delete vid (active_streams s)) s
  end.

Definition spawn (t : option task) (ts : list task) : list task :=
  match t with Some t => ts ++ [t] | None => ts end.

Definition step (l : label) (c : config) : config * option response :=
  let s := shared c in
  match l with
  | Upload email video uuid4 io =>
      let r := New.upload_video email video uuid4 io s in
      (Config (snd (fst r)) (spawn (PostProcess <$> snd r) (threads c)), Some (fst (fst r)))
  | Start vid b =>
      let r := New.start_stream vid b s in
      (Config s (spawn (FfmpegStream <$> snd r) (threads c)), Some (fst r))
  | Stop vid =>
      let r := Main.stop_stream vid s in (Config (snd r) (threads c), Some (fst r))
  | Status vid =>
      let r := Main.get_stream_status vid s in (Config (snd r) (threads c), Some (fst r))
  | Run i e =>
      match threads c !! i with
      | Some t =>
          let r := run_task e t s in (Config (fst r) (<[i := snd r]> (threads c)), None)
      | None => (c, None)
      end
  | Exit pid rc =>
      (Config (set_procs (alter (set_returncode rc) pid (procs s)) s) (threads c), None)
  | Fire i =>
      match timers s !! i with
      | Some t =>
          (Config (fire (action t)
                     (State (files s) (video_hashes s) (active_streams s) (procs s)
                            (delete i (timers s))))
                  (threads c), None)
      | None => (c, None)
      end
  end.

Definition exec (ls : list label) (c : config) : config :=
  foldl (λ c l, fst (step l c)) c ls.

(** The status stored for [vid], as the registry shows it *)
Definition status_of (vid : string) (c : config) : option stream_status :=
  status <$> active_streams (shared c) !! vid.
End WithHash.
End Server.

(** ** Notions used in the statements *)

(** The platforms of the table of [run_ffmpeg_stream] *)
Definition known_platforms : list string := ["youtube"; "facebook"; "instagram"; "twitter"].

(** The value is one of the four platform names, as a [str]. *)
Definition known_platform (v : value) : Prop :=
  ∃ p, v = Str p ∧ p ∈ known_platforms.

(** Every [run_ffmpeg_stream] thread of [vid] has left its
    [time.sleep(5)]. *)
Definition settled (vid : string) (c : Server.config) : Prop :=
  ∀ i t, Server.threads c !! i = Some (Server.FfmpegStream t) →
         video_id (ff_arg t) = vid → ff_at t ≠ Enter ∧ ff_at t ≠ Settle.

(** Not a start request for [vid] *)
Definition no_start (vid : string) (l : Server.label) : Prop :=
  match l with Server.Start v _ => v ≠ vid | _ => True end.

(** The registry shows [completed] for [vid], or nothing at all. *)
Definition completed_or_gone (vid : string) (c : Server.config) : Prop :=
  Server.status_of vid c = Some completed ∨ Server.status_of vid c = None.

(** What a 200 answer of the status endpoint reports as ['status'] *)
Definition reported_status (r : option response) : option json :=
  match r with
  | Some (Json (JObj fs) 200) => field "status" fs
  | _ => None
  end.

(** The [post_process] tasks of two uploads as the only threads, and a
    schedule that says whose turn it is (0 or 1). *)
Definition pp_pair (v1 p1 : string) (pc1 : pp_pc) (v2 p2 : string) (pc2 : pp_pc)
  : list Server.task :=
  [Server.PostProcess (PPTask v1 p1 pc1); Server.PostProcess (PPTask v2 p2 pc2)].

Definition runs (e : env) (sched : list nat) : list Server.label :=
  (λ i, Server.Run i e) <$> sched.

(** The task has put its hash into [video_hashes] and kept its file. *)
Definition inserted (content : list Byte.byte) (pc : pp_pc) (f : option (list Byte.byte))
  : Prop :=
  (pc = PPArm ∨ pc = PPDone) ∧ f = Some content.

(** What holds of one of two tasks hashing the same [content], wherever
    it stands; [other] says that the other task has inserted. *)
Definition task_inv (h : string) (content : list Byte.byte) (pc : pp_pc)
    (f : option (list Byte.byte)) (other : Prop) : Prop :=
  match pc with
  | PPHash => f = Some content
  | PPCheck h' => h' = h ∧ f = Some content
  | PPInsert h' => h' = h ∧ f = Some content
  | PPRemove => f = Some content ∧ other
  | PPArm => f = Some content
  | PPDone => f = Some content ∨ (f = None ∧ other)
  end.

(** The invariant of two tasks hashing the same [content] under any
    schedule. *)
Definition dedup_inv (h : string) (content : list Byte.byte) (v1 p1 v2 p2 : string)
    (s : state) (pc1 pc2 : pp_pc) : Prop :=
  task_inv h content pc1 (files s !! p1) (inserted content pc2 (files s !! p2))
  ∧ task_inv h content pc2 (files s !! p2) (inserted content pc1 (files s !! p1))
  ∧ (∀ v, video_hashes s !! h = Some v →
          (v = v1 ∧ inserted content pc1 (files s !! p1))
          ∨ (v = v2 ∧ inserted content pc2 (files s !! p2)))
  ∧ (inserted content pc1 (files s !! p1) ∨ inserted content pc2 (files s !! p2) →
     is_Some (video_hashes s !! h)).

(** The invariant once the task of [vw] has inserted while the task on
    [pl] had not looked the hash up yet. *)
Definition after_insert (h : string) (content : list Byte.byte) (vw pw pl : string)
    (s : state) (pcw pcl : pp_pc) : Prop :=
  video_hashes s !! h = Some vw
  ∧ files s !! pw = Some content
  ∧ (pcw = PPArm ∨ pcw = PPDone)
  ∧ match pcl with
    | PPHash | PPRemove => files s !! pl = Some content
    | PPCheck h' => h' = h ∧ files s !! pl = Some content
    | PPDone => files s !! pl = None
    | PPInsert _ | PPArm => False
    end.

(** [q] is [p] later on: the same command, and the same return code if
    [p] had one. *)
Definition proc_kept (p q : proc) : Prop :=
  cmd q = cmd p ∧ heeds_term q = heeds_term p
  ∧ ∀ rc, returncode p = Some rc → returncode q = Some rc.

(** Every process of [ps] is still in [ps'] under the same number, with
    the same command and, if it had exited, the same return code. *)
Definition procs_kept (ps ps' : list proc) : Prop :=
  ∀ pid p, ps !! pid = Some p → ∃ q, ps' !! pid = Some q ∧ proc_kept p q.

(** No [run_ffmpeg_stream] thread of [vid] is still before its first
    statement. *)
Definition entered (vid : string) (c : Server.config) : Prop :=
  ∀ i t, Server.threads c !! i = Some (Server.FfmpegStream t) →
         video_id (ff_arg t) = vid → ff_at t ≠ Enter.

(** A thread run by itself, one step for each environment of [es] *)
Definition run_alone (es : list env) (t : ff_task) (s : state) : state * ff_task :=
  foldl (λ st e, New.run_ffmpeg_stream_step e (snd st) (fst st)) (s, t) es.

(** Where a thread stands after [n] failed attempts to remove its file *)
Definition after_failures (n : nat) : ff_pc :=
  match n with O => FinSleep | S _ => Retry n end.

(** ** Sample inputs *)

Module Sample.
(** A stand-in digest for running the model: the bytes themselves. *)
Definition digest (bs : list Byte.byte) : string := String.string_of_list_byte bs.

Definition ten_A : list Byte.byte := replicate 10 Byte.x41.

Definition empty_state : state := State ∅ ∅ ∅ [] [].

(** A start request with the four fields, all of them JSON strings *)
Definition request_fields (platform : string) : gmap string value :=
  <["streamKey" := Str "key"]> (<["loops" := Str "1"]> (<["taskId" := Str "task"]>
    (<["platform" := Str platform]> ∅))).

Definition request_data (platform : string) : request_body :=
  Object (request_fields platform).

Definition upload_a : Server.label :=
  Server.Upload "a@x.org" (Some (New.Upload "clip.mp4" ten_A)) "id1" New.Saved.
Definition upload_b : Server.label :=
  Server.Upload "b@y.org" (Some (New.Upload "copy.MP4" ten_A)) "id2" New.Saved.

Definition path_a : string := "uploads/a@x.org_id1.mp4".
Definition path_b : string := "uploads/b@y.org_id2.mp4".

(** [Popen] starts a child that heeds SIGTERM, or one that does not;
    [os.remove] works.  In [file_busy] it raises. *)
Definition child_ok : env := Env "2025-01-01T00:00:00" (inr true) false.
Definition child_stubborn : env := Env "2025-01-01T00:00:00" (inr false) false.
Definition file_busy : env := Env "2025-01-01T00:00:00" (inr true) true.

(** Two uploads of the same ten bytes just written, neither hashed yet *)
Definition both_written : state :=
  Server.shared (Server.exec digest [upload_a; upload_b] (Server.Config empty_state [])).

(** The first upload just written, not yet hashed *)
Definition written : state :=
  snd (fst (New.upload_video "a@x.org" (Some (New.Upload "clip.mp4" ten_A)) "id1" New.Saved
              empty_state)).

(** One stored, hashed upload *)
Definition stored : state :=
  Server.shared
    (Server.exec digest
       [upload_a; Server.Run 0 child_ok; Server.Run 0 child_ok;
        Server.Run 0 child_ok; Server.Run 0 child_ok]
       (Server.Config empty_state [])).

(** The stored upload with a stream started on it, its thread in
    [time.sleep(5)] *)
Definition started (e : env) : Server.config :=
  Server.exec digest [Server.Start "id1" (request_data "youtube"); Server.Run 0 e]
    (Server.Config stored []).

(** That stream after its child has exited and its thread has recorded
    [completed] *)
Definition finished : Server.config :=
  Server.exec digest [Server.Exit 0 0; Server.Run 0 child_ok; Server.Run 0 child_ok]
    (started child_ok).

Definition cache_at (t : Q) : gmap string cache_entry :=
  {[ "NIFTY" := CacheEntry (JObj [("records", JNum 1)]) t ]}.
End Sample.

(** * Properties *)

(** ** Helper lemmas *)

Lemma forget_video_lookup (vid : string) (h : gmap string string) (k : string) :
  forget_video vid h !! k = if bool_decide (h !! k = Some vid) then None else h !! k.
Proof.
  unfold forget_video.
  assert (∀ l (m : gmap string string),
    foldr (λ kv m, if bool_decide (kv.2 = vid) then delete kv.1 m else m) m l !! k
    = if bool_decide ((k, vid) ∈ l) then None else m !! k) as Hfold.
  { induction l as [|[k' v] l IH]; intros m; cbn [foldr fst snd].
    - rewrite bool_decide_eq_false_2; [done | apply not_elem_of_nil].
    - destruct (decide (v = vid)) as [->|Hv].
      + rewrite bool_decide_eq_true_2 by done.
        destruct (decide (k' = k)) as [->|Hk].
        * rewrite lookup_delete_eq, bool_decide_eq_true_2; [done | left].
        * rewrite lookup_delete_ne, IH by done.
          apply (f_equal (λ b : bool, if b then None else m !! k)).
          apply bool_decide_ext. rewrite elem_of_cons.
          split; [by right | intros [?|?]; [simplify_eq | done]].
      + rewrite bool_decide_eq_false_2 by done. rewrite IH.
        apply (f_equal (λ b : bool, if b then None else m !! k)).
        apply bool_decide_ext. rewrite elem_of_cons.
        split; [by right | intros [?|?]; [simplify_eq | done]]. }
  rewrite Hfold.
  apply (f_equal (λ b : bool, if b then None else h !! k)).
  apply bool_decide_ext. apply elem_of_map_to_list.
Qed.



Lemma str_app_assoc (a b c : string) : (a +:+ b) +:+ c = a +:+ (b +:+ c).
Proof.
  induction a as [|x a IH]; [reflexivity |].
  change (String x ((a +:+ b) +:+ c) = String x (a +:+ (b +:+ c))). by rewrite IH.
Qed.

Lemma path_exists_true (p : string) (fs : gmap string (list Byte.byte)) :
  is_Some (fs !! p) → path_exists p fs = true.
Proof. intros H. unfold path_exists. by apply bool_decide_eq_true_2. Qed.

Lemma os_remove_present (p : string) (fs : gmap string (list Byte.byte)) :
  is_Some (fs !! p) → os_remove p fs = Some (delete p fs).
Proof. intros H. unfold os_remove. by rewrite path_exists_true. Qed.

(** ** Upload de-duplication *)

Section Dedup.
Variable sha256 : list Byte.byte → string.

Lemma pp_step_hash (s : state) (vid p : string) (content : list Byte.byte) :
  files s !! p = Some content →
  New.post_process_step sha256 (PPTask vid p PPHash) s
  = (s, PPTask vid p (PPCheck (sha256 content))).
Proof.
  intros H. unfold New.post_process_step, compute_file_hash. cbn. by rewrite H.
Qed.

Lemma pp_step_check (s : state) (vid p h : string) :
  New.post_process_step sha256 (PPTask vid p (PPCheck h)) s
  = (s, PPTask vid p (match video_hashes s !! h with
                      | Some _ => PPRemove
                      | None => PPInsert h
                      end)).
Proof. unfold New.post_process_step. cbn. by destruct (video_hashes s !! h). Qed.

Lemma pp_step_remove (s : state) (vid p : string) :
  is_Some (files s !! p) →
  New.post_process_step sha256 (PPTask vid p PPRemove) s
  = (set_files (delete p (files s)) s, PPTask vid p PPDone).
Proof.
  intros H. unfold New.post_process_step. cbn. by rewrite os_remove_present.
Qed.

Lemma pp_iter_start (n : nat) (s : state) (t : pp_task) :
  Nat.iter (S n) (λ st, New.post_process_step sha256 (snd st) (fst st)) (s, t)
  = Nat.iter n (λ st, New.post_process_step sha256 (snd st) (fst st))
             (New.post_process_step sha256 t s).
Proof. by rewrite Nat.iter_succ_r. Qed.

Lemma post_process_run_duplicate (s : state) (vid save_path : string)
    (content : list Byte.byte) (earlier : string) :
  files s !! save_path = Some content →
  video_hashes s !! sha256 content = Some earlier →
  New.post_process_run sha256 vid save_path s
  = (set_files (delete save_path (files s)) s, PPTask vid save_path PPDone).
Proof.
  intros Hfile Hhash. unfold New.post_process_run.
  rewrite pp_iter_start, (pp_step_hash _ _ _ _ Hfile).
  rewrite pp_iter_start, pp_step_check, Hhash.
  rewrite pp_iter_start, pp_step_remove by (rewrite Hfile; eauto).
  reflexivity.
Qed.

Lemma post_process_run_fresh (s : state) (vid save_path : string)
    (content : list Byte.byte) :
  files s !! save_path = Some content →
  video_hashes s !! sha256 content = None →
  New.post_process_run sha256 vid save_path s
  = (start_timer (Timer (15 * 60) (DeleteIfNotStreamed vid save_path))
       (set_video_hashes (<[sha256 content := vid]> (video_hashes s)) s),
     PPTask vid save_path PPDone).
Proof.
  intros Hfile Hhash. unfold New.post_process_run.
  rewrite pp_iter_start, (pp_step_hash _ _ _ _ Hfile).
  rewrite pp_iter_start, pp_step_check, Hhash.
  reflexivity.
Qed.

(** C1.  When the content of a freshly written upload hashes to a value
    that [video_hashes] already holds, its [post_process] task runs to
    its end, and then the new file is gone, no timer has been started
    and [video_hashes] is as before, so the hash still names the earlier
    asset. *)
Theorem duplicate_upload_discarded (s : state) (vid save_path : string)
    (content : list Byte.byte) (earlier : string) :
  files s !! save_path = Some content →
  video_hashes s !! sha256 content = Some earlier →
  pp_at (snd (New.post_process_run sha256 vid save_path s)) = PPDone
  ∧ files (New.post_process sha256 vid save_path s) !! save_path = None
  ∧ timers (New.post_process sha256 vid save_path s) = timers s
  ∧ video_hashes (New.post_process sha256 vid save_path s) = video_hashes s
  ∧ video_hashes (New.post_process sha256 vid save_path s) !! sha256 content = Some earlier.
Proof.
  intros Hfile Hhash. unfold New.post_process.
  rewrite (post_process_run_duplicate _ _ _ _ _ Hfile Hhash). cbn.
  split_and!; [done | apply lookup_delete_eq | done | done | done].
Qed.


End Dedup.

(** The second of two identical uploads, hashed after the first. *)
Lemma duplicate_upload_discarded_witness :
  (λ s, (files s !! Sample.path_b, timers s, video_hashes s !! Sample.digest Sample.ten_A))
    (New.post_process Sample.digest "id2" Sample.path_b
       (snd (fst (New.upload_video "b@y.org" (Some (New.Upload "copy.MP4" Sample.ten_A))
                    "id2" New.Saved Sample.stored))))
  = (None, timers Sample.stored, Some "id1").
Proof.
  destruct (duplicate_upload_discarded Sample.digest
              (snd (fst (New.upload_video "b@y.org"
                           (Some (New.Upload "copy.MP4" Sample.ten_A)) "id2" New.Saved
                           Sample.stored)))
              "id2" Sample.path_b Sample.ten_A "id1")
    as (_ & Hfile & Htimers & _ & Hhash); [vm_compute; reflexivity ..|].
  cbv beta. rewrite Hfile, Htimers, Hhash. reflexivity.
Defined.



(** ** The platform table *)

(** C8.  For each of the four platforms the destination URL is the fixed
    template followed by the caller's stream key, and the command line of
    the child process ends with that URL in double quotes.  In a thread
    the platform is compared as it came and the stream key is formatted
    into the template. *)
Theorem destination_url_table :
  (∀ key : string,
     New.output_url "youtube" key = Some ("rtmp://a.rtmp.youtube.com/live2/" +:+ key)
     ∧ New.output_url "facebook" key
       = Some ("rtmps://live-api-s.facebook.com:443/rtmp/" +:+ key)
     ∧ New.output_url "instagram" key
       = Some ("rtmps://edgetee-upload-del2-1.xx.fbcdn.net:443/rtmp/" +:+ key)
     ∧ New.output_url "twitter" key = Some ("rtmps://live.twitter.com/" +:+ key))
  ∧ (∀ a : ff_args,
       match p ← text_of (platform a); New.output_url p (render (stream_key a)) with
       | Some url => ∃ front, New.base_cmd a = Some (front +:+ " " +:+ quoted url)
       | None => New.base_cmd a = None
       end).
Proof.
  split; [intros key; split_and!; reflexivity |].
  intros a. unfold New.output_url, New.base_cmd, New.platform_row.
  destruct (platform a) as [p|ty r j]; cbn [text_of mbind option_bind]; [|done].
  destruct (New.platform_table p (render (stream_key a))) as [[[url common] fmt]|];
    cbn [fmap option_fmap option_map fst snd]; [|done].
  exists (New.ffmpeg_path +:+ " " +:+ New.ffmpeg_input a +:+ " " +:+ common +:+ " " +:+ fmt).
  f_equal. by rewrite !str_app_assoc.
Qed.

(** ** The upload response *)




(** ** The market-data cache *)

(** What makes the upstream call of [new.py] fail *)
Lemma new_fetch_fails (u : upstream) (msg : string) :
  New.fetch u = inl msg ↔
  u = ConnError msg
  ∨ ∃ st err body, u = Reply st err body
      ∧ ((400 ≤ st < 600)%nat ∧ err = msg ∨ ¬ (400 ≤ st < 600)%nat ∧ body = inl msg).
Proof.
  destruct u as [m|st err body]; cbn.
  - split; [intros [= ->]; by left | intros [[= ->]|(?&?&?&?&?)]; done].
  - case_bool_decide; split.
    + intros [= ->]. right. eauto 10.
    + intros [?|(?&?&?&[= <- <- <-]&[[_ ->]|[? _]])]; done.
    + intros ->. right. eauto 10.
    + intros [?|(?&?&?&[= <- <- <-]&[[? _]|[_ ->]])]; done.
Qed.

(** C9.  In [new.py] and in [Nse.py] alike: when [index_cache] holds an
    entry for the symbol that is less than 30 seconds old, its data is the
    answer, the cache stays as it is and no URL is requested; when there is
    no such entry and the upstream call fails, the answer is an ['error']
    body with status 500 and the cache stays as it is. *)
Theorem nse_index_cache_and_failure (symbol : option string) (clock : Q)
    (net : string → upstream) (index_cache : gmap string cache_entry) :
  let key := upper (default "NIFTY" symbol) in
  (∀ e, index_cache !! key = Some e → (clock - timestamp e < 30)%Q →
        New.nse_index symbol clock net index_cache = (Json (data e) 200, index_cache, [])
        ∧ Nse.nse_index symbol clock net index_cache = (Json (data e) 200, index_cache, []))
  ∧ (∀ msg, cached key clock index_cache = None →
            New.fetch (net (index_url key)) = inl msg →
            New.nse_index symbol clock net index_cache
            = (Json (JObj [("error", JStr msg)]) 500, index_cache, [index_url key]))
  ∧ (∀ msg, cached key clock index_cache = None →
            Nse.fetch (net (index_url key)) = inl msg →
            Nse.nse_index symbol clock net index_cache
            = (Json (JObj [("error", JStr msg)]) 500, index_cache, [index_url key])).
Proof.
  intros key. split_and!.
  - intros e He Hage.
    assert (cached key clock index_cache = Some (data e)) as Hhit.
    { unfold cached, fresh. rewrite He. by destruct (Qlt_le_dec _ _) as [?|?%Qle_not_lt]. }
    unfold New.nse_index, Nse.nse_index. fold key. by rewrite Hhit.
  - intros msg Hmiss Hfail. unfold New.nse_index. fold key. by rewrite Hmiss, Hfail.
  - intros msg Hmiss Hfail. unfold Nse.nse_index. fold key. by rewrite Hmiss, Hfail.
Qed.

Lemma nse_index_cache_and_failure_witness :
  New.nse_index None (110 # 1) (λ _, ConnError "down") (Sample.cache_at (100 # 1))
  = (Json (JObj [("records", JNum 1)]) 200, Sample.cache_at (100 # 1), [])
  ∧ New.nse_index (Some "nifty") (140 # 1)
      (λ _, Reply 503 "503 Server Error" (inr JNull)) (Sample.cache_at (100 # 1))
    = (Json (JObj [("error", JStr "503 Server Error")]) 500, Sample.cache_at (100 # 1),
       [index_url "NIFTY"])
  ∧ Nse.nse_index (Some "banknifty") (140 # 1) (λ _, ConnError "down")
      (Sample.cache_at (100 # 1))
    = (Json (JObj [("error", JStr "down")]) 500, Sample.cache_at (100 # 1),
       [index_url "BANKNIFTY"]).
Proof.
  split_and!.
  - destruct (nse_index_cache_and_failure None (110 # 1) (λ _, ConnError "down")
                (Sample.cache_at (100 # 1))) as (Hhit & _ & _).
    apply (Hhit (CacheEntry (JObj [("records", JNum 1)]) (100 # 1)));
      vm_compute; reflexivity.
  - destruct (nse_index_cache_and_failure (Some "nifty") (140 # 1)
                (λ _, Reply 503 "503 Server Error" (inr JNull))
                (Sample.cache_at (100 # 1))) as (_ & Hfail & _).
    apply Hfail; vm_compute; reflexivity.
  - destruct (nse_index_cache_and_failure (Some "banknifty") (140 # 1)
                (λ _, ConnError "down") (Sample.cache_at (100 # 1))) as (_ & _ & Hfail).
    apply Hfail; vm_compute; reflexivity.
Defined.

(** What makes the upstream call of [Nse.py] fail: it has no
    [raise_for_status()], so a reply counts whatever its status. *)
Lemma nse_fetch_fails (u : upstream) (msg : string) :
  Nse.fetch u = inl msg ↔
  u = ConnError msg ∨ ∃ st err, u = Reply st err (inl msg).
Proof.
  destruct u as [m|st err body]; cbn.
  - split; [intros [= ->]; by left | intros [[= ->]|(?&?&?)]; done].
  - split; [intros ->; right; eauto | intros [?|(?&?&[= <- <- <-])]; done].
Qed.

(** ** Stopping a session *)

Section Stop.
Lemma stop_stream_not_found (s : state) (vid : string) :
  active_streams s !! vid = None →
  Main.stop_stream vid s = (Json (JObj [("error", JStr "Stream not found")]) 404, s).
Proof. intros H. unfold Main.stop_stream. by rewrite H. Qed.

(** A stop request for a tracked session answers 200, runs
    [cleanup_process] on its child and drops the session, so that the
    next status request answers 404. *)
Lemma stop_stream_found (s : state) (vid : string) (st : stream) :
  active_streams s !! vid = Some st →
  fst (Main.stop_stream vid s) = Json (JObj [("message", JStr "Stream stopped successfully")]) 200
  ∧ procs (snd (Main.stop_stream vid s)) = cleanup_process (process st) (procs s)
  ∧ active_streams (snd (Main.stop_stream vid s)) = delete vid (active_streams s)
  ∧ fst (Main.get_stream_status vid (snd (Main.stop_stream vid s)))
    = Json (JObj [("error", JStr "Stream not found")]) 404.
Proof.
  intros H. unfold Main.stop_stream. rewrite H. cbn.
  assert (delete vid (<[vid := Stream None stopped (task_id st) (start_time st)
                                   (error_text st)]> (active_streams s))
          = delete vid (active_streams s)) as Hdel by apply delete_insert_eq.
  split_and!.
  - done.
  - by destruct (process st).
  - done.
  - unfold Main.get_stream_status. cbn. by rewrite Hdel, lookup_delete_eq.
Qed.

(** A child that obeys SIGTERM has exited when [cleanup_process] returns. *)
Lemma cleanup_process_heeded (ps : list proc) (pid : nat) (p : proc) :
  ps !! pid = Some p → heeds_term p = true →
  running pid (cleanup_process (Some pid) ps) = false.
Proof.
  intros Hp Hheed. unfold cleanup_process.
  destruct (running pid ps) eqn:Hrun; [|done].
  assert (running pid (terminate pid ps) = false) as Hdead.
  { unfold running, poll, terminate in *. rewrite list_lookup_alter_eq, Hp in *. cbn in *.
    rewrite Hheed. unfold set_returncode. by destruct (returncode p). }
  unfold wait_timeout. by rewrite Hdead, Hdead.
Qed.

(** [kill()] is never reached: after [wait(timeout=5)] has returned the
    child has exited, and when it raises the [except] clause takes over. *)
Lemma cleanup_process_never_kills (ps : list proc) (pid : nat) :
  cleanup_process (Some pid) ps = if running pid ps then terminate pid ps else ps.
Proof.
  unfold cleanup_process, wait_timeout.
  destruct (running pid ps); [|done].
  destruct (running pid (terminate pid ps)) eqn:Hrun; [done|]. by rewrite Hrun.
Qed.

(** A running child that does not exit within the wait survives
    [cleanup_process]: [wait(timeout=5)] raises, the [except] clause
    takes over and [kill()] is not reached. *)
Lemma cleanup_process_stubborn (ps : list proc) (pid : nat) (p : proc) :
  ps !! pid = Some p → returncode p = None → heeds_term p = false →
  cleanup_process (Some pid) ps = ps.
Proof.
  intros Hp Hrc Hheed. unfold cleanup_process.
  assert (terminate pid ps = ps) as Hterm.
  { unfold terminate. apply list_eq. intros i.
    destruct (decide (i = pid)) as [->|Hne].
    - rewrite list_lookup_alter_eq, Hp. cbn. by rewrite Hheed.
    - by rewrite list_lookup_alter_ne. }
  assert (running pid ps = true) as Hrun.
  { unfold running, poll. rewrite Hp. cbn. by rewrite Hrc. }
  rewrite Hrun, Hterm. unfold wait_timeout. by rewrite Hrun.
Qed.

(** C6, where it fails.  When the child of a tracked session does not
    exit within the five seconds that follow [terminate()], the stop
    request still answers 200 and drops the session, and the child is
    left running. *)
Theorem stop_leaves_stubborn_child (s : state) (vid : string) (st : stream)
    (pid : nat) (p : proc) :
  active_streams s !! vid = Some st →
  process st = Some pid →
  procs s !! pid = Some p →
  returncode p = None →
  heeds_term p = false →
  status_code (fst (Main.stop_stream vid s)) = 200
  ∧ active_streams (snd (Main.stop_stream vid s)) !! vid = None
  ∧ running pid (procs (snd (Main.stop_stream vid s))) = true.
Proof.
  intros Hst Hproc Hp Hrc Hheed.
  destruct (stop_stream_found s vid st Hst) as (-> & -> & -> & _).
  split_and!.
  - done.
  - apply lookup_delete_eq.
  - rewrite Hproc, (cleanup_process_stubborn _ _ _ Hp Hrc Hheed).
    unfold running, poll. rewrite Hp. cbn. by rewrite Hrc.
Qed.
End Stop.

Lemma stop_leaves_stubborn_child_witness :
  status_code (fst (Main.stop_stream "id1" (Server.shared (Sample.started Sample.child_stubborn))))
  = 200
  ∧ running 0 (procs (snd (Main.stop_stream "id1"
                             (Server.shared (Sample.started Sample.child_stubborn)))))
    = true.
Proof.
  destruct (stop_leaves_stubborn_child
              (Server.shared (Sample.started Sample.child_stubborn)) "id1"
              (Stream (Some 0) starting "task" "2025-01-01T00:00:00" None) 0
              (Proc (default EmptyString
                       (New.base_cmd (FFArgs Sample.path_a "key" "1" "id1" "task" "youtube")))
                    false None))
    as (Hcode & _ & Hrun); [vm_compute; reflexivity ..|].
  split; [exact Hcode | exact Hrun].
Defined.

(** ** Starting a session *)

Section Start.
Lemma platform_table_unknown (p key : string) :
  p ∉ known_platforms → New.platform_table p key = None.
Proof.
  intros H. unfold New.platform_table, known_platforms in *.
  repeat (case_bool_decide; [subst; exfalso; apply H; set_solver|]).
  done.
Qed.

Lemma platform_table_known (p key : string) :
  p ∈ known_platforms → is_Some (New.platform_table p key).
Proof.
  unfold known_platforms. rewrite !elem_of_cons, elem_of_nil.
  intros [->|[->|[->|[->|[]]]]]; cbn; eauto.
Qed.

(** The answer of [start_stream] once the fields are there and a stored
    name contains the id: the platform plays no part in it. *)
Lemma start_stream_accepted (s : state) (vid : string) (data : gmap string value)
    (f : string) (rest : list string) :
  (∀ k, k ∈ New.required_fields → is_Some (data !! k)) →
  filter (λ f, str_in vid f = true) (listdir UPLOAD_FOLDER (files s)) = f :: rest →
  New.start_stream vid (Object data) s
  = (Json (JObj [("message", JStr "Stream starting"); ("videoId", JStr vid)]) 200,
     Some (FFTask (FFArgs (path_join UPLOAD_FOLDER f)
                          (item data "streamKey")
                          (item data "loops")
                          vid
                          (item data "taskId")
                          (item data "platform"))
                  Enter None)).
Proof.
  intros Hfields Hfile. unfold New.start_stream.
  assert (forallb (λ f, default false (New.has_field (Object data) f)) New.required_fields
          = true) as ->.
  { unfold New.required_fields in *. cbn [forallb New.has_field default from_option id].
    rewrite !bool_decide_eq_true_2; [done | apply Hfields; set_solver ..]. }
  cbn [negb]. by rewrite Hfile.
Qed.

(** A thread whose platform is not in the table ends at its first step
    and leaves the state as it found it. *)
Lemma run_unknown_platform (e : env) (a : ff_args) (s : state) :
  ¬ known_platform (platform a) →
  New.run_ffmpeg_stream_step e (FFTask a Enter None) s = (s, FFTask a Done None).
Proof.
  intros H. unfold New.run_ffmpeg_stream_step, New.base_cmd, New.platform_row.
  cbn [ff_at ff_arg]. destruct (platform a) as [p|ty r j]; cbn; [|done].
  rewrite platform_table_unknown; [done|]. intros Hp. apply H. by exists p.
Qed.

(** C4, as the code has it.  A start request whose platform is outside
    the table (another text, or a value that is no text) is answered like
    any other start request: 200 when the four fields are present and a
    stored name contains the id.  Its thread then ends at the platform
    test: whatever the state it runs in, it starts no child process and
    writes no entry into [active_streams]; the state is untouched. *)
Theorem unknown_platform_starts_nothing (s : state) (vid : string)
    (data : gmap string value) (p : value) (f : string) (rest : list string) :
  (∀ k, k ∈ New.required_fields → is_Some (data !! k)) →
  data !! "platform" = Some p →
  ¬ known_platform p →
  filter (λ f, str_in vid f = true) (listdir UPLOAD_FOLDER (files s)) = f :: rest →
  ∃ t : ff_task,
    New.start_stream vid (Object data) s
    = (Json (JObj [("message", JStr "Stream starting"); ("videoId", JStr vid)]) 200, Some t)
    ∧ platform (ff_arg t) = p
    ∧ ∀ (e : env) (s' : state),
        New.run_ffmpeg_stream_step e t s' = (s', FFTask (ff_arg t) Done None).
Proof.
  intros Hfields Hp Hunknown Hfile.
  rewrite (start_stream_accepted s vid data f rest Hfields Hfile).
  eexists. split; [reflexivity|].
  cbn [ff_arg platform]. unfold item. rewrite Hp. cbn [default from_option id].
  split; [done|].
  intros e s'. by apply run_unknown_platform.
Qed.

Lemma run_enter_spawns (clock : string) (heeds busy : bool) (a : ff_args) (c : string)
    (s : state) :
  New.base_cmd a = Some c →
  New.run_ffmpeg_stream_step (Env clock (inr heeds) busy) (FFTask a Enter None) s
  = (State (<[New.log_file a := []]> (files s)) (video_hashes s)
           (<[video_id a := Stream (Some (length (procs s))) starting (ff_task_id a)
                                   clock None]> (active_streams s))
           (procs s ++ [Proc c heeds None]) (timers s),
     FFTask a Settle (Some (length (procs s)))).
Proof.
  intros Hc. unfold New.run_ffmpeg_stream_step. cbn [ff_at ff_arg]. by rewrite Hc.
Qed.

(** C5, as the code has it.  [active_streams] is a dictionary, so one
    video id never has two entries.  A start request for a video id
    whose entry is in status [starting] or [live] is not turned away:
    with the four fields present, a platform of the table and a stored
    name containing the id, it is answered 200, and its thread starts
    one more child process and puts a new entry in status [starting],
    holding the new child, in the place of the old one.  The earlier
    children stay in the process table as they were. *)
Theorem second_start_spawns_again (s : state) (vid : string)
    (data : gmap string value) (p : value) (f : string) (rest : list string) (st : stream)
    (clock : string) (heeds busy : bool) :
  (∀ k, k ∈ New.required_fields → is_Some (data !! k)) →
  data !! "platform" = Some p →
  known_platform p →
  filter (λ f, str_in vid f = true) (listdir UPLOAD_FOLDER (files s)) = f :: rest →
  active_streams s !! vid = Some st →
  status st = starting ∨ status st = live →
  ∃ (t : ff_task) (c : string),
    New.start_stream vid (Object data) s
    = (Json (JObj [("message", JStr "Stream starting"); ("videoId", JStr vid)]) 200, Some t)
    ∧ procs (fst (New.run_ffmpeg_stream_step (Env clock (inr heeds) busy) t s))
      = (procs s ++ [Proc c heeds None])%list
    ∧ active_streams (fst (New.run_ffmpeg_stream_step (Env clock (inr heeds) busy) t s)) !! vid
      = Some (Stream (Some (length (procs s))) starting (item data "taskId") clock None)
    ∧ ff_at (snd (New.run_ffmpeg_stream_step (Env clock (inr heeds) busy) t s)) = Settle.
Proof.
  intros Hfields Hp (q & -> & Hknown) Hfile Hst _.
  rewrite (start_stream_accepted s vid data f rest Hfields Hfile).
  set (a := FFArgs _ _ _ _ _ _).
  destruct (platform_table_known q (render (item data "streamKey")) Hknown) as [r Hr].
  assert (∃ c, New.base_cmd a = Some c) as [c Hc].
  { assert (item data "platform" = Str q) as Hitem by (unfold item; by rewrite Hp).
    unfold New.base_cmd, New.platform_row, a. cbn [platform stream_key].
    rewrite Hitem. cbn [text_of mbind option_bind]. rewrite Hr. eauto. }
  eexists _, _. split; [reflexivity|].
  rewrite (run_enter_spawns _ _ _ _ _ _ Hc). cbn.
  split_and!; [done | apply lookup_insert_eq | done].
Qed.
End Start.

(** The request of the scenario: ["mastodon"] for a stored upload is not
    answered in the 400 class. *)
Lemma unknown_platform_not_rejected :
  ¬ (400 ≤ status_code (fst (New.start_stream "id1" (Sample.request_data "mastodon")
                               Sample.stored)) < 500)%nat.
Proof. vm_compute. lia. Qed.

Lemma unknown_platform_starts_nothing_witness :
  ∃ t : ff_task,
    New.start_stream "id1" (Sample.request_data "mastodon") Sample.stored
    = (Json (JObj [("message", JStr "Stream starting"); ("videoId", JStr "id1")]) 200, Some t)
    ∧ platform (ff_arg t) = "mastodon"
    ∧ ∀ (e : env) (s' : state),
        New.run_ffmpeg_stream_step e t s' = (s', FFTask (ff_arg t) Done None).
Proof.
  apply (unknown_platform_starts_nothing Sample.stored "id1"
           (Sample.request_fields "mastodon") "mastodon" "a@x.org_id1.mp4" []).
  - intros k Hk.
    unfold New.required_fields in Hk. rewrite !elem_of_cons, elem_of_nil in Hk.
    destruct Hk as [->|[->|[->|[->|[]]]]]; vm_compute; eauto.
  - vm_compute; reflexivity.
  - intros (q & [= <-] & Hq). revert Hq. unfold known_platforms.
    rewrite !elem_of_cons, elem_of_nil. intros [?|[?|[?|[?|[]]]]]; discriminate.
  - vm_compute; reflexivity.
Defined.

(** The stored upload is being streamed ([starting], child 0 running) and
    a second start request for it arrives: the answer is not an error and
    a second child is started next to the first. *)
Lemma second_start_not_rejected :
  Server.status_of "id1" (Sample.started Sample.child_ok) = Some starting
  ∧ ¬ (400 ≤ status_code
               (fst (New.start_stream "id1" (Sample.request_data "facebook")
                       (Server.shared (Sample.started Sample.child_ok)))))%nat
  ∧ (λ ps, (length ps, running 0 ps, running 1 ps))
      (procs (Server.shared
                (Server.exec Sample.digest
                   [Server.Start "id1" (Sample.request_data "facebook");
                    Server.Run 1 Sample.child_ok]
                   (Sample.started Sample.child_ok))))
    = (2, true, true).
Proof. vm_compute. split_and!; [reflexivity | lia | reflexivity]. Qed.

Lemma second_start_spawns_again_witness :
  ∃ (t : ff_task) (c : string),
    New.start_stream "id1" (Sample.request_data "facebook")
      (Server.shared (Sample.started Sample.child_ok))
    = (Json (JObj [("message", JStr "Stream starting"); ("videoId", JStr "id1")]) 200, Some t)
    ∧ procs (fst (New.run_ffmpeg_stream_step Sample.child_ok t
                    (Server.shared (Sample.started Sample.child_ok))))
      = (procs (Server.shared (Sample.started Sample.child_ok)) ++ [Proc c true None])%list
    ∧ active_streams (fst (New.run_ffmpeg_stream_step Sample.child_ok t
                             (Server.shared (Sample.started Sample.child_ok)))) !! "id1"
      = Some (Stream (Some 1) starting "task" "2025-01-01T00:00:00" None)
    ∧ ff_at (snd (New.run_ffmpeg_stream_step Sample.child_ok t
                    (Server.shared (Sample.started Sample.child_ok)))) = Settle.
Proof.
  apply (second_start_spawns_again (Server.shared (Sample.started Sample.child_ok)) "id1"
           (Sample.request_fields "facebook") "facebook" "a@x.org_id1.mp4" []
           (Stream (Some 0) starting "task" "2025-01-01T00:00:00" None)
           "2025-01-01T00:00:00" true false).
  - intros k Hk.
    unfold New.required_fields in Hk. rewrite !elem_of_cons, elem_of_nil in Hk.
    destruct Hk as [->|[->|[->|[->|[]]]]]; vm_compute; eauto.
  - vm_compute; reflexivity.
  - exists "facebook". split; [reflexivity|].
    unfold known_platforms. rewrite !elem_of_cons. tauto.
  - vm_compute; reflexivity.
  - vm_compute; reflexivity.
  - left. reflexivity.
Defined.

(** ** The status of a session *)

Section Status.
Variable sha256 : list Byte.byte → string.

(** A pass of the retry loop touches neither [active_streams] nor the
    processes, and leaves the thread finished or asleep in the loop. *)
Lemma remove_attempt_frame (e : env) (t : ff_task) (n : nat) (s : state) :
  active_streams (fst (remove_attempt e t n s)) = active_streams s
  ∧ procs (fst (remove_attempt e t n s)) = procs s
  ∧ ff_arg (snd (remove_attempt e t n s)) = ff_arg t
  ∧ ff_process (snd (remove_attempt e t n s)) = ff_process t
  ∧ (ff_at (snd (remove_attempt e t n s)) = Done
     ∨ ff_at (snd (remove_attempt e t n s)) = Retry (S n)).
Proof.
  unfold remove_attempt, finish.
  destruct (path_exists _ _); [destruct (remove_raises e)|]; cbn; auto 10.
Qed.

(** The same for a step of a thread that is in the retry loop. *)
Lemma retry_step_frame (e : env) (t : ff_task) (s : state) :
  ff_at t = FinSleep ∨ (∃ k, ff_at t = Retry k) →
  active_streams (fst (New.run_ffmpeg_stream_step e t s)) = active_streams s
  ∧ procs (fst (New.run_ffmpeg_stream_step e t s)) = procs s
  ∧ ff_arg (snd (New.run_ffmpeg_stream_step e t s)) = ff_arg t
  ∧ ff_process (snd (New.run_ffmpeg_stream_step e t s)) = ff_process t
  ∧ (ff_at (snd (New.run_ffmpeg_stream_step e t s)) = Done
     ∨ ∃ k, ff_at (snd (New.run_ffmpeg_stream_step e t s)) = Retry k).
Proof.
  unfold New.run_ffmpeg_stream_step. intros [->|[k ->]].
  - destruct (remove_attempt_frame e t 0 s) as (? & ? & ? & ? & [?|?]); eauto 10.
  - destruct (decide (k < max_attempts)).
    + destruct (remove_attempt_frame e t k s) as (? & ? & ? & ? & [?|?]); eauto 10.
    + cbn. auto 10.
Qed.

Lemma except_clause_absent (vid msg : string) (s : state) :
  active_streams s !! vid = None → except_clause vid msg s = s.
Proof. intros H. unfold except_clause. by rewrite H. Qed.

Lemma except_clause_other (vid msg k : string) (s : state) :
  k ≠ vid → active_streams (except_clause vid msg s) !! k = active_streams s !! k.
Proof.
  intros Hk. unfold except_clause. destruct (active_streams s !! vid); [|done].
  cbn. by rewrite lookup_insert_ne.
Qed.

Lemma set_status_other (vid k : string) (st : stream_status) (s s1 : state) :
  set_status vid st s = Some s1 → k ≠ vid →
  active_streams s1 !! k = active_streams s !! k.
Proof.
  unfold set_status. destruct (active_streams s !! vid); [|done].
  intros [= <-] Hk. cbn. by rewrite lookup_insert_ne.
Qed.

Lemma set_status_own (vid : string) (st : stream_status) (s s1 : state) :
  set_status vid st s = Some s1 →
  status <$> active_streams s1 !! vid = Some st.
Proof.
  unfold set_status. destruct (active_streams s !! vid); [|done].
  intros [= <-]. cbn. by rewrite lookup_insert_eq.
Qed.

Lemma set_status_absent (vid : string) (st : stream_status) (s : state) :
  set_status vid st s = None → active_streams s !! vid = None.
Proof. unfold set_status. by destruct (active_streams s !! vid). Qed.

Lemma pp_step_active (t : pp_task) (s : state) :
  active_streams (fst (New.post_process_step sha256 t s)) = active_streams s.
Proof.
  unfold New.post_process_step. destruct (pp_at t); cbn; try done.
  - by destruct (compute_file_hash sha256 (pp_save_path t) s).
  - by destruct (video_hashes s !! file_hash).
  - by destruct (os_remove (pp_save_path t) (files s)).
Qed.

Lemma ff_step_arg (e : env) (t : ff_task) (s : state) :
  ff_arg (snd (New.run_ffmpeg_stream_step e t s)) = ff_arg t.
Proof.
  destruct (ff_at t) eqn:Hat;
    try (apply retry_step_frame; rewrite Hat; eauto; fail);
    unfold New.run_ffmpeg_stream_step, finally_begin; rewrite Hat; cbn.
  - destruct (New.base_cmd (ff_arg t)); [|done]. by destruct (popen e).
  - by destruct (set_status _ _ _).
  - destruct (match ff_process t with Some pid => running pid (procs s) | None => false end);
      [done|]. by destruct (set_status _ _ _).
  - done.
Qed.

Lemma ff_step_settled (e : env) (t : ff_task) (s : state) :
  ff_at t ≠ Enter → ff_at t ≠ Settle →
  ff_at (snd (New.run_ffmpeg_stream_step e t s)) ≠ Enter
  ∧ ff_at (snd (New.run_ffmpeg_stream_step e t s)) ≠ Settle.
Proof.
  intros H1 H2.
  assert (ff_at t = FinSleep ∨ (∃ k, ff_at t = Retry k) →
          ff_at (snd (New.run_ffmpeg_stream_step e t s)) ≠ Enter
          ∧ ff_at (snd (New.run_ffmpeg_stream_step e t s)) ≠ Settle) as Hretry.
  { intros Hat. destruct (retry_step_frame e t s Hat) as (_ & _ & _ & _ & [->|[k ->]]); done. }
  destruct (ff_at t) eqn:Hat; try done; try (apply Hretry; eauto; fail);
    unfold New.run_ffmpeg_stream_step, finally_begin; rewrite Hat; cbn.
  - destruct (match ff_process t with Some pid => running pid (procs s) | None => false end).
    + cbn. by rewrite Hat.
    + by destruct (set_status _ _ _).
  - by rewrite Hat.
Qed.

(** A thread writes to no entry of [active_streams] but its own. *)
Lemma ff_step_other (e : env) (t : ff_task) (s : state) (k : string) :
  k ≠ video_id (ff_arg t) →
  active_streams (fst (New.run_ffmpeg_stream_step e t s)) !! k = active_streams s !! k.
Proof.
  intros Hk.
  destruct (ff_at t) eqn:Hat;
    try (destruct (retry_step_frame e t s) as (-> & _); [rewrite Hat; by eauto | done]);
    unfold New.run_ffmpeg_stream_step, finally_begin; rewrite Hat; cbn.
  - destruct (New.base_cmd (ff_arg t)); [|done]. destruct (popen e); cbn.
    + by rewrite except_clause_other.
    + by rewrite lookup_insert_ne.
  - destruct (set_status _ _ _) eqn:Hset; cbn.
    + by eapply set_status_other.
    + by rewrite except_clause_other.
  - destruct (match ff_process t with Some pid => running pid (procs s) | None => false end);
      [done|].
    destruct (set_status _ _ _) eqn:Hset; cbn.
    + by eapply set_status_other.
    + by rewrite except_clause_other.
  - done.
Qed.

(** Past its [time.sleep(5)] a thread writes nothing but [completed] to
    its entry, and only if the entry is there. *)
Lemma ff_step_own (e : env) (t : ff_task) (s : state) :
  ff_at t ≠ Enter → ff_at t ≠ Settle →
  (status <$> active_streams s !! video_id (ff_arg t) = Some completed →
   status <$> active_streams (fst (New.run_ffmpeg_stream_step e t s)) !! video_id (ff_arg t)
   = Some completed)
  ∧ (active_streams s !! video_id (ff_arg t) = None →
     active_streams (fst (New.run_ffmpeg_stream_step e t s)) !! video_id (ff_arg t) = None).
Proof.
  intros H1 H2.
  destruct (ff_at t) eqn:Hat; try done;
    try (destruct (retry_step_frame e t s) as (-> & _); [rewrite Hat; by eauto | done]);
    unfold New.run_ffmpeg_stream_step, finally_begin; rewrite Hat; cbn; try done.
  destruct (match ff_process t with Some pid => running pid (procs s) | None => false end);
    [done|].
  destruct (set_status _ _ _) eqn:Hset; cbn.
  - split.
    + intros _. by eapply set_status_own.
    + intros Hnone. unfold set_status in Hset. by rewrite Hnone in Hset.
  - apply set_status_absent in Hset. by rewrite except_clause_absent.
Qed.

Lemma start_stream_task (vid : string) (b : request_body) (s : state) (t : ff_task) :
  snd (New.start_stream vid b s) = Some t → video_id (ff_arg t) = vid.
Proof.
  unfold New.start_stream. destruct b as [code| |contains|data]; try done.
  - destruct (negb _); [done|]. by destruct (filter _ _).
  - destruct (negb _); [done|]. destruct (filter _ _); [done|]. by intros [= <-].
Qed.

Lemma upload_video_active (email : string) (video : option New.upload) (uuid4 : string)
    (io : New.save_outcome) (s : state) :
  active_streams (snd (fst (New.upload_video email video uuid4 io s)))
  = active_streams s.
Proof.
  unfold New.upload_video. destruct video as [file|]; [|done].
  case_bool_decide; [done|]. destruct (allowed_file _); [|done]. by destruct io.
Qed.

Lemma delete_if_not_streamed_active (vid path : string) (s : state) :
  active_streams (delete_if_not_streamed vid path s) = active_streams s.
Proof.
  unfold delete_if_not_streamed. destruct (active_streams s !! vid); [done|].
  destruct (path_exists _ _); [|done]. by destruct (os_remove _ _).
Qed.

Lemma step_settled (vid : string) (l : Server.label) (c : Server.config) :
  settled vid c → no_start vid l → settled vid (fst (Server.step sha256 l c)).
Proof.
  intros Hs Hl i t Hi Hv. destruct l as [email video uuid4 io|v d|v|v|j e|pid rc|j];
    cbn [Server.step fst Server.threads] in Hi.
  - destruct (snd (New.upload_video email video uuid4 io (Server.shared c))) as [pt|];
      cbn [fmap option_fmap option_map Server.spawn] in Hi; [|by eapply Hs].
    apply lookup_app_Some in Hi as [Hi|[_ Hi]]; [by eapply Hs|].
    apply list_lookup_singleton_Some in Hi as [_ [=]].
  - destruct (snd (New.start_stream v d (Server.shared c))) as [ft|] eqn:Hstart;
      cbn [fmap option_fmap option_map Server.spawn] in Hi; [|by eapply Hs].
    apply lookup_app_Some in Hi as [Hi|[_ Hi]]; [by eapply Hs|].
    apply list_lookup_singleton_Some in Hi as [_ [= <-]].
    apply start_stream_task in Hstart. cbn in Hl. congruence.
  - by eapply Hs.
  - by eapply Hs.
  - destruct (Server.threads c !! j) as [t0|] eqn:Hj; cbn [fst Server.threads] in Hi;
      [|by eapply Hs].
    apply list_lookup_insert_Some in Hi as [(-> & Ht & _)|[_ Hi]]; [|by eapply Hs].
    destruct t0 as [pt|ft]; cbn in Ht; [done|]. injection Ht as <-.
    rewrite ff_step_arg in Hv. destruct (Hs _ _ Hj Hv) as [H1 H2].
    by apply ff_step_settled.
  - by eapply Hs.
  - destruct (timers (Server.shared c) !! j); by eapply Hs.
Qed.

Lemma step_completed (vid : string) (l : Server.label) (c : Server.config) :
  settled vid c → no_start vid l → completed_or_gone vid c →
  completed_or_gone vid (fst (Server.step sha256 l c)).
Proof.
  unfold completed_or_gone, Server.status_of.
  intros Hs Hl Hc. destruct l as [email video uuid4 io|v d|v|v|j e|pid rc|j];
    cbn [Server.step fst Server.shared].
  - by rewrite upload_video_active.
  - done.
  - unfold Main.stop_stream. destruct (active_streams (Server.shared c) !! v) eqn:Hv;
      cbn; [|done].
    destruct (decide (v = vid)) as [->|Hne].
    + right. by rewrite lookup_delete_eq.
    + by rewrite lookup_delete_ne, lookup_insert_ne.
  - unfold Main.get_stream_status.
    destruct (active_streams (Server.shared c) !! v) as [st|] eqn:Hv; cbn; [|done].
    destruct (decide (v = vid)) as [->|Hne]; [|by rewrite lookup_insert_ne].
    rewrite lookup_insert_eq. rewrite Hv in Hc. destruct Hc as [Hc|Hc]; [|done].
    left. cbn in *. destruct (process st); [|done].
    by destruct (running _ _).
  - destruct (Server.threads c !! j) as [t0|] eqn:Hj; cbn [fst Server.shared]; [|done].
    destruct t0 as [pt|ft]; cbn [Server.run_task fst].
    + by rewrite pp_step_active.
    + destruct (decide (video_id (ff_arg ft) = vid)) as [<-|Hne].
      * destruct (Hs _ _ Hj eq_refl) as [H1 H2].
        destruct (ff_step_own e ft (Server.shared c) H1 H2) as [Hkeep Hgone].
        destruct Hc as [Hc|Hc]; [left; by apply Hkeep|].
        right. rewrite Hgone; [done|]. by destruct (active_streams _ !! _).
      * by rewrite ff_step_other.
  - done.
  - destruct (timers (Server.shared c) !! j) as [tm|]; cbn [fst Server.shared]; [|done].
    destruct (action tm) as [v path|v]; cbn [Server.fire].
    + by rewrite delete_if_not_streamed_active.
    + cbn. destruct (decide (v = vid)) as [->|Hne].
      * right. by rewrite lookup_delete_eq.
      * by rewrite lookup_delete_ne.
Qed.

(** Under the same conditions an id without an entry stays without one. *)
Lemma step_gone (vid : string) (l : Server.label) (c : Server.config) :
  settled vid c → no_start vid l →
  Server.status_of vid c = None →
  Server.status_of vid (fst (Server.step sha256 l c)) = None.
Proof.
  unfold Server.status_of. rewrite !fmap_None.
  intros Hs Hl Hc. destruct l as [email video uuid4 io|v d|v|v|j e|pid rc|j];
    cbn [Server.step fst Server.shared].
  - by rewrite upload_video_active.
  - done.
  - unfold Main.stop_stream. destruct (active_streams (Server.shared c) !! v) eqn:Hv;
      cbn; [|done].
    destruct (decide (v = vid)) as [->|Hne]; [by rewrite lookup_delete_eq|].
    by rewrite lookup_delete_ne, lookup_insert_ne.
  - unfold Main.get_stream_status.
    destruct (active_streams (Server.shared c) !! v) as [st|] eqn:Hv; cbn; [|done].
    destruct (decide (v = vid)) as [->|Hne]; [congruence|]. by rewrite lookup_insert_ne.
  - destruct (Server.threads c !! j) as [t0|] eqn:Hj; cbn [fst Server.shared]; [|done].
    destruct t0 as [pt|ft]; cbn [Server.run_task fst].
    + by rewrite pp_step_active.
    + destruct (decide (video_id (ff_arg ft) = vid)) as [<-|Hne].
      * destruct (Hs _ _ Hj eq_refl) as [H1 H2].
        by apply (ff_step_own e ft (Server.shared c) H1 H2).
      * by rewrite ff_step_other.
  - done.
  - destruct (timers (Server.shared c) !! j) as [tm|]; cbn [fst Server.shared]; [|done].
    destruct (action tm) as [v path|v]; cbn [Server.fire].
    + by rewrite delete_if_not_streamed_active.
    + cbn. destruct (decide (v = vid)) as [->|Hne]; [by rewrite lookup_delete_eq|].
      by rewrite lookup_delete_ne.
Qed.

Lemma exec_settled (vid : string) (ls : list Server.label) (c : Server.config) :
  settled vid c → Forall (no_start vid) ls → settled vid (Server.exec sha256 ls c).
Proof.
  intros Hs Hls. revert c Hs. induction Hls as [|l ls Hl _ IH]; intros c Hs; [done|].
  cbn [Server.exec foldl]. apply IH. by apply step_settled.
Qed.

Lemma exec_completed (vid : string) (ls : list Server.label) (c : Server.config) :
  settled vid c → Forall (no_start vid) ls → completed_or_gone vid c →
  completed_or_gone vid (Server.exec sha256 ls c).
Proof.
  intros Hs Hls. revert c Hs. induction Hls as [|l ls Hl _ IH]; intros c Hs Hc; [done|].
  cbn [Server.exec foldl]. apply IH.
  - by apply step_settled.
  - by apply step_completed.
Qed.

Lemma exec_gone (vid : string) (ls : list Server.label) (c : Server.config) :
  settled vid c → Forall (no_start vid) ls →
  Server.status_of vid c = None →
  Server.status_of vid (Server.exec sha256 ls c) = None.
Proof.
  intros Hs Hls. revert c Hs. induction Hls as [|l ls Hl _ IH]; intros c Hs Hc; [done|].
  cbn [Server.exec foldl]. apply IH.
  - by apply step_settled.
  - by apply step_gone.
Qed.

(** C3, as the code has it.  Once every [run_ffmpeg_stream] thread of a
    video id is past its five-second sleep, and as long as no further
    start request for that id arrives, a status [completed] is final:
    whatever requests, thread steps, child exits and timers follow, at
    every moment [m] of the run the registry shows [completed] for the id
    or no entry at all; and an entry that has gone does not come back:
    when there is no entry at a moment [n], there is none at any later
    moment [m]. *)
Theorem completed_is_final (vid : string) (ls : list Server.label) (c : Server.config) :
  settled vid c →
  Forall (no_start vid) ls →
  completed_or_gone vid c →
  ∀ n m : nat, (n ≤ m)%nat →
    completed_or_gone vid (Server.exec sha256 (take m ls) c)
    ∧ (Server.status_of vid (Server.exec sha256 (take n ls) c) = None →
       Server.status_of vid (Server.exec sha256 (take m ls) c) = None).
Proof.
  intros Hs Hls Hc n m Hnm. split.
  - apply exec_completed; [done | by apply Forall_take | done].
  - intros Hgone.
    assert (take m ls = take n ls ++ drop n (take m ls))%list as ->.
    { rewrite <- (take_drop n (take m ls)) at 1. by rewrite take_take, Nat.min_l. }
    unfold Server.exec in *. rewrite foldl_app. apply exec_gone.
    + apply exec_settled; [done | by apply Forall_take].
    + by apply Forall_drop, Forall_take.
    + done.
Qed.
End Status.

(** A stream is started, its child exits within the five-second sleep, a
    status request reconciles the entry to [completed] and says so, and
    the thread then wakes up and writes [live] over it, which the next
    status request reports. *)
Lemma completed_then_live :
  map (λ n, Server.status_of "id1"
              (Server.exec Sample.digest
                 (take n [Server.Exit 0 1; Server.Status "id1"; Server.Run 0 Sample.child_ok])
                 (Sample.started Sample.child_ok)))
      [0; 1; 2; 3]
  = [Some starting; Some starting; Some completed; Some live]
  ∧ reported_status
      (snd (Server.step Sample.digest (Server.Status "id1")
              (Server.exec Sample.digest [Server.Exit 0 1] (Sample.started Sample.child_ok))))
    = Some (JStr "completed")
  ∧ reported_status
      (snd (Server.step Sample.digest (Server.Status "id1")
              (Server.exec Sample.digest
                 [Server.Exit 0 1; Server.Status "id1"; Server.Run 0 Sample.child_ok]
                 (Sample.started Sample.child_ok))))
    = Some (JStr "live").
Proof. vm_compute. split_and!; reflexivity. Qed.

(** The finished stream: the status request answers, the thread removes
    the file and starts the 300-second timer, the timer drops the entry,
    and the entry stays away. *)
Lemma completed_is_final_witness :
  completed_or_gone "id1"
    (Server.exec Sample.digest
       [Server.Status "id1"; Server.Run 0 Sample.child_ok; Server.Fire 1; Server.Status "id1";
        Server.Run 0 Sample.child_ok]
       Sample.finished)
  ∧ Server.status_of "id1"
      (Server.exec Sample.digest
         [Server.Status "id1"; Server.Run 0 Sample.child_ok; Server.Fire 1; Server.Status "id1";
          Server.Run 0 Sample.child_ok]
         Sample.finished) = None.
Proof.
  destruct (completed_is_final Sample.digest "id1"
              [Server.Status "id1"; Server.Run 0 Sample.child_ok; Server.Fire 1;
               Server.Status "id1"; Server.Run 0 Sample.child_ok]
              Sample.finished) with (n := 3) (m := 5) as [Hfinal Hgone].
  - intros [|i] t Hi Hv; vm_compute in Hi; [|discriminate].
    injection Hi as <-. split; discriminate.
  - repeat constructor.
  - left. vm_compute. reflexivity.
  - lia.
  - split; [exact Hfinal|]. apply Hgone. vm_compute. reflexivity.
Defined.

(** ** Two uploads of the same bytes *)

Section Race.
Variable sha256 : list Byte.byte → string.
Variable e : env.

(** Running a schedule on two [post_process] tasks keeps whatever each
    single step of either task keeps. *)
Lemma exec_runs_pair (R : state → pp_task → pp_task → Prop) :
  (∀ s a b, R s a b →
     R (fst (New.post_process_step sha256 a s)) (snd (New.post_process_step sha256 a s)) b) →
  (∀ s a b, R s a b →
     R (fst (New.post_process_step sha256 b s)) a (snd (New.post_process_step sha256 b s))) →
  ∀ sched s a b, R s a b →
    ∃ s' a' b',
      Server.exec sha256 (runs e sched)
        (Server.Config s [Server.PostProcess a; Server.PostProcess b])
      = Server.Config s' [Server.PostProcess a'; Server.PostProcess b']
      ∧ R s' a' b'.
Proof.
  intros Hfst Hsnd sched. induction sched as [|i sched IH]; intros s a b HR.
  - by exists s, a, b.
  - unfold runs. cbn [fmap list_fmap Server.exec foldl].
    destruct i as [|[|i]]; cbn [Server.step fst Server.threads Server.shared lookup list_lookup].
    + apply (IH _ _ _ (Hfst _ _ _ HR)).
    + apply (IH _ _ _ (Hsnd _ _ _ HR)).
    + by apply IH.
Qed.

Lemma dedup_inv_sym (h : string) (content : list Byte.byte) (v1 p1 v2 p2 : string)
    (s : state) (pc1 pc2 : pp_pc) :
  dedup_inv h content v1 p1 v2 p2 s pc1 pc2 → dedup_inv h content v2 p2 v1 p1 s pc2 pc1.
Proof.
  intros (H1 & H2 & H3 & H4). split_and!; [done | done | |].
  - intros v Hv. destruct (H3 v Hv); [by right | by left].
  - intros [?|?]; apply H4; [by right | by left].
Qed.

(** One step of the first task keeps the invariant. *)
Lemma dedup_inv_step (content : list Byte.byte) (v1 p1 v2 p2 : string) (s : state)
    (pc1 pc2 : pp_pc) :
  p1 ≠ p2 →
  dedup_inv (sha256 content) content v1 p1 v2 p2 s pc1 pc2 →
  ∃ pc1',
    snd (New.post_process_step sha256 (PPTask v1 p1 pc1) s) = PPTask v1 p1 pc1'
    ∧ dedup_inv (sha256 content) content v1 p1 v2 p2
        (fst (New.post_process_step sha256 (PPTask v1 p1 pc1) s)) pc1' pc2.
Proof.
  intros Hne (H1 & H2 & H3 & H4).
  destruct pc1 as [|h'|  |h'| |]; cbn [task_inv] in H1.
  - rewrite (pp_step_hash sha256 s v1 p1 content H1). eexists; split; [reflexivity|].
    cbn [fst]. unfold dedup_inv, inserted in *.
    split_and!; [done | destruct pc2; naive_solver | naive_solver | naive_solver].
  - destruct H1 as [-> Hf]. rewrite pp_step_check. eexists; split; [reflexivity|].
    cbn [fst]. unfold dedup_inv, inserted in *.
    destruct (video_hashes s !! sha256 content) as [v|] eqn:Hidx.
    + split_and!; [|destruct pc2; naive_solver | naive_solver | naive_solver].
      cbn. destruct (H3 v eq_refl); naive_solver.
    + split_and!; [done | destruct pc2; naive_solver | naive_solver | naive_solver].
  - destruct H1 as [Hf Hother].
    rewrite pp_step_remove by (rewrite Hf; eauto). eexists; split; [reflexivity|].
    cbn [fst]. unfold dedup_inv, inserted in *. cbn.
    rewrite lookup_delete_eq, lookup_delete_ne by done.
    split_and!; [naive_solver | destruct pc2; naive_solver | naive_solver | naive_solver].
  - destruct H1 as [-> Hf]. unfold New.post_process_step. cbn.
    eexists; split; [reflexivity|].
    unfold dedup_inv, inserted in *. cbn. rewrite lookup_insert_eq.
    split_and!; [done | destruct pc2; naive_solver | naive_solver | eauto].
  - unfold New.post_process_step. cbn. eexists; split; [reflexivity|].
    unfold dedup_inv, inserted in *. cbn.
    split_and!; [naive_solver | destruct pc2; naive_solver | naive_solver | naive_solver].
  - unfold New.post_process_step. cbn. eexists; split; [reflexivity|].
    by split_and!.
Qed.

Lemma dedup_inv_exec (content : list Byte.byte) (v1 p1 v2 p2 : string) (sched : list nat)
    (s : state) (pc1 pc2 : pp_pc) :
  p1 ≠ p2 →
  dedup_inv (sha256 content) content v1 p1 v2 p2 s pc1 pc2 →
  ∃ s' pc1' pc2',
    Server.exec sha256 (runs e sched) (Server.Config s (pp_pair v1 p1 pc1 v2 p2 pc2))
    = Server.Config s' (pp_pair v1 p1 pc1' v2 p2 pc2')
    ∧ dedup_inv (sha256 content) content v1 p1 v2 p2 s' pc1' pc2'.
Proof.
  intros Hne Hinv.
  destruct (exec_runs_pair
              (λ s a b, ∃ pc1 pc2, a = PPTask v1 p1 pc1 ∧ b = PPTask v2 p2 pc2
                 ∧ dedup_inv (sha256 content) content v1 p1 v2 p2 s pc1 pc2))
    with (sched := sched) (s := s) (a := PPTask v1 p1 pc1) (b := PPTask v2 p2 pc2)
    as (s' & a' & b' & Hexec & pc1' & pc2' & -> & -> & Hinv').
  - intros s0 a b (q1 & q2 & -> & -> & H).
    destruct (dedup_inv_step content v1 p1 v2 p2 s0 q1 q2 Hne H) as (q1' & -> & H').
    by exists q1', q2.
  - intros s0 a b (q1 & q2 & -> & -> & H).
    destruct (dedup_inv_step content v2 p2 v1 p1 s0 q2 q1 (not_eq_sym Hne)
                (dedup_inv_sym _ _ _ _ _ _ _ _ _ H)) as (q2' & -> & H').
    exists q1, q2'. split_and!; [done | done | by apply dedup_inv_sym].
  - by exists pc1, pc2.
  - by exists s', pc1', pc2'.
Qed.

(** Steps of the task that has inserted, and of the other one, once the
    hash is in [video_hashes]. *)
Lemma after_insert_winner_step (content : list Byte.byte) (vw pw pl : string) (s : state)
    (pcw pcl : pp_pc) :
  after_insert (sha256 content) content vw pw pl s pcw pcl →
  ∃ pcw',
    snd (New.post_process_step sha256 (PPTask vw pw pcw) s) = PPTask vw pw pcw'
    ∧ after_insert (sha256 content) content vw pw pl
        (fst (New.post_process_step sha256 (PPTask vw pw pcw) s)) pcw' pcl.
Proof.
  intros (Hidx & Hw & [->| ->] & Hl); unfold New.post_process_step; cbn;
    eexists; (split; [reflexivity|]); split_and!; eauto.
Qed.

Lemma after_insert_loser_step (content : list Byte.byte) (vw pw vl pl : string) (s : state)
    (pcw pcl : pp_pc) :
  pw ≠ pl →
  after_insert (sha256 content) content vw pw pl s pcw pcl →
  ∃ pcl',
    snd (New.post_process_step sha256 (PPTask vl pl pcl) s) = PPTask vl pl pcl'
    ∧ after_insert (sha256 content) content vw pw pl
        (fst (New.post_process_step sha256 (PPTask vl pl pcl) s)) pcw pcl'.
Proof.
  intros Hne (Hidx & Hw & Hpcw & Hl). destruct pcl as [|h'| |h'| |]; try done.
  - rewrite (pp_step_hash sha256 s vl pl content Hl). eexists; split; [reflexivity|].
    by split_and!.
  - destruct Hl as [-> Hl]. rewrite pp_step_check, Hidx. eexists; split; [reflexivity|].
    by split_and!.
  - rewrite pp_step_remove by (rewrite Hl; eauto). eexists; split; [reflexivity|].
    unfold after_insert. cbn. rewrite lookup_delete_eq, lookup_delete_ne by done.
    by split_and!.
  - unfold New.post_process_step. cbn. eexists; split; [reflexivity|]. by split_and!.
Qed.

Lemma after_insert_exec_first (content : list Byte.byte) (v1 p1 v2 p2 : string)
    (sched : list nat) (s : state) (pcw pcl : pp_pc) :
  p1 ≠ p2 →
  after_insert (sha256 content) content v1 p1 p2 s pcw pcl →
  ∃ s' pcw' pcl',
    Server.exec sha256 (runs e sched) (Server.Config s (pp_pair v1 p1 pcw v2 p2 pcl))
    = Server.Config s' (pp_pair v1 p1 pcw' v2 p2 pcl')
    ∧ after_insert (sha256 content) content v1 p1 p2 s' pcw' pcl'.
Proof.
  intros Hne Hinv.
  destruct (exec_runs_pair
              (λ s a b, ∃ qw ql, a = PPTask v1 p1 qw ∧ b = PPTask v2 p2 ql
                 ∧ after_insert (sha256 content) content v1 p1 p2 s qw ql))
    with (sched := sched) (s := s) (a := PPTask v1 p1 pcw) (b := PPTask v2 p2 pcl)
    as (s' & a' & b' & Hexec & qw & ql & -> & -> & Hinv').
  - intros s0 a b (qw & ql & -> & -> & H).
    destruct (after_insert_winner_step content v1 p1 p2 s0 qw ql H) as (qw' & -> & H').
    by exists qw', ql.
  - intros s0 a b (qw & ql & -> & -> & H).
    destruct (after_insert_loser_step content v1 p1 v2 p2 s0 qw ql Hne H) as (ql' & -> & H').
    by exists qw, ql'.
  - by exists pcw, pcl.
  - by exists s', qw, ql.
Qed.

Lemma after_insert_exec_second (content : list Byte.byte) (v1 p1 v2 p2 : string)
    (sched : list nat) (s : state) (pcw pcl : pp_pc) :
  p1 ≠ p2 →
  after_insert (sha256 content) content v2 p2 p1 s pcw pcl →
  ∃ s' pcw' pcl',
    Server.exec sha256 (runs e sched) (Server.Config s (pp_pair v1 p1 pcl v2 p2 pcw))
    = Server.Config s' (pp_pair v1 p1 pcl' v2 p2 pcw')
    ∧ after_insert (sha256 content) content v2 p2 p1 s' pcw' pcl'.
Proof.
  intros Hne Hinv.
  destruct (exec_runs_pair
              (λ s a b, ∃ qw ql, a = PPTask v1 p1 ql ∧ b = PPTask v2 p2 qw
                 ∧ after_insert (sha256 content) content v2 p2 p1 s qw ql))
    with (sched := sched) (s := s) (a := PPTask v1 p1 pcl) (b := PPTask v2 p2 pcw)
    as (s' & a' & b' & Hexec & qw & ql & -> & -> & Hinv').
  - intros s0 a b (qw & ql & -> & -> & H).
    destruct (after_insert_loser_step content v2 p2 v1 p1 s0 qw ql (not_eq_sym Hne) H)
      as (ql' & -> & H').
    by exists qw, ql'.
  - intros s0 a b (qw & ql & -> & -> & H).
    destruct (after_insert_winner_step content v2 p2 p1 s0 qw ql H) as (qw' & -> & H').
    by exists qw', ql.
  - by exists pcw, pcl.
  - by exists s', qw, ql.
Qed.

(** From the invariant to the situation after the first insert. *)
Lemma dedup_inv_after_insert (content : list Byte.byte) (v1 p1 v2 p2 : string) (s : state)
    (pc2 : pp_pc) :
  dedup_inv (sha256 content) content v1 p1 v2 p2 s PPArm pc2 →
  (pc2 = PPHash ∨ ∃ h, pc2 = PPCheck h) →
  after_insert (sha256 content) content v1 p1 p2 s PPArm pc2.
Proof.
  intros (H1 & H2 & H3 & H4) Hpc2. cbn in H1.
  assert (¬ inserted content pc2 (files s !! p2)) as Hnot.
  { intros [[->| ->] _]; destruct Hpc2 as [?|[? ?]]; done. }
  destruct H4 as [v Hv]; [left; split; [by left | done]|].
  destruct (H3 v Hv) as [[-> _]|[_ ?]]; [|done].
  split_and!; [done | done | by left |].
  destruct Hpc2 as [->|[h ->]]; exact H2.
Qed.

Lemma dedup_inv_init (content : list Byte.byte) (v1 p1 v2 p2 : string) (s : state) :
  files s !! p1 = Some content → files s !! p2 = Some content →
  video_hashes s !! sha256 content = None →
  dedup_inv (sha256 content) content v1 p1 v2 p2 s PPHash PPHash.
Proof.
  intros Hf1 Hf2 Hidx. split_and!; [done | done | |].
  - intros v Hv. congruence.
  - intros [[[?|?] _]|[[?|?] _]]; done.
Qed.

(** Whatever the schedule, the two tasks never both lose their file. *)
Lemma identical_uploads_one_kept (content : list Byte.byte) (v1 p1 v2 p2 : string)
    (s s' : state) (sched : list nat) (pc1 pc2 : pp_pc) :
  p1 ≠ p2 →
  files s !! p1 = Some content → files s !! p2 = Some content →
  video_hashes s !! sha256 content = None →
  Server.exec sha256 (runs e sched) (Server.Config s (pp_pair v1 p1 PPHash v2 p2 PPHash))
  = Server.Config s' (pp_pair v1 p1 pc1 v2 p2 pc2) →
  files s' !! p1 = Some content ∨ files s' !! p2 = Some content.
Proof.
  intros Hne Hf1 Hf2 Hidx Hexec.
  destruct (dedup_inv_exec content v1 p1 v2 p2 sched s PPHash PPHash Hne
              (dedup_inv_init content v1 p1 v2 p2 s Hf1 Hf2 Hidx))
    as (s1 & q1 & q2 & Hexec' & (H1 & _)).
  rewrite Hexec in Hexec'. injection Hexec' as <- <- <-.
  unfold task_inv, inserted in H1. destruct pc1; naive_solver.
Qed.

(** C2, as the code has it.  Two [post_process] tasks on files of the same
    content, whose hash is not yet in [video_hashes], run under any
    schedule.  If at some moment one of them has just inserted its hash
    while the other has not yet looked the hash up, then, however the rest
    is scheduled, at the end the inserting task's file is there, the other
    file is gone and [video_hashes] names the inserting task's asset. *)
Theorem identical_uploads_ordered (content : list Byte.byte) (v1 p1 v2 p2 : string)
    (s : state) :
  p1 ≠ p2 →
  files s !! p1 = Some content →
  files s !! p2 = Some content →
  video_hashes s !! sha256 content = None →
  (∀ (pre post : list nat) (s1 s2 : state) (pc2 : pp_pc),
     Server.exec sha256 (runs e pre) (Server.Config s (pp_pair v1 p1 PPHash v2 p2 PPHash))
     = Server.Config s1 (pp_pair v1 p1 PPArm v2 p2 pc2) →
     (pc2 = PPHash ∨ ∃ h, pc2 = PPCheck h) →
     Server.exec sha256 (runs e post) (Server.Config s1 (pp_pair v1 p1 PPArm v2 p2 pc2))
     = Server.Config s2 (pp_pair v1 p1 PPDone v2 p2 PPDone) →
     files s2 !! p1 = Some content ∧ files s2 !! p2 = None
     ∧ video_hashes s2 !! sha256 content = Some v1)
  ∧ (∀ (pre post : list nat) (s1 s2 : state) (pc1 : pp_pc),
       Server.exec sha256 (runs e pre) (Server.Config s (pp_pair v1 p1 PPHash v2 p2 PPHash))
       = Server.Config s1 (pp_pair v1 p1 pc1 v2 p2 PPArm) →
       (pc1 = PPHash ∨ ∃ h, pc1 = PPCheck h) →
       Server.exec sha256 (runs e post) (Server.Config s1 (pp_pair v1 p1 pc1 v2 p2 PPArm))
       = Server.Config s2 (pp_pair v1 p1 PPDone v2 p2 PPDone) →
       files s2 !! p2 = Some content ∧ files s2 !! p1 = None
       ∧ video_hashes s2 !! sha256 content = Some v2).
Proof.
  intros Hne Hf1 Hf2 Hidx.
  pose proof (dedup_inv_init content v1 p1 v2 p2 s Hf1 Hf2 Hidx) as Hinit.
  split.
  - intros pre post s1 s2 pc2 Hpre Hpc2 Hpost.
    destruct (dedup_inv_exec content v1 p1 v2 p2 pre s PPHash PPHash Hne Hinit)
      as (s1' & q1 & q2 & Hpre' & Hinv).
    rewrite Hpre in Hpre'. injection Hpre' as <- <- <-.
    pose proof (dedup_inv_after_insert content v1 p1 v2 p2 s1 pc2 Hinv Hpc2) as Hafter.
    destruct (after_insert_exec_first content v1 p1 v2 p2 post s1 PPArm pc2 Hne Hafter)
      as (s2' & qw & ql & Hpost' & (Hv & Hw & _ & Hl)).
    rewrite Hpost in Hpost'. injection Hpost' as <- <- <-.
    by split_and!.
  - intros pre post s1 s2 pc1 Hpre Hpc1 Hpost.
    destruct (dedup_inv_exec content v1 p1 v2 p2 pre s PPHash PPHash Hne Hinit)
      as (s1' & q1 & q2 & Hpre' & Hinv).
    rewrite Hpre in Hpre'. injection Hpre' as <- <- <-.
    pose proof (dedup_inv_after_insert content v2 p2 v1 p1 s1 pc1
                  (dedup_inv_sym _ _ _ _ _ _ _ _ _ Hinv) Hpc1) as Hafter.
    destruct (after_insert_exec_second content v1 p1 v2 p2 post s1 PPArm pc1 Hne Hafter)
      as (s2' & qw & ql & Hpost' & (Hv & Hw & _ & Hl)).
    rewrite Hpost in Hpost'. injection Hpost' as <- <- <-.
    by split_and!.
Qed.
End Race.

(** The same ten bytes uploaded twice; the two tasks take turns, so both
    look the hash up before either inserts it.  Both tasks end, and both
    files are still there. *)
Lemma identical_uploads_both_survive :
  (λ c, (Server.threads c,
         files (Server.shared c) !! Sample.path_a,
         files (Server.shared c) !! Sample.path_b))
    (Server.exec Sample.digest
       ([Sample.upload_a; Sample.upload_b] ++ runs Sample.child_ok [0; 1; 0; 1; 0; 1; 0; 1])%list
       (Server.Config Sample.empty_state []))
  = (pp_pair "id1" Sample.path_a PPDone "id2" Sample.path_b PPDone,
     Some Sample.ten_A, Some Sample.ten_A).
Proof. vm_compute. reflexivity. Qed.

Lemma identical_uploads_ordered_witness :
  files (Server.shared
           (Server.exec Sample.digest (runs Sample.child_ok [0; 1; 0; 0; 1; 0; 1; 1])
              (Server.Config Sample.both_written
                 (pp_pair "id1" Sample.path_a PPHash "id2" Sample.path_b PPHash))))
    !! Sample.path_b = None
  ∧ files (Server.shared
             (Server.exec Sample.digest (runs Sample.child_ok [1; 0; 1; 1; 0; 1; 0; 0])
                (Server.Config Sample.both_written
                   (pp_pair "id1" Sample.path_a PPHash "id2" Sample.path_b PPHash))))
      !! Sample.path_a = None.
Proof.
  destruct (identical_uploads_ordered Sample.digest Sample.child_ok Sample.ten_A
              "id1" Sample.path_a "id2" Sample.path_b Sample.both_written)
    as [Hfirst Hsecond];
    [discriminate | vm_compute; reflexivity | vm_compute; reflexivity
     | vm_compute; reflexivity |].
  split.
  - refine (proj1 (proj2 (Hfirst [0; 1; 0; 0] [1; 0; 1; 1]
      (Server.shared
         (Server.exec Sample.digest (runs Sample.child_ok [0; 1; 0; 0])
            (Server.Config Sample.both_written
               (pp_pair "id1" Sample.path_a PPHash "id2" Sample.path_b PPHash))))
      _ (PPCheck (Sample.digest Sample.ten_A)) _ _ _)));
      [vm_compute; reflexivity | right; eauto | vm_compute; reflexivity].
  - refine (proj1 (proj2 (Hsecond [1; 0; 1; 1] [0; 1; 0; 0]
      (Server.shared
         (Server.exec Sample.digest (runs Sample.child_ok [1; 0; 1; 1])
            (Server.Config Sample.both_written
               (pp_pair "id1" Sample.path_a PPHash "id2" Sample.path_b PPHash))))
      _ (PPCheck (Sample.digest Sample.ten_A)) _ _ _)));
      [vm_compute; reflexivity | right; eauto | vm_compute; reflexivity].
Defined.

(** * Further properties of the code *)

(** ** Strings and the upload folder *)

Lemma rsplit_dot_app (stem ext : string) :
  rsplit_dot ext = None → rsplit_dot (stem +:+ "." +:+ ext) = Some ext.
Proof.
  intros Hext. induction stem as [|c stem IH].
  - change (rsplit_dot (String "."%char ext) = Some ext). cbn. by rewrite Hext.
  - change (rsplit_dot (String c (stem +:+ "." +:+ ext)) = Some ext). cbn. by rewrite IH.
Qed.

Lemma index_cons (v : string) (c : Ascii.ascii) (s : string) :
  String.index 0 v (String c s)
  = if String.prefix v (String c s) then Some 0
    else match String.index 0 v s with Some n => Some (S n) | None => None end.
Proof. reflexivity. Qed.

Lemma prefix_cons (a : Ascii.ascii) (v : string) (c : Ascii.ascii) (s : string) :
  String.prefix (String a v) (String c s) = Ascii.eqb a c && String.prefix v s.
Proof.
  change (String.prefix (String a v) (String c s))
    with (if Ascii.ascii_dec a c then String.prefix v s else false).
  destruct (Ascii.ascii_dec a c) as [->|Hne].
  - by rewrite Ascii.eqb_refl.
  - by destruct (Ascii.eqb_spec a c).
Qed.

Lemma prefix_empty (s : string) : String.prefix EmptyString s = true.
Proof. by destruct s. Qed.

(** [rsplit_dot] finds nothing exactly when ['.' in s] is false. *)
Lemma rsplit_dot_no_dot (s : string) :
  rsplit_dot s = None ↔ str_in "." s = false.
Proof.
  unfold str_in. induction s as [|c s IH]; [done|].
  rewrite index_cons, prefix_cons, prefix_empty, andb_true_r.
  cbn [rsplit_dot]. rewrite (Ascii.eqb_sym "." c).
  destruct (Ascii.eqb c ".").
  - split; [|done]. by destruct (rsplit_dot s).
  - destruct (rsplit_dot s), (String.index 0 "." s); naive_solver.
Qed.

Lemma strip_prefix_app (p s : string) : strip_prefix p (p +:+ s) = Some s.
Proof.
  induction p as [|c p IH]; [by destruct s|].
  change (strip_prefix (String c p) (String c (p +:+ s)) = Some s).
  cbn. by rewrite Ascii.eqb_refl.
Qed.

Lemma strip_prefix_Some (p s r : string) : strip_prefix p s = Some r → s = p +:+ r.
Proof.
  revert s. induction p as [|c p IH]; intros s.
  - cbn. intros [= <-]. reflexivity.
  - destruct s as [|d s]; cbn; [done|].
    destruct (Ascii.eqb_spec c d) as [->|]; [|done].
    intros H. apply IH in H. by rewrite H.
Qed.

Lemma prefix_app (v b : string) : String.prefix v (v +:+ b) = true.
Proof.
  induction v as [|c v IH]; [apply prefix_empty|].
  change (String c v +:+ b) with (String c (v +:+ b)).
  by rewrite prefix_cons, Ascii.eqb_refl, IH.
Qed.

(** [v in a + v + b] *)
Lemma str_in_app (a v b : string) : str_in v (a +:+ v +:+ b) = true.
Proof.
  unfold str_in. induction a as [|c a IH].
  - change (EmptyString +:+ v +:+ b) with (v +:+ b).
    pose proof (prefix_app v b) as Hp.
    destruct (v +:+ b) as [|d r] eqn:Hvb.
    + destruct v; [done | discriminate Hvb].
    + by rewrite index_cons, Hp.
  - change (String c a +:+ v +:+ b) with (String c (a +:+ v +:+ b)).
    rewrite index_cons. destruct (String.prefix v _); [done|].
    by destruct (String.index 0 v (a +:+ v +:+ b)).
Qed.

(** [os.listdir] shows exactly the stored names. *)
Lemma elem_of_listdir (d name : string) (fs : gmap string (list Byte.byte)) :
  name ∈ listdir d fs ↔ is_Some (fs !! path_join d name).
Proof.
  unfold listdir, path_join. rewrite list_elem_of_omap. split.
  - intros ([k bytes] & Hin & Hstrip). apply elem_of_map_to_list in Hin.
    apply strip_prefix_Some in Hstrip. cbn in Hstrip. subst k.
    rewrite str_app_assoc in Hin. eauto.
  - intros [bytes Hbytes]. exists (d +:+ "/" +:+ name, bytes). split.
    + by apply elem_of_map_to_list.
    + cbn. rewrite <- str_app_assoc. apply strip_prefix_app.
Qed.

Lemma upper_char_dot (c : Ascii.ascii) : Ascii.eqb (upper_char c) "." = Ascii.eqb c ".".
Proof. destruct c as [[] [] [] [] [] [] [] []]; reflexivity. Qed.

Lemma lower_upper_char (c : Ascii.ascii) : lower_char (upper_char c) = lower_char c.
Proof. destruct c as [[] [] [] [] [] [] [] []]; reflexivity. Qed.

Lemma upper_upper_char (c : Ascii.ascii) : upper_char (upper_char c) = upper_char c.
Proof. destruct c as [[] [] [] [] [] [] [] []]; reflexivity. Qed.

Lemma lower_upper (s : string) : lower (upper s) = lower s.
Proof.
  induction s as [|c s IH]; [done|]. unfold lower, upper in *. cbn.
  by rewrite lower_upper_char, IH.
Qed.

Lemma upper_upper (s : string) : upper (upper s) = upper s.
Proof.
  induction s as [|c s IH]; [done|]. unfold upper in *. cbn.
  by rewrite upper_upper_char, IH.
Qed.

Lemma rsplit_dot_upper (s : string) : rsplit_dot s = None → rsplit_dot (upper s) = None.
Proof.
  induction s as [|c s IH]; [done|]. unfold upper in *. cbn.
  rewrite upper_char_dot. destruct (rsplit_dot s); [done|].
  rewrite IH by done. by destruct (Ascii.eqb c ".").
Qed.

(** ** Uploads *)

(** X1.  [allowed_file] turns down a name without a dot; a name with a
    dot is judged by the text after its last dot alone.  When that text is
    ASCII, its letter case plays no part: the name is accepted exactly when
    the text, in lower case, is one of the five extensions. *)
Theorem allowed_file_by_extension (stem ext : string) :
  str_in "." ext = false →
  is_ascii ext = true →
  allowed_file ext = false
  ∧ allowed_file (stem +:+ "." +:+ ext) = bool_decide (lower ext ∈ ALLOWED_EXTENSIONS)
  ∧ allowed_file (stem +:+ "." +:+ upper ext) = allowed_file (stem +:+ "." +:+ ext).
Proof.
  intros Hdot _. apply rsplit_dot_no_dot in Hdot. unfold allowed_file.
  rewrite Hdot, (rsplit_dot_app stem ext Hdot),
    (rsplit_dot_app stem (upper ext) (rsplit_dot_upper ext Hdot)), lower_upper.
  done.
Qed.

Lemma allowed_file_by_extension_witness :
  allowed_file "mp4" = false
  ∧ allowed_file ("holiday.2024" +:+ "." +:+ "mp4") = true
  ∧ allowed_file ("holiday.2024" +:+ "." +:+ "MP4") = true.
Proof.
  destruct (allowed_file_by_extension "holiday.2024" "mp4") as (H1 & H2 & H3);
    [vm_compute; reflexivity ..|].
  split_and!; [exact H1 | exact (eq_trans H2 eq_refl) | exact (eq_trans H3 (eq_trans H2 eq_refl))].
Defined.

(** X2.  An upload that is not answered 200 starts no [post_process]
    thread and leaves [video_hashes], [active_streams], the processes and
    the timers as they were.  The files are as they were too, unless the
    copying loop raised: then the answer is 500 and the file of the upload
    holds the bytes written up to that point, in the place of whatever was
    stored under that name. *)
Theorem upload_refused_effects (email : string) (video : option New.upload)
    (uuid4 : string) (io : New.save_outcome) (s : state) :
  status_code (fst (fst (New.upload_video email video uuid4 io s))) ≠ 200 →
  snd (New.upload_video email video uuid4 io s) = None
  ∧ video_hashes (snd (fst (New.upload_video email video uuid4 io s))) = video_hashes s
  ∧ active_streams (snd (fst (New.upload_video email video uuid4 io s))) = active_streams s
  ∧ procs (snd (fst (New.upload_video email video uuid4 io s))) = procs s
  ∧ timers (snd (fst (New.upload_video email video uuid4 io s))) = timers s
  ∧ (files (snd (fst (New.upload_video email video uuid4 io s))) = files s
     ∨ ∃ file ext msg written,
         video = Some file ∧ ext ∈ ALLOWED_EXTENSIONS
         ∧ io = New.CopyRaises msg written
         ∧ fst (fst (New.upload_video email video uuid4 io s))
           = Json (JObj [("error", JStr msg)]) 500
         ∧ files (snd (fst (New.upload_video email video uuid4 io s)))
           = <[path_join UPLOAD_FOLDER (email +:+ "_" +:+ uuid4 +:+ "." +:+ ext)
               := take written (New.stream_bytes file)]> (files s))
  ∧ ((∀ msg written, io ≠ New.CopyRaises msg written) →
     snd (fst (New.upload_video email video uuid4 io s)) = s).
Proof.
  unfold New.upload_video.
  destruct video as [file|]; [|intros _; cbn; split_and!; try done; by left].
  case_bool_decide; [intros _; cbn; split_and!; try done; by left|].
  destruct (allowed_file (New.filename file)) eqn:Hallowed;
    [|intros _; cbn; split_and!; try done; by left].
  unfold allowed_file in Hallowed.
  destruct (rsplit_dot (New.filename file)) as [e|]; [|done].
  apply bool_decide_eq_true_1 in Hallowed.
  destruct io as [|msg|msg written];
    [done | intros _; cbn; split_and!; try done; by left |].
  intros _. cbn [fst snd video_hashes active_streams procs timers files set_files default
                 from_option id].
  split_and!; try done.
  - right. exists file, (lower e), msg, written. by split_and!.
  - intros Hio. by destruct (Hio msg written).
Qed.

Lemma upload_refused_effects_witness :
  snd (New.upload_video "b@y.org" (Some (New.Upload "copy.MP4" Sample.ten_A)) "id2"
         (New.CopyRaises "No space left on device" 4) Sample.stored) = None
  ∧ video_hashes
      (snd (fst (New.upload_video "b@y.org" (Some (New.Upload "copy.MP4" Sample.ten_A)) "id2"
                   (New.CopyRaises "No space left on device" 4) Sample.stored)))
    = video_hashes Sample.stored
  ∧ snd (fst (New.upload_video "a@x.org" (Some (New.Upload "notes.txt" Sample.ten_A)) "id9"
                New.Saved Sample.stored)) = Sample.stored.
Proof.
  split_and!.
  - apply (upload_refused_effects "b@y.org" (Some (New.Upload "copy.MP4" Sample.ten_A)) "id2"
             (New.CopyRaises "No space left on device" 4) Sample.stored).
    vm_compute. discriminate.
  - apply (upload_refused_effects "b@y.org" (Some (New.Upload "copy.MP4" Sample.ten_A)) "id2"
             (New.CopyRaises "No space left on device" 4) Sample.stored).
    vm_compute. discriminate.
  - apply (upload_refused_effects "a@x.org" (Some (New.Upload "notes.txt" Sample.ten_A)) "id9"
             New.Saved Sample.stored);
      [vm_compute; discriminate | discriminate].
Defined.

(** The shape of an accepted upload *)
Lemma upload_video_accepted (email : string) (video : option New.upload)
    (uuid4 : string) (io : New.save_outcome) (s : state) :
  status_code (fst (fst (New.upload_video email video uuid4 io s))) = 200 →
  ∃ file ext,
    video = Some file
    ∧ ext ∈ ALLOWED_EXTENSIONS
    ∧ New.upload_video email video uuid4 io s
      = (Json (New.upload_ok uuid4 (email +:+ "_" +:+ uuid4 +:+ "." +:+ ext)) 200,
         State (<[path_join UPLOAD_FOLDER (email +:+ "_" +:+ uuid4 +:+ "." +:+ ext)
                  := New.stream_bytes file]> (files s))
               (video_hashes s) (active_streams s) (procs s) (timers s),
         Some (PPTask uuid4 (path_join UPLOAD_FOLDER (email +:+ "_" +:+ uuid4 +:+ "." +:+ ext))
                      PPHash)).
Proof.
  unfold New.upload_video. destruct video as [file|]; [|done].
  case_bool_decide; [done|].
  destruct (allowed_file (New.filename file)) eqn:Hallowed; [|done].
  destruct io; [|done ..]. intros _.
  unfold allowed_file in Hallowed.
  destruct (rsplit_dot (New.filename file)) as [e|]; [|done].
  apply bool_decide_eq_true_1 in Hallowed.
  exists file, (lower e). by split_and!.
Qed.

(** X3.  An upload that is answered 200 has written exactly one file,
    [uploads/<email>_<id>.<ext>] with the bytes of the request, where
    [ext] is one of the five lower-case extensions; the answer names that
    file and the id, one [post_process] thread is started for it, and
    [video_hashes], [active_streams], the processes and the timers are
    untouched. *)
Theorem upload_accepted_stores_file (email : string) (video : option New.upload)
    (uuid4 : string) (io : New.save_outcome) (s : state) :
  status_code (fst (fst (New.upload_video email video uuid4 io s))) = 200 →
  ∃ file ext,
    video = Some file
    ∧ ext ∈ ALLOWED_EXTENSIONS
    ∧ New.upload_video email video uuid4 io s
      = (Json (New.upload_ok uuid4 (email +:+ "_" +:+ uuid4 +:+ "." +:+ ext)) 200,
         State (<[path_join UPLOAD_FOLDER (email +:+ "_" +:+ uuid4 +:+ "." +:+ ext)
                  := New.stream_bytes file]> (files s))
               (video_hashes s) (active_streams s) (procs s) (timers s),
         Some (PPTask uuid4 (path_join UPLOAD_FOLDER (email +:+ "_" +:+ uuid4 +:+ "." +:+ ext))
                      PPHash)).
Proof. exact (upload_video_accepted email video uuid4 io s). Qed.

Lemma upload_accepted_stores_file_witness :
  ∃ file ext,
    Some (New.Upload "copy.MP4" Sample.ten_A) = Some file
    ∧ ext ∈ ALLOWED_EXTENSIONS
    ∧ New.upload_video "b@y.org" (Some (New.Upload "copy.MP4" Sample.ten_A)) "id2" New.Saved
        Sample.stored
      = (Json (New.upload_ok "id2" ("b@y.org" +:+ "_" +:+ "id2" +:+ "." +:+ ext)) 200,
         State (<[path_join UPLOAD_FOLDER ("b@y.org" +:+ "_" +:+ "id2" +:+ "." +:+ ext)
                  := New.stream_bytes file]> (files Sample.stored))
               (video_hashes Sample.stored) (active_streams Sample.stored)
               (procs Sample.stored) (timers Sample.stored),
         Some (PPTask "id2" (path_join UPLOAD_FOLDER ("b@y.org" +:+ "_" +:+ "id2" +:+ "." +:+ ext))
                      PPHash)).
Proof.
  apply (upload_accepted_stores_file "b@y.org" (Some (New.Upload "copy.MP4" Sample.ten_A))
           "id2" New.Saved Sample.stored).
  vm_compute. reflexivity.
Defined.

(** ** Start requests *)

Lemma required_fields_present (data : gmap string value) (fields : list string) :
  forallb (λ f, default false (New.has_field (Object data) f)) fields = true
  ↔ ∀ k, k ∈ fields → is_Some (data !! k).
Proof.
  induction fields as [|f fields IH]; cbn [forallb].
  - split; [intros _ k Hk; by apply elem_of_nil in Hk | done].
  - cbn [New.has_field default from_option id].
    rewrite andb_true_iff, IH, bool_decide_eq_true. split.
    + intros [Hf Hrest] k [->|Hk]%elem_of_cons; auto.
    + intros H. split; [apply H; by left | intros k Hk; apply H; by right].
Qed.

(** No stored name contains the id: the list comprehension is empty. *)
Lemma no_video_files (vid : string) (s : state) :
  (∀ name, is_Some (files s !! path_join UPLOAD_FOLDER name) → str_in vid name = false) →
  filter (λ f, str_in vid f = true) (listdir UPLOAD_FOLDER (files s)) = [].
Proof.
  intros Hnames. destruct (filter _ _) as [|f rest] eqn:Hfilter; [done|].
  assert (f ∈ filter (λ f, str_in vid f = true) (listdir UPLOAD_FOLDER (files s))) as Hf
    by (rewrite Hfilter; by left).
  apply list_elem_of_filter in Hf as [Hin Hdir]. apply elem_of_listdir in Hdir.
  rewrite (Hnames f Hdir) in Hin. done.
Qed.

(** A stored name contains the id: the list comprehension has a first
    element, which is such a name. *)
Lemma some_video_file (vid name : string) (s : state) :
  is_Some (files s !! path_join UPLOAD_FOLDER name) → str_in vid name = true →
  ∃ f rest,
    filter (λ f, str_in vid f = true) (listdir UPLOAD_FOLDER (files s)) = f :: rest
    ∧ str_in vid f = true
    ∧ is_Some (files s !! path_join UPLOAD_FOLDER f).
Proof.
  intros Hfile Hvid.
  assert (name ∈ filter (λ f, str_in vid f = true) (listdir UPLOAD_FOLDER (files s)))
    as Hname.
  { apply list_elem_of_filter. split; [done | by apply elem_of_listdir]. }
  destruct (filter _ _) as [|f rest] eqn:Hfilter; [by apply elem_of_nil in Hname|].
  exists f, rest. split; [done|].
  assert (f ∈ filter (λ f, str_in vid f = true) (listdir UPLOAD_FOLDER (files s))) as Hf
    by (rewrite Hfilter; by left).
  apply list_elem_of_filter in Hf as [Hin Hdir]. split; [done | by apply elem_of_listdir].
Qed.

(** X4.  [start_stream] starts a thread only together with the answer 200
    ['Stream starting'], only when the body of the request is a JSON
    object that has all four fields, and only for a file that is stored
    under [uploads] and whose name contains the id; the thread is at its
    first statement, with the id of the request. *)
Theorem start_stream_thread_facts (vid : string) (b : request_body) (s : state)
    (t : ff_task) :
  snd (New.start_stream vid b s) = Some t →
  fst (New.start_stream vid b s)
  = Json (JObj [("message", JStr "Stream starting"); ("videoId", JStr vid)]) 200
  ∧ (∃ data, b = Object data ∧ ∀ k, k ∈ New.required_fields → is_Some (data !! k))
  ∧ video_id (ff_arg t) = vid ∧ ff_at t = Enter ∧ ff_process t = None
  ∧ ∃ name, video_path (ff_arg t) = path_join UPLOAD_FOLDER name
            ∧ str_in vid name = true
            ∧ is_Some (files s !! video_path (ff_arg t)).
Proof.
  unfold New.start_stream. destruct b as [code| |contains|data]; try done.
  { destruct (negb _); [done|]. by destruct (filter _ _). }
  destruct (forallb _ New.required_fields) eqn:Hfields; cbn [negb]; [|done].
  pose proof (proj1 (required_fields_present data New.required_fields) Hfields) as Hall.
  destruct (filter _ _) as [|f rest] eqn:Hfilter; [done|].
  cbn [fst snd]. intros [= <-]. cbn.
  assert (f ∈ filter (λ f, str_in vid f = true) (listdir UPLOAD_FOLDER (files s))) as Hf
    by (rewrite Hfilter; by left).
  apply list_elem_of_filter in Hf as [Hin Hdir]. apply elem_of_listdir in Hdir.
  split_and!; try done; [by exists data | by exists f].
Qed.

Lemma start_stream_thread_facts_witness :
  ∃ name, video_path (FFArgs Sample.path_a "key" "1" "id1" "task" "youtube")
          = path_join UPLOAD_FOLDER name
          ∧ str_in "id1" name = true
          ∧ is_Some (files Sample.stored
                       !! video_path (FFArgs Sample.path_a "key" "1" "id1" "task" "youtube")).
Proof.
  apply (start_stream_thread_facts "id1" (Sample.request_data "youtube") Sample.stored
           (FFTask (FFArgs Sample.path_a "key" "1" "id1" "task" "youtube") Enter None)).
  vm_compute. reflexivity.
Defined.

(** X5.  The refusals of [start_stream]; none of them starts a thread.
    When [request.get_json()] aborts, the answer is its error page.  A
    body that is [null], a number or a boolean makes [field in data]
    raise: 500.  A JSON object that lacks one of the four fields is
    answered 400, whatever is stored; one that has them while the id
    occurs in no stored name is answered 404.  For a JSON string or array
    the test [field in data] is the substring or element test: 400 when
    it fails for one of the four names, 404 when it holds for all and no
    stored name contains the id, and 500 otherwise, because [data[...]]
    raises. *)
Theorem start_stream_refusals (vid : string) (s : state) :
  (∀ code, New.start_stream vid (Aborts code) s = (HttpError code, None))
  ∧ New.start_stream vid Scalar s = (ServerError, None)
  ∧ (∀ data k, k ∈ New.required_fields → data !! k = None →
        New.start_stream vid (Object data) s
        = (Json (JObj [("error", JStr "Missing required fields")]) 400, None))
  ∧ (∀ data,
       (∀ k, k ∈ New.required_fields → is_Some (data !! k)) →
       (∀ name, is_Some (files s !! path_join UPLOAD_FOLDER name) → str_in vid name = false) →
       New.start_stream vid (Object data) s
       = (Json (JObj [("error", JStr "Video file not found")]) 404, None))
  ∧ (∀ contains k, k ∈ New.required_fields → contains k = false →
        New.start_stream vid (Sequence contains) s
        = (Json (JObj [("error", JStr "Missing required fields")]) 400, None))
  ∧ (∀ contains,
       (∀ k, k ∈ New.required_fields → contains k = true) →
       New.start_stream vid (Sequence contains) s
       = (if bool_decide
               (filter (λ f, str_in vid f = true) (listdir UPLOAD_FOLDER (files s)) = [])
          then Json (JObj [("error", JStr "Video file not found")]) 404
          else ServerError,
          None)).
Proof.
  split_and!; try done.
  - intros data k Hk Hnone. unfold New.start_stream.
    destruct (forallb _ New.required_fields) eqn:Hfields; [|done].
    destruct (proj1 (required_fields_present data New.required_fields) Hfields k Hk)
      as [v Hv]. congruence.
  - intros data Hfields Hnames. unfold New.start_stream.
    rewrite (proj2 (required_fields_present data New.required_fields) Hfields).
    cbn [negb]. by rewrite no_video_files.
  - intros contains k Hk Hnone. unfold New.start_stream.
    destruct (forallb _ New.required_fields) eqn:Hfields; [|done].
    rewrite forallb_forall in Hfields. cbn in Hfields.
    apply (proj1 (list_elem_of_In _ _)) in Hk. rewrite (Hfields k Hk) in Hnone. done.
  - intros contains Hall. unfold New.start_stream.
    assert (forallb (λ f, default false (New.has_field (Sequence contains) f))
              New.required_fields = true) as ->.
    { apply forallb_forall. intros k Hk. cbn. apply Hall.
      by apply (proj2 (list_elem_of_In _ _)). }
    cbn [negb]. by destruct (filter _ _).
Qed.

Lemma start_stream_refusals_witness :
  New.start_stream "id1" (Object (delete "loops" (Sample.request_fields "youtube")))
    Sample.stored
  = (Json (JObj [("error", JStr "Missing required fields")]) 400, None)
  ∧ New.start_stream "id1" (Sample.request_data "youtube") Sample.empty_state
    = (Json (JObj [("error", JStr "Video file not found")]) 404, None)
  ∧ New.start_stream "id1" (Sequence (λ f, str_in f "streamKey loops taskId platform"))
      Sample.stored
    = (ServerError, None).
Proof.
  destruct (start_stream_refusals "id1" Sample.stored) as (_ & _ & Hmissing & _ & _ & Htext).
  destruct (start_stream_refusals "id1" Sample.empty_state) as (_ & _ & _ & Hnofile & _).
  split_and!.
  - apply (Hmissing (delete "loops" (Sample.request_fields "youtube")) "loops");
      [unfold New.required_fields; rewrite !elem_of_cons; tauto | vm_compute; reflexivity].
  - apply (Hnofile (Sample.request_fields "youtube")).
    + intros k Hk.
      unfold New.required_fields in Hk. rewrite !elem_of_cons, elem_of_nil in Hk.
      destruct Hk as [->|[->|[->|[->|[]]]]]; vm_compute; eauto.
    + intros name [bytes Hbytes]. vm_compute in Hbytes. discriminate.
  - rewrite (Htext (λ f, str_in f "streamKey loops taskId platform")).
    + vm_compute. reflexivity.
    + intros k Hk.
      unfold New.required_fields in Hk. rewrite !elem_of_cons, elem_of_nil in Hk.
      destruct Hk as [->|[->|[->|[->|[]]]]]; vm_compute; reflexivity.
Defined.

Section UploadThenStart.
Variable sha256 : list Byte.byte → string.

(** X6.  An upload is answered 200 and a start request for its id has
    the four fields.  Right after the answer the start request is
    answered 200 and its thread is started on the stored file.  Once the
    [post_process] thread of the upload has run, with no other thread in
    between, this is still so when the content was new; when the content was a duplicate the thread has
    removed the file, and the start request is answered 404, provided the
    id occurs in no name that was stored before the upload. *)
Theorem upload_then_start (email : string) (video : option New.upload)
    (uuid4 : string) (io : New.save_outcome) (s : state) (data : gmap string value) :
  status_code (fst (fst (New.upload_video email video uuid4 io s))) = 200 →
  (∀ k, k ∈ New.required_fields → is_Some (data !! k)) →
  ∃ file pt,
    video = Some file
    ∧ snd (New.upload_video email video uuid4 io s) = Some pt
    ∧ (∃ t,
         New.start_stream uuid4 (Object data)
           (snd (fst (New.upload_video email video uuid4 io s)))
         = (Json (JObj [("message", JStr "Stream starting"); ("videoId", JStr uuid4)]) 200,
            Some t)
         ∧ is_Some (files (snd (fst (New.upload_video email video uuid4 io s)))
                      !! video_path (ff_arg t)))
    ∧ (video_hashes s !! sha256 (New.stream_bytes file) = None →
       ∃ t,
         New.start_stream uuid4 (Object data)
           (New.post_process sha256 (pp_video_id pt) (pp_save_path pt)
              (snd (fst (New.upload_video email video uuid4 io s))))
         = (Json (JObj [("message", JStr "Stream starting"); ("videoId", JStr uuid4)]) 200,
            Some t))
    ∧ (is_Some (video_hashes s !! sha256 (New.stream_bytes file)) →
       (∀ name, is_Some (files s !! path_join UPLOAD_FOLDER name) →
                str_in uuid4 name = false) →
       New.start_stream uuid4 (Object data)
         (New.post_process sha256 (pp_video_id pt) (pp_save_path pt)
            (snd (fst (New.upload_video email video uuid4 io s))))
       = (Json (JObj [("error", JStr "Video file not found")]) 404, None)).
Proof.
  intros Hok Hfields.
  destruct (upload_video_accepted email video uuid4 io s Hok)
    as (file & ext & -> & Hext & ->).
  cbn [fst snd pp_video_id pp_save_path].
  set (name := email +:+ "_" +:+ uuid4 +:+ "." +:+ ext).
  set (s' := State _ _ _ _ _).
  assert (str_in uuid4 name = true) as Hname.
  { unfold name. rewrite <- str_app_assoc. apply str_in_app. }
  assert (files s' !! path_join UPLOAD_FOLDER name = Some (New.stream_bytes file)) as Hstored.
  { cbn. apply lookup_insert_eq. }
  exists file, (PPTask uuid4 (path_join UPLOAD_FOLDER name) PPHash).
  cbn [pp_video_id pp_save_path]. split_and!; [done | done | | |].
  - destruct (some_video_file uuid4 name s') as (f & rest & Hfilter & _ & Hf); [by eauto ..|].
    rewrite (start_stream_accepted s' uuid4 data f rest Hfields Hfilter). eauto.
  - intros Hnew. unfold New.post_process.
    rewrite (post_process_run_fresh sha256 s' uuid4 _ _ Hstored Hnew). cbn [fst].
    match goal with |- context [New.start_stream _ _ ?st] => set (s2 := st) end.
    destruct (some_video_file uuid4 name s2) as (f & rest & Hfilter & _ & Hf);
      [cbn; by eauto | done |].
    rewrite (start_stream_accepted s2 uuid4 data f rest Hfields Hfilter). eauto.
  - intros [earlier Hdup] Hfresh. unfold New.post_process.
    rewrite (post_process_run_duplicate sha256 s' uuid4 _ _ earlier Hstored Hdup). cbn [fst].
    unfold New.start_stream.
    rewrite (proj2 (required_fields_present data New.required_fields) Hfields).
    cbn [negb]. rewrite no_video_files; [done|].
    intros other [bytes Hother]. cbn in Hother.
    destruct (decide (path_join UPLOAD_FOLDER other = path_join UPLOAD_FOLDER name))
      as [Heq|Hne].
    + rewrite Heq, lookup_delete_eq in Hother. done.
    + rewrite lookup_delete_ne, lookup_insert_ne in Hother by done. eauto.
Qed.
End UploadThenStart.

Lemma upload_then_start_witness :
  New.start_stream "id2" (Sample.request_data "twitter")
    (New.post_process Sample.digest "id2" Sample.path_b
       (snd (fst (New.upload_video "b@y.org" (Some (New.Upload "copy.MP4" Sample.ten_A))
                    "id2" New.Saved Sample.stored))))
  = (Json (JObj [("error", JStr "Video file not found")]) 404, None).
Proof.
  destruct (upload_then_start Sample.digest "b@y.org"
              (Some (New.Upload "copy.MP4" Sample.ten_A)) "id2" New.Saved Sample.stored
              (Sample.request_fields "twitter"))
    as (file & pt & [= <-] & [= <-] & _ & _ & Hdup).
  - vm_compute. reflexivity.
  - intros k Hk.
    unfold New.required_fields in Hk. rewrite !elem_of_cons, elem_of_nil in Hk.
    destruct Hk as [->|[->|[->|[->|[]]]]]; vm_compute; eauto.
  - apply Hdup.
    + vm_compute. eauto.
    + intros name Hname. apply (proj2 (elem_of_listdir _ _ _)) in Hname.
      assert (listdir UPLOAD_FOLDER (files Sample.stored) = ["a@x.org_id1.mp4"]) as Hdir
        by (vm_compute; reflexivity).
      rewrite Hdir in Hname. apply list_elem_of_singleton in Hname as ->.
      vm_compute. reflexivity.
Defined.

(** ** The de-duplication index *)

(** X7.  The loop [for file_hash, vid in list(video_hashes.items())] with
    its [del] removes exactly the entries whose value is the id and keeps
    every other entry; running it again changes nothing. *)
Theorem forget_video_filter (vid : string) (h : gmap string string) :
  forget_video vid h = filter (λ kv, snd kv ≠ vid) h
  ∧ forget_video vid (forget_video vid h) = forget_video vid h.
Proof.
  assert (∀ m : gmap string string, forget_video vid m = filter (λ kv, snd kv ≠ vid) m) as Heq.
  { intros m. apply map_eq. intros k. rewrite forget_video_lookup.
    destruct (m !! k) as [v|] eqn:Hk.
    - case_bool_decide as Hv.
      + symmetry. apply map_lookup_filter_None. right. intros x Hx. cbn. congruence.
      + apply eq_sym, map_lookup_filter_Some. split; [done|]. cbn. congruence.
    - rewrite bool_decide_eq_false_2 by done.
      symmetry. apply map_lookup_filter_None. by left. }
  split; [apply Heq|].
  apply map_eq. intros k. rewrite !forget_video_lookup.
  repeat case_bool_decide; congruence.
Qed.

(** X8.  [delete_if_not_streamed] is idempotent, and it never touches
    [active_streams], the processes, the timers or any file but the one
    it was given. *)
Theorem delete_if_not_streamed_idempotent (vid path : string) (s : state) :
  delete_if_not_streamed vid path (delete_if_not_streamed vid path s)
  = delete_if_not_streamed vid path s
  ∧ active_streams (delete_if_not_streamed vid path s) = active_streams s
  ∧ procs (delete_if_not_streamed vid path s) = procs s
  ∧ timers (delete_if_not_streamed vid path s) = timers s
  ∧ delete path (files (delete_if_not_streamed vid path s)) = delete path (files s).
Proof.
  destruct (active_streams s !! vid) as [st|] eqn:Hst.
  - assert (delete_if_not_streamed vid path s = s) as Heq
      by (unfold delete_if_not_streamed; by rewrite Hst).
    by rewrite !Heq.
  - destruct (path_exists path (files s)) eqn:Hex.
    + assert (delete_if_not_streamed vid path s
              = set_video_hashes (forget_video vid (video_hashes s))
                  (set_files (delete path (files s)) s)) as Heq.
      { unfold delete_if_not_streamed, os_remove. by rewrite Hst, Hex. }
      rewrite !Heq. cbn. split_and!; try done; [|apply delete_delete_eq].
      unfold delete_if_not_streamed. cbn. rewrite Hst.
      unfold path_exists. rewrite bool_decide_eq_false_2; [done|].
      rewrite lookup_delete_eq. by intros [? ?].
    + assert (delete_if_not_streamed vid path s = s) as Heq
        by (unfold delete_if_not_streamed; by rewrite Hst, Hex).
      by rewrite !Heq.
Qed.

Section DedupMore.
Variable sha256 : list Byte.byte → string.
Variable e : env.

(** X9.  When the written file is no longer there as [post_process]
    starts, hashing raises and the task ends at once: no file, hash entry
    or timer is touched. *)
Theorem post_process_missing_file (vid save_path : string) (s : state) :
  files s !! save_path = None →
  New.post_process_run sha256 vid save_path s = (s, PPTask vid save_path PPDone).
Proof.
  intros Hfile. unfold New.post_process_run. rewrite pp_iter_start.
  assert (New.post_process_step sha256 (PPTask vid save_path PPHash) s
          = (s, PPTask vid save_path PPDone)) as ->.
  { unfold New.post_process_step, compute_file_hash. cbn. by rewrite Hfile. }
  reflexivity.
Qed.

(** X10.  No step of a [post_process] task touches a file other than its
    own, removes a key of [video_hashes], cancels a timer, or changes
    [active_streams] or the processes. *)
Theorem post_process_step_confined (t : pp_task) (s : state) :
  delete (pp_save_path t) (files (fst (New.post_process_step sha256 t s)))
  = delete (pp_save_path t) (files s)
  ∧ dom (video_hashes s) ⊆ dom (video_hashes (fst (New.post_process_step sha256 t s)))
  ∧ (∃ started, timers (fst (New.post_process_step sha256 t s)) = (timers s ++ started)%list)
  ∧ active_streams (fst (New.post_process_step sha256 t s)) = active_streams s
  ∧ procs (fst (New.post_process_step sha256 t s)) = procs s
  ∧ pp_video_id (snd (New.post_process_step sha256 t s)) = pp_video_id t
  ∧ pp_save_path (snd (New.post_process_step sha256 t s)) = pp_save_path t.
Proof.
  assert (∀ l : list timer, ∃ started, l = (l ++ started)%list) as Hnone
    by (intros l; exists []; by rewrite app_nil_r).
  unfold New.post_process_step. destruct (pp_at t) as [|h| |h| |]; cbn.
  - destruct (compute_file_hash _ _ _); cbn; by split_and!.
  - destruct (video_hashes s !! h); cbn; by split_and!.
  - unfold os_remove. destruct (path_exists _ _); cbn; split_and!; try done.
    apply delete_delete_eq.
  - split_and!; try done. rewrite dom_insert. set_solver.
  - split_and!; try done. by eexists.
  - by split_and!.
Qed.

(** X11.  Two [post_process] tasks on files of the same content, whose
    hash is not yet in [video_hashes], run under any schedule whatever.
    Once both have ended, [video_hashes] holds the hash and names one of
    the two assets, and the file of the asset it names is still there. *)
Theorem identical_uploads_index_names_survivor (content : list Byte.byte)
    (v1 p1 v2 p2 : string) (s s' : state) (sched : list nat) :
  p1 ≠ p2 →
  files s !! p1 = Some content →
  files s !! p2 = Some content →
  video_hashes s !! sha256 content = None →
  Server.exec sha256 (runs e sched) (Server.Config s (pp_pair v1 p1 PPHash v2 p2 PPHash))
  = Server.Config s' (pp_pair v1 p1 PPDone v2 p2 PPDone) →
  ∃ v, video_hashes s' !! sha256 content = Some v
       ∧ ((v = v1 ∧ files s' !! p1 = Some content) ∨ (v = v2 ∧ files s' !! p2 = Some content)).
Proof.
  intros Hne Hf1 Hf2 Hidx Hexec.
  destruct (dedup_inv_exec sha256 e content v1 p1 v2 p2 sched s PPHash PPHash Hne
              (dedup_inv_init sha256 content v1 p1 v2 p2 s Hf1 Hf2 Hidx))
    as (s1 & q1 & q2 & Hexec' & (H1 & H2 & H3 & H4)).
  rewrite Hexec in Hexec'. injection Hexec' as <- <- <-.
  unfold task_inv, inserted in *.
  destruct H4 as [v Hv]; [naive_solver|].
  exists v. split; [done|]. destruct (H3 v Hv); naive_solver.
Qed.
End DedupMore.

Lemma post_process_missing_file_witness :
  New.post_process_run Sample.digest "id7" "uploads/gone.mp4" Sample.stored
  = (Sample.stored, PPTask "id7" "uploads/gone.mp4" PPDone).
Proof.
  apply (post_process_missing_file Sample.digest "id7" "uploads/gone.mp4" Sample.stored).
  vm_compute. reflexivity.
Defined.

Lemma identical_uploads_index_names_survivor_witness :
  ∃ v, video_hashes
         (Server.shared
            (Server.exec Sample.digest (runs Sample.child_ok [0; 1; 0; 1; 0; 1; 0; 1])
               (Server.Config Sample.both_written
                  (pp_pair "id1" Sample.path_a PPHash "id2" Sample.path_b PPHash))))
       !! Sample.digest Sample.ten_A = Some v
       ∧ ((v = "id1"
           ∧ files (Server.shared
                      (Server.exec Sample.digest (runs Sample.child_ok [0; 1; 0; 1; 0; 1; 0; 1])
                         (Server.Config Sample.both_written
                            (pp_pair "id1" Sample.path_a PPHash "id2" Sample.path_b PPHash))))
              !! Sample.path_a = Some Sample.ten_A)
          ∨ (v = "id2"
             ∧ files (Server.shared
                        (Server.exec Sample.digest
                           (runs Sample.child_ok [0; 1; 0; 1; 0; 1; 0; 1])
                           (Server.Config Sample.both_written
                              (pp_pair "id1" Sample.path_a PPHash "id2" Sample.path_b PPHash))))
                !! Sample.path_b = Some Sample.ten_A)).
Proof.
  apply (identical_uploads_index_names_survivor Sample.digest Sample.child_ok Sample.ten_A
           "id1" Sample.path_a "id2" Sample.path_b Sample.both_written _
           [0; 1; 0; 1; 0; 1; 0; 1]);
    [discriminate | vm_compute; reflexivity ..].
Defined.

(** ** Child processes and the status endpoint *)

Lemma proc_kept_refl (p : proc) : proc_kept p p.
Proof. by split_and!. Qed.

Lemma proc_kept_trans (p q r : proc) : proc_kept p q → proc_kept q r → proc_kept p r.
Proof.
  intros (? & ? & Hpq) (? & ? & Hqr). split_and!; [congruence | congruence | auto].
Qed.

Lemma set_returncode_kept (rc : Z) (p : proc) : proc_kept p (set_returncode rc p).
Proof.
  unfold set_returncode. destruct (returncode p) eqn:Hrc; [apply proc_kept_refl|].
  split_and!; [done | done |]. intros rc'. by rewrite Hrc.
Qed.

Lemma alter_kept (f : proc → proc) (pid : nat) (ps : list proc) :
  (∀ p, proc_kept p (f p)) → Forall2 proc_kept ps (alter f pid ps).
Proof.
  intros Hf. revert pid. induction ps as [|p ps IH]; intros pid; [constructor|].
  destruct pid as [|pid]; cbn.
  - constructor; [apply Hf|]. apply Forall2_same_length_lookup_2; [done|].
    intros i x y Hx Hy. rewrite Hx in Hy. injection Hy as <-. apply proc_kept_refl.
  - constructor; [apply proc_kept_refl | apply IH].
Qed.

Lemma cleanup_process_kept (p : option nat) (ps : list proc) :
  Forall2 proc_kept ps (cleanup_process p ps).
Proof.
  assert (Forall2 proc_kept ps ps) as Hrefl.
  { apply Forall2_same_length_lookup_2; [done|].
    intros i x y Hx Hy. rewrite Hx in Hy. injection Hy as <-. apply proc_kept_refl. }
  destruct p as [pid|]; [|done].
  rewrite cleanup_process_never_kills. destruct (running pid ps); [|done].
  apply alter_kept. intros q. destruct (heeds_term q); [apply set_returncode_kept|].
  apply proc_kept_refl.
Qed.

(** X12.  [cleanup_process] is idempotent; it keeps the length of the
    process table, the command of every process and the return code of
    every process that had already exited; and it never reaches
    [process.kill()]: what it does to a running child is [terminate()]
    alone. *)
Theorem cleanup_process_idempotent (pid : nat) (ps : list proc) :
  cleanup_process (Some pid) (cleanup_process (Some pid) ps) = cleanup_process (Some pid) ps
  ∧ Forall2 proc_kept ps (cleanup_process (Some pid) ps)
  ∧ cleanup_process (Some pid) ps = (if running pid ps then terminate pid ps else ps).
Proof.
  split_and!; [|apply cleanup_process_kept | apply cleanup_process_never_kills].
  rewrite !cleanup_process_never_kills.
  destruct (running pid ps) eqn:Hrun; [|by rewrite Hrun].
  destruct (running pid (terminate pid ps)) eqn:Hrun'; [|done].
  unfold terminate. apply list_eq. intros i.
  destruct (decide (i = pid)) as [->|Hne]; [|by rewrite !list_lookup_alter_ne].
  rewrite !list_lookup_alter_eq. destruct (ps !! pid) as [p|]; [|done]. cbn. f_equal.
  destruct p as [c heeds rc]. unfold set_returncode.
  destruct heeds, rc; reflexivity.
Qed.

(** X13.  While the child of a session is still running, the status
    request for it does not answer 200: the entry holds the [Popen] object,
    [jsonify] raises, and the state stays as it was. *)
Theorem status_of_running_session_fails (vid : string) (s : state) (st : stream) (pid : nat) :
  active_streams s !! vid = Some st →
  process st = Some pid →
  running pid (procs s) = true →
  fst (Main.get_stream_status vid s) = ServerError
  ∧ active_streams (snd (Main.get_stream_status vid s)) = active_streams s
  ∧ procs (snd (Main.get_stream_status vid s)) = procs s.
Proof.
  intros Hst Hproc Hrun. unfold Main.get_stream_status, Main.jsonify_stream.
  rewrite Hst, Hproc, Hrun, Hproc. cbn. split_and!; [done | by apply insert_id | done].
Qed.

Lemma status_of_running_session_fails_witness :
  fst (Main.get_stream_status "id1" (Server.shared (Sample.started Sample.child_ok)))
  = ServerError.
Proof.
  apply (status_of_running_session_fails "id1" (Server.shared (Sample.started Sample.child_ok))
           (Stream (Some 0) starting "task" "2025-01-01T00:00:00" None) 0);
    vm_compute; reflexivity.
Defined.

(** X14.  Once the child of a session has exited, the status request
    answers 200 with status ['completed'], whatever the status was, and
    drops the process from the entry; asking again gives the same answer
    and changes nothing more. *)
Theorem status_reconciles_exited_child (vid : string) (s : state) (st : stream) (pid : nat) :
  active_streams s !! vid = Some st →
  process st = Some pid →
  running pid (procs s) = false →
  reported_status (Some (fst (Main.get_stream_status vid s))) = Some (JStr "completed")
  ∧ active_streams (snd (Main.get_stream_status vid s)) !! vid
    = Some (Stream None completed (task_id st) (start_time st) (error_text st))
  ∧ Main.get_stream_status vid (snd (Main.get_stream_status vid s))
    = Main.get_stream_status vid s.
Proof.
  intros Hst Hproc Hrun.
  assert (Main.get_stream_status vid s
          = (Json (JObj ([("process", JNull); ("status", JStr "completed");
                          ("task_id", to_json (task_id st));
                          ("start_time", JStr (start_time st))]
                         ++ match error_text st with
                            | Some m => [("error", JStr m)]
                            | None => []
                            end)) 200,
             set_active_streams
               (<[vid := Stream None completed (task_id st) (start_time st) (error_text st)]>
                  (active_streams s)) s)) as Heq.
  { unfold Main.get_stream_status, Main.jsonify_stream. by rewrite Hst, Hproc, Hrun. }
  rewrite Heq. cbn [fst snd]. split_and!.
  - reflexivity.
  - cbn. apply lookup_insert_eq.
  - unfold Main.get_stream_status, Main.jsonify_stream. cbn.
    rewrite lookup_insert_eq. cbn. by rewrite insert_insert_eq.
Qed.

Lemma status_reconciles_exited_child_witness :
  reported_status
    (Some (fst (Main.get_stream_status "id1"
                  (Server.shared (Server.exec Sample.digest [Server.Exit 0 1]
                                    (Sample.started Sample.child_ok))))))
  = Some (JStr "completed").
Proof.
  apply (status_reconciles_exited_child "id1"
           (Server.shared (Server.exec Sample.digest [Server.Exit 0 1]
                             (Sample.started Sample.child_ok)))
           (Stream (Some 0) starting "task" "2025-01-01T00:00:00" None) 0);
    vm_compute; reflexivity.
Defined.

(** ** The life of a [run_ffmpeg_stream] thread *)

(** The step of a thread that leaves the [time.sleep(2)] of the [finally]
    block, when [os.remove] does not raise *)
Lemma fin_sleep_step (e : env) (a : ff_args) (child : option nat) (s : state) :
  remove_raises e = false →
  files (fst (New.run_ffmpeg_stream_step e (FFTask a FinSleep child) s)) !! video_path a = None
  ∧ delete (video_path a) (files (fst (New.run_ffmpeg_stream_step e (FFTask a FinSleep child) s)))
    = delete (video_path a) (files s)
  ∧ video_hashes (fst (New.run_ffmpeg_stream_step e (FFTask a FinSleep child) s))
    = (if path_exists (video_path a) (files s)
       then forget_video (video_id a) (video_hashes s) else video_hashes s)
  ∧ timers (fst (New.run_ffmpeg_stream_step e (FFTask a FinSleep child) s))
    = (timers s ++ [Timer 300 (PopStream (video_id a))])%list
  ∧ active_streams (fst (New.run_ffmpeg_stream_step e (FFTask a FinSleep child) s))
    = active_streams s
  ∧ procs (fst (New.run_ffmpeg_stream_step e (FFTask a FinSleep child) s)) = procs s
  ∧ snd (New.run_ffmpeg_stream_step e (FFTask a FinSleep child) s) = FFTask a Done child.
Proof.
  intros Hremove. unfold New.run_ffmpeg_stream_step, remove_attempt, finish.
  cbn [ff_at ff_arg ff_process fst snd]. rewrite Hremove.
  destruct (path_exists (video_path a) (files s)) eqn:Hex; cbn.
  - split_and!; try done; [apply lookup_delete_eq | apply delete_delete_eq].
  - split_and!; try done. unfold path_exists in Hex.
    apply bool_decide_eq_false_1 in Hex. by apply eq_None_not_Some.
Qed.

(** As long as [os.remove] raises, the retry loop changes nothing and
    counts its attempts. *)
Lemma run_alone_failures (a : ff_args) (child : option nat) (s : state) (es : list env) :
  is_Some (files s !! video_path a) →
  Forall (λ e, remove_raises e = true) es →
  (length es ≤ max_attempts)%nat →
  run_alone es (FFTask a FinSleep child) s
  = (s, FFTask a (after_failures (length es)) child).
Proof.
  intros Hfile. induction es as [|e es IH] using rev_ind; intros Hes Hlen; [done|].
  apply Forall_app in Hes as [Hes He]. apply (proj1 (Forall_singleton _ _)) in He.
  rewrite length_app in *. cbn [length] in *.
  unfold run_alone in *. rewrite foldl_app, IH by (done || lia). cbn [foldl fst snd].
  unfold New.run_ffmpeg_stream_step, remove_attempt. cbn [ff_at ff_arg ff_process].
  rewrite Nat.add_1_r.
  destruct (length es) as [|n] eqn:Hn; cbn [after_failures].
  - rewrite path_exists_true by done. by rewrite He.
  - rewrite decide_True by lia. rewrite path_exists_true by done. by rewrite He.
Qed.

(** X15.  The retry loop that ends every [run_ffmpeg_stream] thread, run
    with no other thread in between.  When the video file is not there,
    nothing is removed.  When it is there and [os.remove] works at one of
    the first five attempts, the file is gone, the hash entries of the
    video are removed and nothing else is touched.  When [os.remove] raises
    five times the loop gives up: the file and the hash entries stay.  In
    all three cases the thread ends by starting one timer of 300 seconds
    that drops the session. *)
Theorem retry_loop_outcomes (a : ff_args) (child : option nat) (s : state) (es : list env)
    (e : env) :
  Forall (λ e, remove_raises e = true) es →
  (files s !! video_path a = None →
   New.run_ffmpeg_stream_step e (FFTask a FinSleep child) s
   = (start_timer (Timer 300 (PopStream (video_id a))) s, FFTask a Done child))
  ∧ (is_Some (files s !! video_path a) → (length es < max_attempts)%nat →
     remove_raises e = false →
     run_alone (es ++ [e]) (FFTask a FinSleep child) s
     = (State (delete (video_path a) (files s)) (forget_video (video_id a) (video_hashes s))
              (active_streams s) (procs s)
              (timers s ++ [Timer 300 (PopStream (video_id a))]),
        FFTask a Done child))
  ∧ (is_Some (files s !! video_path a) → length es = max_attempts →
     run_alone (es ++ [e]) (FFTask a FinSleep child) s
     = (State (files s) (video_hashes s) (active_streams s) (procs s)
              (timers s ++ [Timer 300 (PopStream (video_id a))]),
        FFTask a Done child)).
Proof.
  intros Hes. split_and!.
  - intros Hnone. unfold New.run_ffmpeg_stream_step, remove_attempt, path_exists.
    cbn [ff_at ff_arg]. rewrite bool_decide_eq_false_2; [done|]. rewrite Hnone. by intros [? ?].
  - intros Hfile Hlen Hremove. unfold run_alone.
    rewrite foldl_app. fold (run_alone es (FFTask a FinSleep child) s).
    rewrite run_alone_failures by (done || lia). cbn [foldl fst snd].
    unfold New.run_ffmpeg_stream_step, remove_attempt. cbn [ff_at ff_arg ff_process].
    destruct (length es) as [|n] eqn:Hn; cbn [after_failures].
    + rewrite path_exists_true by done. by rewrite Hremove.
    + rewrite decide_True by lia. rewrite path_exists_true by done. by rewrite Hremove.
  - intros Hfile Hlen. unfold run_alone.
    rewrite foldl_app. fold (run_alone es (FFTask a FinSleep child) s).
    rewrite run_alone_failures by (done || lia). cbn [foldl fst snd].
    unfold New.run_ffmpeg_stream_step. cbn [ff_at ff_arg ff_process].
    rewrite Hlen. cbn [after_failures max_attempts]. by rewrite decide_False by lia.
Qed.

Lemma retry_loop_outcomes_witness :
  (λ r, (files (fst r) !! Sample.path_a, video_hashes (fst r) !! Sample.digest Sample.ten_A,
         timers (fst r) !! 1, ff_at (snd r)))
    (run_alone
       (replicate 5 Sample.file_busy ++ [Sample.child_ok])
       (FFTask (FFArgs Sample.path_a "key" "1" "id1" "task" "youtube") FinSleep (Some 0))
       (Server.shared Sample.finished))
  = (Some Sample.ten_A, Some "id1", Some (Timer 300 (PopStream "id1")), Done).
Proof.
  destruct (retry_loop_outcomes (FFArgs Sample.path_a "key" "1" "id1" "task" "youtube")
              (Some 0) (Server.shared Sample.finished) (replicate 5 Sample.file_busy)
              Sample.child_ok) as (_ & _ & Hgiveup).
  - repeat constructor.
  - rewrite Hgiveup; [vm_compute; reflexivity | vm_compute; eauto | reflexivity].
Defined.

Lemma run_settle_live (e : env) (a : ff_args) (child : option nat) (s : state) (st : stream) :
  active_streams s !! video_id a = Some st →
  New.run_ffmpeg_stream_step e (FFTask a Settle child) s
  = (State (files s) (video_hashes s)
           (<[video_id a := Stream (process st) live (task_id st) (start_time st)
                                   (error_text st)]> (active_streams s))
           (procs s) (timers s),
     FFTask a Wait child).
Proof.
  intros Hst. unfold New.run_ffmpeg_stream_step, set_status. cbn [ff_at ff_arg ff_process].
  by rewrite Hst.
Qed.

Lemma run_wait_completed (e : env) (a : ff_args) (pid : nat) (s : state) (st : stream) :
  running pid (procs s) = false →
  active_streams s !! video_id a = Some st →
  New.run_ffmpeg_stream_step e (FFTask a Wait (Some pid)) s
  = (State (files s) (video_hashes s)
           (<[video_id a := Stream (process st) completed (task_id st) (start_time st)
                                   (error_text st)]> (active_streams s))
           (procs s) (timers s),
     FFTask a FinSleep (Some pid)).
Proof.
  intros Hrun Hst.
  unfold New.run_ffmpeg_stream_step, set_status, finally_begin, cleanup_process.
  cbn [ff_at ff_arg ff_process]. rewrite Hrun, Hst. cbn. by rewrite Hrun.
Qed.

Lemma run_wait_blocked (e : env) (a : ff_args) (pid : nat) (s : state) :
  running pid (procs s) = true →
  New.run_ffmpeg_stream_step e (FFTask a Wait (Some pid)) s = (s, FFTask a Wait (Some pid)).
Proof.
  intros Hrun. unfold New.run_ffmpeg_stream_step. cbn [ff_at ff_arg ff_process].
  by rewrite Hrun.
Qed.

Section Lifecycle.
Variable sha256 : list Byte.byte → string.

(** X16.  A stream on a platform of the table whose child starts, and
    exits by itself after the five-second sleep, with an [os.remove] that
    does not raise: the thread takes four steps and ends.  The entry then shows [completed] and still holds the
    child, the child has its return code, the video file is gone, and one
    300-second timer is pending; when that timer fires the entry is
    dropped.  While the child runs, the thread does not get past
    [process.wait()]. *)
Theorem stream_runs_to_completion (a : ff_args) (c clock : string) (heeds : bool) (rc : Z)
    (s : state) :
  New.base_cmd a = Some c →
  (λ c', Server.threads c' = [Server.FfmpegStream (FFTask a Done (Some (length (procs s))))]
         ∧ active_streams (Server.shared c') !! video_id a
           = Some (Stream (Some (length (procs s))) completed (ff_task_id a) clock None)
         ∧ procs (Server.shared c') = (procs s ++ [Proc c heeds (Some rc)])%list
         ∧ files (Server.shared c') !! video_path a = None
         ∧ timers (Server.shared c')
           = (timers s ++ [Timer 300 (PopStream (video_id a))])%list
         ∧ Server.status_of (video_id a)
             (fst (Server.step sha256 (Server.Fire (length (timers s))) c')) = None)
    (Server.exec sha256
       [Server.Run 0 (Env clock (inr heeds) false); Server.Run 0 (Env clock (inr heeds) false);
        Server.Exit (length (procs s)) rc;
        Server.Run 0 (Env clock (inr heeds) false); Server.Run 0 (Env clock (inr heeds) false)]
       (Server.Config s [Server.FfmpegStream (FFTask a Enter None)]))
  ∧ Server.exec sha256
      [Server.Run 0 (Env clock (inr heeds) false); Server.Run 0 (Env clock (inr heeds) false);
       Server.Run 0 (Env clock (inr heeds) false); Server.Run 0 (Env clock (inr heeds) false)]
      (Server.Config s [Server.FfmpegStream (FFTask a Enter None)])
    = Server.exec sha256
        [Server.Run 0 (Env clock (inr heeds) false); Server.Run 0 (Env clock (inr heeds) false)]
        (Server.Config s [Server.FfmpegStream (FFTask a Enter None)]).
Proof.
  intros Hc. set (e := Env clock (inr heeds) false). set (pid := length (procs s)).
  assert (Server.exec sha256 [Server.Run 0 e; Server.Run 0 e]
            (Server.Config s [Server.FfmpegStream (FFTask a Enter None)])
          = Server.Config
              (State (<[New.log_file a := []]> (files s)) (video_hashes s)
                     (<[video_id a := Stream (Some pid) live (ff_task_id a) clock None]>
                        (active_streams s))
                     (procs s ++ [Proc c heeds None]) (timers s))
              [Server.FfmpegStream (FFTask a Wait (Some pid))]) as Hlive.
  { subst e.
    cbn [Server.exec foldl Server.step fst Server.threads Server.shared lookup list_lookup
         Server.run_task snd].
    rewrite (run_enter_spawns clock heeds false a c s Hc).
    cbn [fst snd insert list_insert Server.threads Server.shared lookup list_lookup
         Server.run_task].
    erewrite run_settle_live by (cbn; apply lookup_insert_eq).
    cbn. by rewrite insert_insert_eq. }
  assert (running pid (procs s ++ [Proc c heeds None])%list = true) as Hrunning.
  { unfold running, poll, pid. by rewrite lookup_app_r, Nat.sub_diag by lia. }
  split.
  - change [Server.Run 0 e; Server.Run 0 e; Server.Exit pid rc; Server.Run 0 e; Server.Run 0 e]
      with ([Server.Run 0 e; Server.Run 0 e]
            ++ [Server.Exit pid rc; Server.Run 0 e; Server.Run 0 e])%list.
    unfold Server.exec in *. rewrite foldl_app, Hlive.
    cbn [foldl Server.step fst Server.threads Server.shared lookup list_lookup
         Server.run_task snd procs].
    assert (alter (set_returncode rc) pid (procs s ++ [Proc c heeds None])%list
            = (procs s ++ [Proc c heeds (Some rc)])%list) as ->.
    { unfold pid. rewrite <- (Nat.add_0_r (length (procs s))) at 1.
      by rewrite alter_app_r. }
    erewrite run_wait_completed.
    2: { cbn. unfold running, poll, pid. by rewrite lookup_app_r, Nat.sub_diag by lia. }
    2: { cbn. apply lookup_insert_eq. }
    cbn [fst snd insert list_insert Server.threads Server.shared lookup list_lookup
         Server.run_task set_procs set_files set_active_streams files video_hashes
         active_streams procs timers process task_id start_time error_text].
    match goal with
    | |- context [New.run_ffmpeg_stream_step e (FFTask a FinSleep ?ch) ?st] =>
        destruct (fin_sleep_step e a ch st eq_refl)
          as (Hfile & _ & _ & Htimers & Hactive & Hprocs & Htask);
        set (r := New.run_ffmpeg_stream_step e (FFTask a FinSleep ch) st) in *
    end.
    cbn [files video_hashes active_streams procs timers] in Htimers, Hactive, Hprocs.
    rewrite Htask.
    cbn [fst snd insert list_insert Server.threads Server.shared].
    split_and!.
    + done.
    + rewrite Hactive. apply lookup_insert_eq.
    + by rewrite Hprocs.
    + exact Hfile.
    + exact Htimers.
    + unfold Server.status_of. cbn [Server.step Server.shared fst].
      rewrite Htimers. rewrite lookup_app_r, Nat.sub_diag by lia.
      cbn. by rewrite lookup_delete_eq.
  - change [Server.Run 0 e; Server.Run 0 e; Server.Run 0 e; Server.Run 0 e]
      with ([Server.Run 0 e; Server.Run 0 e] ++ [Server.Run 0 e; Server.Run 0 e])%list.
    unfold Server.exec in *. rewrite foldl_app, Hlive.
    cbn [foldl Server.step fst Server.threads Server.shared lookup list_lookup
         Server.run_task snd].
    rewrite run_wait_blocked by exact Hrunning.
    cbn [fst snd insert list_insert Server.threads Server.shared lookup list_lookup
         Server.run_task].
    by rewrite run_wait_blocked by exact Hrunning.
Qed.
End Lifecycle.

(** ** The process table *)

Section Invariants.
Variable sha256 : list Byte.byte → string.

Lemma cleanup_process_length (p : option nat) (ps : list proc) :
  length (cleanup_process p ps) = length ps.
Proof. symmetry. apply (Forall2_length _ _ _ (cleanup_process_kept p ps)). Qed.

Lemma upload_video_procs (email : string) (video : option New.upload) (uuid4 : string)
    (io : New.save_outcome) (s : state) :
  procs (snd (fst (New.upload_video email video uuid4 io s))) = procs s.
Proof.
  unfold New.upload_video. destruct video as [file|]; [|done].
  case_bool_decide; [done|]. destruct (allowed_file _); [|done]. by destruct io.
Qed.

Lemma delete_if_not_streamed_procs (vid path : string) (s : state) :
  procs (delete_if_not_streamed vid path s) = procs s.
Proof.
  unfold delete_if_not_streamed. destruct (active_streams s !! vid); [done|].
  destruct (path_exists _ _); [|done]. by destruct (os_remove _ _).
Qed.

Lemma pp_step_procs (t : pp_task) (s : state) :
  procs (fst (New.post_process_step sha256 t s)) = procs s.
Proof.
  unfold New.post_process_step. destruct (pp_at t); cbn; try done.
  - by destruct (compute_file_hash sha256 (pp_save_path t) s).
  - by destruct (video_hashes s !! file_hash).
  - by destruct (os_remove (pp_save_path t) (files s)).
Qed.

End Invariants.

Section ProcessTable.
Variable sha256 : list Byte.byte → string.

Lemma procs_kept_refl (ps : list proc) : procs_kept ps ps.
Proof. intros pid p Hp. exists p. split; [done | apply proc_kept_refl]. Qed.

Lemma procs_kept_trans (ps qs rs : list proc) :
  procs_kept ps qs → procs_kept qs rs → procs_kept ps rs.
Proof.
  intros H1 H2 pid p Hp. destruct (H1 pid p Hp) as (q & Hq & Hpq).
  destruct (H2 pid q Hq) as (r & Hr & Hqr). exists r. split; [done|].
  by eapply proc_kept_trans.
Qed.

Lemma procs_kept_Forall2 (ps qs : list proc) : Forall2 proc_kept ps qs → procs_kept ps qs.
Proof.
  intros H pid p Hp. destruct (Forall2_lookup_l _ _ _ _ _ H Hp) as (q & Hq & Hpq). eauto.
Qed.

Lemma procs_kept_app (ps new : list proc) : procs_kept ps (ps ++ new).
Proof.
  intros pid p Hp. exists p. split; [|apply proc_kept_refl].
  by apply lookup_app_l_Some.
Qed.

Lemma procs_kept_eq (ps qs : list proc) : qs = ps → procs_kept ps qs.
Proof. intros ->. apply procs_kept_refl. Qed.

Lemma except_clause_procs (vid msg : string) (s : state) :
  procs (except_clause vid msg s) = procs s.
Proof. unfold except_clause. by destruct (active_streams s !! vid). Qed.

Lemma set_status_procs (vid : string) (new : stream_status) (s s1 : state) :
  set_status vid new s = Some s1 → procs s1 = procs s.
Proof.
  unfold set_status. destruct (active_streams s !! vid); [|done]. by intros [= <-].
Qed.

Lemma finally_begin_procs_kept (t : ff_task) (s : state) :
  procs_kept (procs s) (procs (fst (finally_begin t s))).
Proof. cbn. apply procs_kept_Forall2, cleanup_process_kept. Qed.

Lemma ff_step_procs_kept (e : env) (t : ff_task) (s : state) :
  procs_kept (procs s) (procs (fst (New.run_ffmpeg_stream_step e t s))).
Proof.
  destruct (ff_at t) eqn:Hat;
    try (destruct (retry_step_frame e t s) as (_ & -> & _);
         [rewrite Hat; by eauto | apply procs_kept_refl]);
    unfold New.run_ffmpeg_stream_step; rewrite Hat.
  - destruct (New.base_cmd (ff_arg t)); [|apply procs_kept_refl].
    destruct (popen e); cbn [fst].
    + rewrite except_clause_procs. apply procs_kept_refl.
    + cbn. apply procs_kept_app.
  - destruct (set_status _ _ _) eqn:Hset; cbn [fst].
    + apply procs_kept_eq. by eapply set_status_procs.
    + eapply procs_kept_trans; [|apply finally_begin_procs_kept].
      apply procs_kept_eq, except_clause_procs.
  - destruct (match ff_process t with Some pid => running pid (procs s) | None => false end);
      [apply procs_kept_refl|].
    destruct (set_status _ _ _) eqn:Hset.
    + eapply procs_kept_trans; [|apply finally_begin_procs_kept].
      apply procs_kept_eq. by eapply set_status_procs.
    + eapply procs_kept_trans; [|apply finally_begin_procs_kept].
      apply procs_kept_eq, except_clause_procs.
  - apply procs_kept_refl.
Qed.

Lemma step_procs_kept (l : Server.label) (c : Server.config) :
  procs_kept (procs (Server.shared c)) (procs (Server.shared (fst (Server.step sha256 l c)))).
Proof.
  destruct l as [email video uuid4 io|v d|v|v|j e|pid rc|j];
    cbn [Server.step fst Server.shared].
  - apply procs_kept_eq, upload_video_procs.
  - apply procs_kept_refl.
  - unfold Main.stop_stream.
    destruct (active_streams (Server.shared c) !! v) as [st|]; cbn [snd];
      [|apply procs_kept_refl].
    cbn [procs set_active_streams set_procs].
    destruct (process st); [|apply procs_kept_refl].
    apply procs_kept_Forall2, cleanup_process_kept.
  - unfold Main.get_stream_status.
    destruct (active_streams (Server.shared c) !! v); apply procs_kept_refl.
  - destruct (Server.threads c !! j) as [[pt|ft]|]; cbn [fst Server.shared Server.run_task].
    + apply procs_kept_eq, pp_step_procs.
    + apply ff_step_procs_kept.
    + apply procs_kept_refl.
  - cbn. apply procs_kept_Forall2, alter_kept, set_returncode_kept.
  - destruct (timers (Server.shared c) !! j) as [tm|]; cbn [fst Server.shared];
      [|apply procs_kept_refl].
    destruct (action tm) as [v path|v]; cbn [Server.fire].
    + apply procs_kept_eq. by rewrite delete_if_not_streamed_procs.
    + apply procs_kept_refl.
Qed.

Lemma exec_procs_kept (ls : list Server.label) (c : Server.config) :
  procs_kept (procs (Server.shared c)) (procs (Server.shared (Server.exec sha256 ls c))).
Proof.
  revert c. induction ls as [|l ls IH]; intros c; [apply procs_kept_refl|].
  cbn [Server.exec foldl]. eapply procs_kept_trans; [apply step_procs_kept | apply IH].
Qed.

(** X18.  A child process, once in the table, stays there under its
    number with its command, and once it has exited its return code is
    never overwritten: neither a later [terminate()], nor a stop request,
    nor a second report of its exit changes it. *)
Theorem exited_child_keeps_return_code (ls : list Server.label) (c : Server.config)
    (pid : nat) (p : proc) (rc : Z) :
  procs (Server.shared c) !! pid = Some p →
  returncode p = Some rc →
  ∃ q, procs (Server.shared (Server.exec sha256 ls c)) !! pid = Some q
       ∧ cmd q = cmd p ∧ returncode q = Some rc.
Proof.
  intros Hp Hrc. destruct (exec_procs_kept ls c pid p Hp) as (q & Hq & Hcmd & _ & Hcode).
  exists q. split_and!; [done | done | by apply Hcode].
Qed.

Lemma ff_step_entered (e : env) (t : ff_task) (s : state) :
  ff_at t ≠ Enter → ff_at (snd (New.run_ffmpeg_stream_step e t s)) ≠ Enter.
Proof.
  intros H.
  assert (ff_at t = FinSleep ∨ (∃ k, ff_at t = Retry k) →
          ff_at (snd (New.run_ffmpeg_stream_step e t s)) ≠ Enter) as Hretry.
  { intros Hat. destruct (retry_step_frame e t s Hat) as (_ & _ & _ & _ & [->|[k ->]]); done. }
  destruct (ff_at t) eqn:Hat; try done; try (apply Hretry; eauto; fail);
    unfold New.run_ffmpeg_stream_step, finally_begin; rewrite Hat; cbn.
  - by destruct (set_status _ _ _).
  - destruct (match ff_process t with Some pid => running pid (procs s) | None => false end).
    + cbn. by rewrite Hat.
    + by destruct (set_status _ _ _).
  - by rewrite Hat.
Qed.

(** A thread past its first statement never creates an entry. *)
Lemma ff_step_absent (e : env) (t : ff_task) (s : state) :
  ff_at t ≠ Enter →
  active_streams s !! video_id (ff_arg t) = None →
  active_streams (fst (New.run_ffmpeg_stream_step e t s)) !! video_id (ff_arg t) = None.
Proof.
  intros H Hnone.
  destruct (ff_at t) eqn:Hat; try done;
    try (destruct (retry_step_frame e t s) as (-> & _); [rewrite Hat; by eauto | done]);
    unfold New.run_ffmpeg_stream_step, finally_begin, set_status; rewrite Hat; try done.
  - rewrite Hnone. cbn. by rewrite except_clause_absent.
  - destruct (match ff_process t with Some pid => running pid (procs s) | None => false end);
      [done|].
    rewrite Hnone. cbn. by rewrite except_clause_absent.
Qed.

Lemma step_entered (vid : string) (l : Server.label) (c : Server.config) :
  entered vid c → no_start vid l → entered vid (fst (Server.step sha256 l c)).
Proof.
  intros Hs Hl i t Hi Hv. destruct l as [email video uuid4 io|v d|v|v|j e|pid rc|j];
    cbn [Server.step fst Server.threads] in Hi.
  - destruct (snd (New.upload_video email video uuid4 io (Server.shared c))) as [pt|];
      cbn [fmap option_fmap option_map Server.spawn] in Hi; [|by eapply Hs].
    apply lookup_app_Some in Hi as [Hi|[_ Hi]]; [by eapply Hs|].
    apply list_lookup_singleton_Some in Hi as [_ [=]].
  - destruct (snd (New.start_stream v d (Server.shared c))) as [ft|] eqn:Hstart;
      cbn [fmap option_fmap option_map Server.spawn] in Hi; [|by eapply Hs].
    apply lookup_app_Some in Hi as [Hi|[_ Hi]]; [by eapply Hs|].
    apply list_lookup_singleton_Some in Hi as [_ [= <-]].
    apply start_stream_task in Hstart. cbn in Hl. congruence.
  - by eapply Hs.
  - by eapply Hs.
  - destruct (Server.threads c !! j) as [t0|] eqn:Hj; cbn [fst Server.threads] in Hi;
      [|by eapply Hs].
    apply list_lookup_insert_Some in Hi as [(-> & Ht & _)|[_ Hi]]; [|by eapply Hs].
    destruct t0 as [pt|ft]; cbn in Ht; [done|]. injection Ht as <-.
    rewrite ff_step_arg in Hv. by apply ff_step_entered, (Hs _ _ Hj Hv).
  - by eapply Hs.
  - destruct (timers (Server.shared c) !! j); by eapply Hs.
Qed.

Lemma step_absent (vid : string) (l : Server.label) (c : Server.config) :
  entered vid c → no_start vid l →
  active_streams (Server.shared c) !! vid = None →
  active_streams (Server.shared (fst (Server.step sha256 l c))) !! vid = None.
Proof.
  intros Hs Hl Hc. destruct l as [email video uuid4 io|v d|v|v|j e|pid rc|j];
    cbn [Server.step fst Server.shared].
  - by rewrite upload_video_active.
  - done.
  - unfold Main.stop_stream. destruct (active_streams (Server.shared c) !! v) eqn:Hv;
      cbn; [|done].
    destruct (decide (v = vid)) as [->|Hne]; [by rewrite lookup_delete_eq|].
    by rewrite lookup_delete_ne, lookup_insert_ne.
  - unfold Main.get_stream_status.
    destruct (active_streams (Server.shared c) !! v) as [st|] eqn:Hv; cbn; [|done].
    destruct (decide (v = vid)) as [->|Hne]; [congruence|]. by rewrite lookup_insert_ne.
  - destruct (Server.threads c !! j) as [t0|] eqn:Hj; cbn [fst Server.shared]; [|done].
    destruct t0 as [pt|ft]; cbn [Server.run_task fst].
    + by rewrite pp_step_active.
    + destruct (decide (video_id (ff_arg ft) = vid)) as [<-|Hne].
      * apply ff_step_absent; [|done]. by apply (Hs _ _ Hj).
      * by rewrite ff_step_other.
  - done.
  - destruct (timers (Server.shared c) !! j) as [tm|]; cbn [fst Server.shared]; [|done].
    destruct (action tm) as [v path|v]; cbn [Server.fire].
    + by rewrite delete_if_not_streamed_active.
    + cbn. destruct (decide (v = vid)) as [->|Hne]; [by rewrite lookup_delete_eq|].
      by rewrite lookup_delete_ne.
Qed.

(** X19.  After a stop request for a video id, the session stays gone: as
    long as no start request for the id arrives and no thread of the id
    is still before its first statement, every later status request for
    the id is answered 404, whatever the threads, children and timers do
    in between. *)
Theorem stopped_session_stays_gone (vid : string) (ls : list Server.label)
    (c : Server.config) :
  entered vid c →
  Forall (no_start vid) ls →
  fst (Main.get_stream_status vid
         (Server.shared
            (Server.exec sha256 ls (fst (Server.step sha256 (Server.Stop vid) c)))))
  = Json (JObj [("error", JStr "Stream not found")]) 404.
Proof.
  intros Hs Hls.
  assert (∀ c', entered vid c' → active_streams (Server.shared c') !! vid = None →
                active_streams (Server.shared (Server.exec sha256 ls c')) !! vid = None)
    as Hgone.
  { induction Hls as [|l ls Hl _ IH]; intros c' Hs' Hc'; [done|].
    cbn [Server.exec foldl]. apply IH; [by apply step_entered | by apply step_absent]. }
  unfold Main.get_stream_status at 1. rewrite Hgone; [done | |].
  - by apply step_entered.
  - cbn [Server.step fst Server.shared]. unfold Main.stop_stream.
    destruct (active_streams (Server.shared c) !! vid) eqn:Hv; cbn; [|done].
    by rewrite lookup_delete_eq.
Qed.
End ProcessTable.

Lemma stream_runs_to_completion_witness :
  files
    (Server.shared
       (Server.exec Sample.digest
          [Server.Run 0 Sample.child_ok; Server.Run 0 Sample.child_ok; Server.Exit 0 0;
           Server.Run 0 Sample.child_ok; Server.Run 0 Sample.child_ok]
          (Server.Config Sample.stored
             [Server.FfmpegStream
                (FFTask (FFArgs Sample.path_a "key" "1" "id1" "task" "youtube") Enter None)])))
    !! Sample.path_a = None.
Proof.
  destruct (stream_runs_to_completion Sample.digest
              (FFArgs Sample.path_a "key" "1" "id1" "task" "youtube")
              (default EmptyString
                 (New.base_cmd (FFArgs Sample.path_a "key" "1" "id1" "task" "youtube")))
              "2025-01-01T00:00:00" true 0 Sample.stored)
    as [(_ & _ & _ & Hfile & _) _]; [vm_compute; reflexivity|].
  exact Hfile.
Defined.

Lemma exited_child_keeps_return_code_witness :
  ∃ q, procs (Server.shared
                (Server.exec Sample.digest [Server.Stop "id1"; Server.Exit 0 7]
                   Sample.finished)) !! 0
       = Some q
       ∧ cmd q = cmd (default (Proc EmptyString true None)
                        (procs (Server.shared Sample.finished) !! 0))
       ∧ returncode q = Some 0%Z.
Proof.
  apply (exited_child_keeps_return_code Sample.digest
           [Server.Stop "id1"; Server.Exit 0 7] Sample.finished 0
           (default (Proc EmptyString true None) (procs (Server.shared Sample.finished) !! 0))
           0%Z); vm_compute; reflexivity.
Defined.

Lemma stopped_session_stays_gone_witness :
  fst (Main.get_stream_status "id1"
         (Server.shared
            (Server.exec Sample.digest
               [Server.Run 0 Sample.child_ok; Server.Exit 0 0; Server.Run 0 Sample.child_ok;
                Server.Run 0 Sample.child_ok; Server.Fire 1]
               (fst (Server.step Sample.digest (Server.Stop "id1")
                       (Sample.started Sample.child_ok))))))
  = Json (JObj [("error", JStr "Stream not found")]) 404.
Proof.
  apply (stopped_session_stays_gone Sample.digest "id1").
  - intros i t Hi _. destruct i as [|i]; vm_compute in Hi; [|discriminate].
    injection Hi as <-. discriminate.
  - repeat constructor.
Defined.

(** ** The market-data handlers *)

Lemma upper_empty (s : string) : upper s = EmptyString ↔ s = EmptyString.
Proof. by destruct s. Qed.

Lemma fresh_within (d : json) (t0 t1 : Q) :
  (t1 - t0 < 30)%Q → fresh t1 (CacheEntry d t0) = true.
Proof.
  intros Hlt. unfold fresh. cbn [timestamp].
  destruct (Qlt_le_dec (t1 - t0) 30) as [_|Hle]; [done|].
  by apply Qle_not_lt in Hle.
Qed.

Lemma cached_insert (k : string) (d : json) (t0 t1 : Q) (cache : gmap string cache_entry) :
  (t1 - t0 < 30)%Q → cached k t1 (<[k := CacheEntry d t0]> cache) = Some d.
Proof.
  intros Hlt. unfold cached. by rewrite lookup_insert_eq, fresh_within.
Qed.

(** Whatever [new.py] accepts from the upstream, [Nse.py] accepts too. *)
Lemma new_fetch_ok_nse (u : upstream) (d : json) : New.fetch u = inr d → Nse.fetch u = inr d.
Proof.
  destruct u as [msg|st err body]; cbn; [done|]. by case_bool_decide.
Qed.

(** X20.  For symbols that are ASCII texts: a request to [/nse-index]
    that had to ask the upstream and got data stores it under the
    upper-cased symbol; a request for the same symbol in any letter case
    less than 30 seconds later is answered with that data, asks no URL
    and leaves the cache alone.  This holds for [new.py] and for
    [Nse.py]. *)
Theorem index_fetch_then_cached (sym1 sym2 : option string) (t0 t1 : Q)
    (net net' : string → upstream) (cache : gmap string cache_entry) (d : json) :
  is_ascii (default "NIFTY" sym1) = true →
  is_ascii (default "NIFTY" sym2) = true →
  upper (default "NIFTY" sym2) = upper (default "NIFTY" sym1) →
  cached (upper (default "NIFTY" sym1)) t0 cache = None →
  New.fetch (net (index_url (upper (default "NIFTY" sym1)))) = inr d →
  (t1 - t0 < 30)%Q →
  let key := upper (default "NIFTY" sym1) in
  let cache1 := <[key := CacheEntry d t0]> cache in
  New.nse_index sym1 t0 net cache = (Json d 200, cache1, [index_url key])
  ∧ New.nse_index sym2 t1 net' cache1 = (Json d 200, cache1, [])
  ∧ Nse.nse_index sym1 t0 net cache = (Json d 200, cache1, [index_url key])
  ∧ Nse.nse_index sym2 t1 net' cache1 = (Json d 200, cache1, []).
Proof.
  intros _ _ Hsym Hmiss Hfetch Hlt key cache1. subst key cache1.
  unfold New.nse_index, Nse.nse_index.
  rewrite Hsym, Hmiss, Hfetch, (new_fetch_ok_nse _ _ Hfetch), cached_insert by done.
  done.
Qed.

Lemma index_fetch_then_cached_witness :
  New.nse_index (Some "nifty") (120 # 1) (λ _, ConnError "down")
    (<["NIFTY" := CacheEntry JNull (100 # 1)]> ∅)
  = (Json JNull 200, <["NIFTY" := CacheEntry JNull (100 # 1)]> ∅, []).
Proof.
  destruct (index_fetch_then_cached None (Some "nifty") (100 # 1) (120 # 1)
              (λ _, Reply 200 "" (inr JNull)) (λ _, ConnError "down") ∅ JNull)
    as (_ & Hhit & _); [vm_compute; reflexivity ..|].
  exact Hhit.
Defined.

(** X21.  The two files differ on an upstream reply with a 4xx or 5xx
    status whose body is JSON: [new.py] calls [raise_for_status()],
    answers 500 with that error text and caches nothing; [Nse.py] has no
    such call, answers 200 with the body and caches it. *)
Theorem error_reply_cached_only_by_Nse (symbol : option string) (clock : Q)
    (net : string → upstream) (index_cache : gmap string cache_entry)
    (st : nat) (err : string) (d : json) :
  let key := upper (default "NIFTY" symbol) in
  cached key clock index_cache = None →
  net (index_url key) = Reply st err (inr d) →
  (400 ≤ st < 600)%nat →
  New.nse_index symbol clock net index_cache
  = (Json (JObj [("error", JStr err)]) 500, index_cache, [index_url key])
  ∧ Nse.nse_index symbol clock net index_cache
    = (Json d 200, <[key := CacheEntry d clock]> index_cache, [index_url key]).
Proof.
  intros key Hmiss Hnet Hst. subst key. unfold New.nse_index, Nse.nse_index.
  rewrite Hmiss, Hnet. cbn [New.fetch Nse.fetch]. by rewrite bool_decide_eq_true_2.
Qed.

Lemma error_reply_cached_only_by_Nse_witness :
  New.nse_index None (100 # 1) (λ _, Reply 503 "503 Server Error" (inr JNull)) ∅
  = (Json (JObj [("error", JStr "503 Server Error")]) 500, ∅, [index_url "NIFTY"])
  ∧ Nse.nse_index None (100 # 1) (λ _, Reply 503 "503 Server Error" (inr JNull)) ∅
    = (Json JNull 200, <["NIFTY" := CacheEntry JNull (100 # 1)]> ∅, [index_url "NIFTY"]).
Proof.
  apply (error_reply_cached_only_by_Nse None (100 # 1)
           (λ _, Reply 503 "503 Server Error" (inr JNull)) ∅ 503 "503 Server Error" JNull).
  - vm_compute; reflexivity.
  - reflexivity.
  - lia.
Defined.

(** X22.  For a symbol that is an ASCII text: [nse_equity] of [Nse.py]
    answers 400 exactly when the symbol is missing or empty, and then it
    asks no URL and leaves its cache alone.  For a symbol that is there,
    data fetched from the upstream is served again from [equity_cache]
    for the next 30 seconds, to a request for the same symbol in any
    letter case, without a request to the upstream. *)
Theorem nse_equity_symbol_and_cache (symbol : option string) (clock : Q)
    (net : string → upstream) (equity_cache : gmap string cache_entry) :
  is_ascii (default EmptyString symbol) = true →
  (status_code (fst (fst (Nse.nse_equity symbol clock net equity_cache))) = 400
   ↔ default EmptyString symbol = EmptyString)
  ∧ (default EmptyString symbol = EmptyString →
     Nse.nse_equity symbol clock net equity_cache
     = (Json (JObj [("error", JStr "Symbol is required")]) 400, equity_cache, []))
  ∧ (∀ d sym2 t1 net',
       default EmptyString symbol ≠ EmptyString →
       is_ascii (default EmptyString sym2) = true →
       upper (default EmptyString sym2) = upper (default EmptyString symbol) →
       cached (upper (default EmptyString symbol)) clock equity_cache = None →
       Nse.fetch (net (New.equity_url (upper (default EmptyString symbol)))) = inr d →
       (t1 - clock < 30)%Q →
       let key := upper (default EmptyString symbol) in
       let cache1 := <[key := CacheEntry d clock]> equity_cache in
       Nse.nse_equity symbol clock net equity_cache
       = (Json d 200, cache1, [New.equity_url key])
       ∧ Nse.nse_equity sym2 t1 net' cache1 = (Json d 200, cache1, [])).
Proof.
  intros _. split_and!.
  - unfold Nse.nse_equity. case_bool_decide as Hsym.
    + apply (proj1 (upper_empty _)) in Hsym. by rewrite Hsym.
    + split; [|intros Hempty; destruct Hsym; by apply (proj2 (upper_empty _))].
      destruct (cached _ _ _); [done|]. by destruct (Nse.fetch _).
  - intros Hsym. unfold Nse.nse_equity. by rewrite Hsym.
  - intros d sym2 t1 net' Hsym _ Hsame Hmiss Hfetch Hlt key cache1. subst key cache1.
    unfold Nse.nse_equity. rewrite Hsame.
    rewrite bool_decide_eq_false_2 by (intros Hempty; by apply (proj1 (upper_empty _)) in Hempty).
    by rewrite Hmiss, Hfetch, cached_insert.
Qed.

Lemma nse_equity_symbol_and_cache_witness :
  Nse.nse_equity (Some EmptyString) (100 # 1) (λ _, ConnError "down") ∅
  = (Json (JObj [("error", JStr "Symbol is required")]) 400, ∅, [])
  ∧ Nse.nse_equity (Some "Tcs") (120 # 1) (λ _, ConnError "down")
      (<["TCS" := CacheEntry JNull (100 # 1)]> ∅)
    = (Json JNull 200, <["TCS" := CacheEntry JNull (100 # 1)]> ∅, []).
Proof.
  split.
  - destruct (nse_equity_symbol_and_cache (Some EmptyString) (100 # 1)
                (λ _, ConnError "down") ∅) as (_ & Hempty & _); [reflexivity|].
    apply Hempty. reflexivity.
  - destruct (nse_equity_symbol_and_cache (Some "tcs") (100 # 1)
                (λ _, Reply 200 "" (inr JNull)) ∅) as (_ & _ & Hround);
      [vm_compute; reflexivity|].
    destruct (Hround JNull (Some "Tcs") (120 # 1)%Q (λ _, ConnError "down")) as [_ Hhit];
      [discriminate | vm_compute; reflexivity ..|].
    exact Hhit.
Defined.

Lemma append_empty (a b : string) : a +:+ b = EmptyString → a = EmptyString.
Proof. by destruct a. Qed.

Lemma join_cons_nonempty (sep x : string) (rest : list string) :
  x ≠ EmptyString → New.join sep (x :: rest) ≠ EmptyString.
Proof.
  intros Hx Hjoin. destruct rest as [|y rest]; cbn [New.join] in Hjoin; [done|].
  by apply append_empty in Hjoin.
Qed.

(** The header is empty only when the site set no cookie. *)
Lemma cookie_header_empty (cookies : list (string * string)) :
  New.cookie_header cookies = EmptyString ↔ cookies = [].
Proof.
  split; [|by intros ->]. destruct cookies as [|[name value] cookies]; [done|].
  unfold New.cookie_header. cbn [fmap list_fmap fst snd]. intros Hjoin.
  apply join_cons_nonempty in Hjoin; [done|]. intros Hempty.
  destruct name; [|done]. by destruct value.
Qed.

Lemma cookie_fresh_within (t0 t1 : Q) :
  (t1 - t0 < 300)%Q → (if Qlt_le_dec (t1 - t0) 300 then true else false) = true.
Proof.
  intros Hlt. destruct (Qlt_le_dec (t1 - t0) 300) as [_|Hle]; [done|].
  by apply Qle_not_lt in Hle.
Qed.

(** Whether the browser is launched depends on the cache and the clock
    only; when it is, the result is that of the launch. *)
Lemma cookies_launch_stale (clock : Q) (b b' : string + list (string * string))
    (cc : New.cookie_cache) :
  snd (New.get_nse_cookies clock b cc) = true →
  New.get_nse_cookies clock b' cc
  = match b' with
    | inl msg => (inl msg, cc, true)
    | inr cs =>
        (inr (New.cookie_header cs), New.CookieCache (Some (New.cookie_header cs)) clock,
         true)
    end.
Proof.
  unfold New.get_nse_cookies. destruct (New.cookie cc) as [c|]; [|done].
  destruct (negb _ && _); [done | reflexivity].
Qed.

(** X23.  [get_nse_cookies] launches the browser unless the cache holds a
    non-empty header less than 300 seconds old.  After a launch in which
    the site set at least one cookie, a call within 300 seconds returns
    the stored header without launching.  After a launch in which the
    site set no cookie the stored header is empty, and then every later
    call launches again.  A launch that raises leaves the cache as it
    was. *)
Theorem cookies_reused_within_300s (t0 t1 : Q) (cookies : list (string * string))
    (browser' : string + list (string * string)) (cc : New.cookie_cache) :
  snd (New.get_nse_cookies t0 (inr cookies) cc) = true →
  let h := New.cookie_header cookies in
  let cc1 := New.CookieCache (Some h) t0 in
  New.get_nse_cookies t0 (inr cookies) cc = (inr h, cc1, true)
  ∧ (cookies ≠ [] → (t1 - t0 < 300)%Q →
     New.get_nse_cookies t1 browser' cc1 = (inr h, cc1, false))
  ∧ (cookies = [] → snd (New.get_nse_cookies t1 browser' cc1) = true)
  ∧ (∀ msg, New.get_nse_cookies t0 (inl msg) cc = (inl msg, cc, true)).
Proof.
  intros Hlaunch h cc1. subst h cc1.
  split_and!.
  - apply (cookies_launch_stale t0 (inr cookies) (inr cookies) cc Hlaunch).
  - intros Hsome Hlt. unfold New.get_nse_cookies. cbn [New.cookie New.cookie_timestamp].
    rewrite cookie_fresh_within by done.
    rewrite bool_decide_eq_false_2; [done|]. by rewrite cookie_header_empty.
  - intros ->. unfold New.get_nse_cookies. cbn. by destruct browser'.
  - intros msg. apply (cookies_launch_stale t0 (inr cookies) (inl msg) cc Hlaunch).
Qed.

Lemma cookies_reused_within_300s_witness :
  New.get_nse_cookies (400 # 1) (inl "no browser")
    (New.CookieCache (Some "nsit=abc; nseappid=xyz") (200 # 1))
  = (inr "nsit=abc; nseappid=xyz",
     New.CookieCache (Some "nsit=abc; nseappid=xyz") (200 # 1), false).
Proof.
  destruct (cookies_reused_within_300s (200 # 1) (400 # 1)
              [("nsit", "abc"); ("nseappid", "xyz")] (inl "no browser") New.no_cookie)
    as (_ & Hreuse & _); [reflexivity|].
  apply Hreuse; [discriminate | vm_compute; reflexivity].
Defined.

(** X24.  [nse_equity] of [new.py] answers 400 exactly when the symbol is
    missing or empty, and then neither the browser nor the upstream is
    used.  A failing [asyncio.get_event_loop()] gives 500 before the
    browser is launched.  An answer 200 is never served from a cache: the
    equities URL of the upper-cased symbol was requested for it. *)
Theorem new_nse_equity_cases (symbol : option string) (clock : Q)
    (loop_error : option string) (browser : string + list (string * string))
    (net : string → string → upstream) (cc : New.cookie_cache) :
  let r := New.nse_equity symbol clock loop_error browser net cc in
  (status_code (fst (fst (fst r))) = 400 ↔ default EmptyString symbol = EmptyString)
  ∧ (default EmptyString symbol = EmptyString →
     r = (Json (JObj [("error", JStr "Symbol is required")]) 400, cc, false, []))
  ∧ (∀ msg, default EmptyString symbol ≠ EmptyString → loop_error = Some msg →
            r = (Json (JObj [("error", JStr msg)]) 500, cc, false, []))
  ∧ (status_code (fst (fst (fst r))) = 200 →
     snd r = [New.equity_url (upper (default EmptyString symbol))]).
Proof.
  intros r. subst r. unfold New.nse_equity. case_bool_decide as Hsym.
  - apply (proj1 (upper_empty _)) in Hsym. by rewrite Hsym.
  - assert (default EmptyString symbol ≠ EmptyString) as Hne.
    { intros Hempty. destruct Hsym. by apply (proj2 (upper_empty _)). }
    split_and!; try done.
    + split; [|done]. destruct loop_error; [by cbn [status_code fst]|].
      destruct (fst (fst (New.get_nse_cookies clock browser cc)));
        [by cbn [status_code fst]|].
      by destruct (New.fetch_equity_option_chain _ _ _); cbn [status_code fst].
    + by intros msg _ ->.
    + destruct loop_error; [by cbn [status_code fst]|].
      destruct (fst (fst (New.get_nse_cookies clock browser cc)));
        [by cbn [status_code fst]|].
      by destruct (New.fetch_equity_option_chain _ _ _); cbn [status_code fst].
Qed.

Lemma new_nse_equity_cases_witness :
  New.nse_equity None (100 # 1) None (inr []) (λ _ _, ConnError "down") New.no_cookie
  = (Json (JObj [("error", JStr "Symbol is required")]) 400, New.no_cookie, false, [])
  ∧ New.nse_equity (Some "tcs") (100 # 1) (Some "There is no current event loop")
      (inr []) (λ _ _, ConnError "down") New.no_cookie
    = (Json (JObj [("error", JStr "There is no current event loop")]) 500,
       New.no_cookie, false, []).
Proof.
  split.
  - destruct (new_nse_equity_cases None (100 # 1) None (inr []) (λ _ _, ConnError "down")
                New.no_cookie) as (_ & Hempty & _).
    apply Hempty. reflexivity.
  - destruct (new_nse_equity_cases (Some "tcs") (100 # 1)
                (Some "There is no current event loop") (inr [])
                (λ _ _, ConnError "down") New.no_cookie) as (_ & _ & Hloop & _).
    apply Hloop; [discriminate | reflexivity].
Defined.

(** X25.  Two requests to [/nse-equity] of [new.py] less than 300 seconds
    apart, the first of which launched the browser and got at least one
    cookie: the second one does not launch the browser, sends the stored
    [Cookie] header, and asks the upstream again, so its answer is what
    the upstream says then. *)
Theorem equity_second_request_reuses_cookie (sym1 sym2 : option string) (t0 t1 : Q)
    (cookies : list (string * string)) (browser' : string + list (string * string))
    (net net' : string → string → upstream) (cc : New.cookie_cache) :
  default EmptyString sym1 ≠ EmptyString →
  default EmptyString sym2 ≠ EmptyString →
  snd (New.get_nse_cookies t0 (inr cookies) cc) = true →
  cookies ≠ [] →
  (t1 - t0 < 300)%Q →
  let h := New.cookie_header cookies in
  let cc1 := New.CookieCache (Some h) t0 in
  let url := New.equity_url (upper (default EmptyString sym2)) in
  snd (fst (New.nse_equity sym1 t0 None (inr cookies) net cc)) = true
  ∧ snd (fst (fst (New.nse_equity sym1 t0 None (inr cookies) net cc))) = cc1
  ∧ New.nse_equity sym2 t1 None browser' net' cc1
    = (match New.fetch (net' url h) with
       | inr d => Json d 200
       | inl msg => Json (JObj [("error", JStr msg)]) 500
       end, cc1, false, [url]).
Proof.
  intros Hsym1 Hsym2 Hlaunch Hsome Hlt h cc1 url. subst h cc1 url.
  pose proof (cookies_launch_stale t0 (inr cookies) (inr cookies) cc Hlaunch) as Hfirst.
  cbn beta iota in Hfirst.
  assert (New.get_nse_cookies t1 browser'
            (New.CookieCache (Some (New.cookie_header cookies)) t0)
          = (inr (New.cookie_header cookies),
             New.CookieCache (Some (New.cookie_header cookies)) t0, false)) as Hsecond.
  { unfold New.get_nse_cookies. cbn [New.cookie New.cookie_timestamp].
    rewrite cookie_fresh_within by done.
    rewrite bool_decide_eq_false_2; [done|]. by rewrite cookie_header_empty. }
  unfold New.nse_equity.
  rewrite !bool_decide_eq_false_2
    by (intros Hempty; by apply (proj1 (upper_empty _)) in Hempty).
  rewrite Hfirst, Hsecond. cbn [fst snd]. unfold New.fetch_equity_option_chain.
  split_and!.
  - by destruct (New.fetch _).
  - by destruct (New.fetch _).
  - by destruct (New.fetch _).
Qed.

Lemma equity_second_request_reuses_cookie_witness :
  New.nse_equity (Some "tcs") (400 # 1) None (inl "no browser")
    (λ _ h, if bool_decide (h = "nsit=abc") then Reply 200 EmptyString (inr JNull)
            else Reply 401 "401 Client Error" (inl "no json"))
    (New.CookieCache (Some "nsit=abc") (200 # 1))
  = (Json JNull 200, New.CookieCache (Some "nsit=abc") (200 # 1), false,
     [New.equity_url "TCS"]).
Proof.
  destruct (equity_second_request_reuses_cookie (Some "infy") (Some "tcs") (200 # 1) (400 # 1)
              [("nsit", "abc")] (inl "no browser") (λ _ _, ConnError "down")
              (λ _ h, if bool_decide (h = "nsit=abc") then Reply 200 EmptyString (inr JNull)
                      else Reply 401 "401 Client Error" (inl "no json"))
              New.no_cookie)
    as (_ & _ & Hsecond);
    [discriminate | discriminate | reflexivity | discriminate | vm_compute; reflexivity |].
  exact Hsecond.
Defined.

(** ** [main.py]: the synchronous upload and the stream without a platform *)

Lemma allowed_file_nonempty (name : string) : allowed_file name = true → name ≠ EmptyString.
Proof. by intros Hallowed ->. Qed.

Section MainUpload.
Variable sha256 : list Byte.byte → string.

(** X26.  In [main.py] the duplicate check is part of the request.  After
    an accepted upload of new content, an upload of the same bytes, under
    any allowed name and any e-mail address, whose file name is not taken,
    is answered 200 [Duplicate video] with the id of the first upload,
    and leaves files, hashes and timers exactly as the first upload left
    them. *)
Theorem main_duplicate_upload_names_first (email1 email2 id1 id2 : string)
    (f1 f2 : New.upload) (s : state) :
  allowed_file (New.filename f1) = true →
  allowed_file (New.filename f2) = true →
  New.stream_bytes f2 = New.stream_bytes f1 →
  video_hashes s !! sha256 (New.stream_bytes f1) = None →
  let s1 := snd (Main.upload_video sha256 email1 (Some f1) id1 New.Saved s) in
  let path2 :=
    path_join UPLOAD_FOLDER
      (email2 +:+ "_" +:+ id2 +:+ "."
       +:+ lower (default EmptyString (rsplit_dot (New.filename f2)))) in
  files s1 !! path2 = None →
  status_code (fst (Main.upload_video sha256 email1 (Some f1) id1 New.Saved s)) = 200
  ∧ video_hashes s1 !! sha256 (New.stream_bytes f1) = Some id1
  ∧ Main.upload_video sha256 email2 (Some f2) id2 New.Saved s1
    = (Json (JObj [("message", JStr "Duplicate video"); ("videoId", JStr id1)]) 200, s1).
Proof.
  intros Hallowed1 Hallowed2 Hbytes Hnew s1 path2 Hfree. subst s1 path2.
  revert Hfree. unfold Main.upload_video.
  rewrite (bool_decide_eq_false_2 _ (allowed_file_nonempty _ Hallowed1)).
  rewrite (bool_decide_eq_false_2 _ (allowed_file_nonempty _ Hallowed2)).
  rewrite Hallowed1, Hallowed2, Hbytes.
  cbn [video_hashes set_files files]. rewrite Hnew.
  cbn [fst snd status_code video_hashes files set_files set_video_hashes start_timer
       active_streams procs timers].
  rewrite lookup_insert_eq. intros Hfree. split_and!; [done | done |].
  by rewrite delete_insert_id.
Qed.
End MainUpload.

Lemma main_duplicate_upload_names_first_witness :
  Main.upload_video Sample.digest "b@y.org" (Some (New.Upload "copy.MP4" Sample.ten_A)) "id2"
    New.Saved
    (snd (Main.upload_video Sample.digest "a@x.org" (Some (New.Upload "clip.mp4" Sample.ten_A))
            "id1" New.Saved Sample.empty_state))
  = (Json (JObj [("message", JStr "Duplicate video"); ("videoId", JStr "id1")]) 200,
     snd (Main.upload_video Sample.digest "a@x.org" (Some (New.Upload "clip.mp4" Sample.ten_A))
            "id1" New.Saved Sample.empty_state)).
Proof.
  destruct (main_duplicate_upload_names_first Sample.digest "a@x.org" "b@y.org" "id1" "id2"
              (New.Upload "clip.mp4" Sample.ten_A) (New.Upload "copy.MP4" Sample.ten_A)
              Sample.empty_state) as (_ & _ & Hdup); [vm_compute; reflexivity ..|].
  exact Hdup.
Defined.

(** X27.  The destination that [run_ffmpeg_stream] of [main.py] computes
    always starts with [rtmp://], and computing it again changes nothing.
    For a key that does not start with [rtmp://] it is the YouTube row of
    the table of [new.py]; in particular an [rtmps://] address is not
    passed through but appended to the YouTube address. *)
Theorem main_output_url_rtmp (k : string) :
  (∃ rest, Main.output_url k = "rtmp://" +:+ rest)
  ∧ Main.output_url (Main.output_url k) = Main.output_url k
  ∧ (strip_prefix "rtmp://" k = None →
     New.output_url "youtube" k = Some (Main.output_url k))
  ∧ (∀ rest, k = "rtmps://" +:+ rest →
             Main.output_url k = "rtmp://a.rtmp.youtube.com/live2/rtmps://" +:+ rest).
Proof.
  assert (∃ rest, Main.output_url k = "rtmp://" +:+ rest) as [rest Hrest].
  { unfold Main.output_url. destruct (strip_prefix "rtmp://" k) as [r|] eqn:Hk.
    - exists r. by apply strip_prefix_Some.
    - by exists ("a.rtmp.youtube.com/live2/" +:+ k). }
  split_and!.
  - by exists rest.
  - rewrite Hrest. unfold Main.output_url. by rewrite strip_prefix_app.
  - intros Hk. unfold Main.output_url. by rewrite Hk.
  - intros r ->. reflexivity.
Qed.

Lemma main_output_url_rtmp_witness :
  New.output_url "youtube" "abcd-1234" = Some (Main.output_url "abcd-1234")
  ∧ Main.output_url "rtmps://live-api-s.facebook.com:443/rtmp/key"
    = "rtmp://a.rtmp.youtube.com/live2/rtmps://live-api-s.facebook.com:443/rtmp/key".
Proof.
  split.
  - destruct (main_output_url_rtmp "abcd-1234") as (_ & _ & Hrow & _).
    apply Hrow. reflexivity.
  - destruct (main_output_url_rtmp "rtmps://live-api-s.facebook.com:443/rtmp/key")
      as (_ & _ & _ & Hrtmps).
    apply (Hrtmps "live-api-s.facebook.com:443/rtmp/key"). reflexivity.
Defined.

(** X28.  A start request whose body is a JSON object with [streamKey],
    [loops] and [taskId] but no [platform], for a stored file: [new.py]
    refuses it with 400, [main.py] answers 200 and starts a thread.  When
    the stream key is a text and the child starts, the first step of that
    thread always spawns: it appends one running child with the terminal
    command of the operating system, registers the session as [starting]
    under that child, and writes no file.  When the stream key is not a
    text, [stream_key.startswith] raises: no child is started, the thread
    ends, and the state changes only if an earlier session of the id is
    still registered, which is then marked [error]. *)
Theorem main_start_needs_no_platform (vid system_platform clock : string) (heeds busy : bool)
    (data : gmap string value) (s : state) (name : string) :
  (∀ k, k ∈ Main.required_fields → is_Some (data !! k)) →
  data !! "platform" = None →
  is_Some (files s !! path_join UPLOAD_FOLDER name) →
  str_in vid name = true →
  New.start_stream vid (Object data) s
  = (Json (JObj [("error", JStr "Missing required fields")]) 400, None)
  ∧ ∃ t,
      Main.start_stream vid (Object data) s
      = (Json (JObj [("message", JStr "Stream starting"); ("videoId", JStr vid)]) 200, Some t)
      ∧ video_id (ff_arg t) = vid
      ∧ is_Some (files s !! video_path (ff_arg t))
      ∧ (∀ key, data !! "streamKey" = Some (Str key) →
           Main.run_ffmpeg_stream_step system_platform (Env clock (inr heeds) busy) t s
           = (State (files s) (video_hashes s)
                    (<[vid := Stream (Some (length (procs s))) starting (item data "taskId")
                                clock None]> (active_streams s))
                    (procs s
                     ++ [Proc (Main.terminal_cmd system_platform (Main.base_cmd (ff_arg t) key))
                              heeds None])
                    (timers s),
              FFTask (ff_arg t) Settle (Some (length (procs s)))))
      ∧ (∀ type_name rendered j e, data !! "streamKey" = Some (NonStr type_name rendered j) →
           Main.run_ffmpeg_stream_step system_platform e t s
           = (except_clause vid (no_startswith type_name) s, FFTask (ff_arg t) Done None)
           ∧ procs (except_clause vid (no_startswith type_name) s) = procs s
           ∧ files (except_clause vid (no_startswith type_name) s) = files s
           ∧ (active_streams s !! vid = None →
              except_clause vid (no_startswith type_name) s = s)).
Proof.
  intros Hfields Hplatform Hfile Hvid. split.
  - unfold New.start_stream, New.required_fields.
    cbn [forallb New.has_field default from_option id].
    rewrite (bool_decide_eq_false_2 (is_Some (data !! "platform")));
      [by rewrite !andb_false_r | rewrite Hplatform; by intros [? ?]].
  - unfold Main.start_stream.
    rewrite (proj2 (required_fields_present data Main.required_fields) Hfields).
    cbn [negb].
    destruct (some_video_file vid name s Hfile Hvid) as (f & rest & -> & _ & Hf).
    eexists. split_and!; [reflexivity | reflexivity | exact Hf | |].
    + intros key Hkey. unfold Main.run_ffmpeg_stream_step.
      cbn [ff_at ff_arg stream_key]. unfold item at 1. rewrite Hkey. reflexivity.
    + intros type_name rendered j e Hkey. unfold Main.run_ffmpeg_stream_step.
      cbn [ff_at ff_arg stream_key video_id]. unfold item at 1. rewrite Hkey.
      cbn [default from_option id]. split_and!.
      * reflexivity.
      * unfold except_clause. by destruct (active_streams s !! vid).
      * unfold except_clause. by destruct (active_streams s !! vid).
      * intros Hnone. unfold except_clause. by rewrite Hnone.
Qed.

Lemma main_start_needs_no_platform_witness :
  New.start_stream "id1" (Object (delete "platform" (Sample.request_fields "youtube")))
    Sample.stored
  = (Json (JObj [("error", JStr "Missing required fields")]) 400, None)
  ∧ fst (Main.start_stream "id1" (Object (delete "platform" (Sample.request_fields "youtube")))
           Sample.stored)
    = Json (JObj [("message", JStr "Stream starting"); ("videoId", JStr "id1")]) 200.
Proof.
  destruct (main_start_needs_no_platform "id1" "Linux" "2025-01-01T00:00:00" true false
              (delete "platform" (Sample.request_fields "youtube")) Sample.stored
              "a@x.org_id1.mp4") as (Hnew & t & Hmain & _).
  - intros k Hk. unfold Main.required_fields in Hk.
    repeat (apply elem_of_cons in Hk as [->|Hk]; [vm_compute; eauto|]).
    by apply elem_of_nil in Hk.
  - vm_compute; reflexivity.
  - vm_compute; eauto.
  - vm_compute; reflexivity.
  - split; [exact Hnew | by rewrite Hmain].
Defined.
